(** * image-platform: generation, artifact storage and publish dispatch

    A shallow embedding of the Go sources of the image platform:
    - [cmd/server/main.go] (module [Server]): configuration load, the
      single-target generation orchestrator with its synchronous adapter
      and its two asynchronous task pollers, the artifact store
      ([downloadAndSave]) and the generate / publish HTTP handlers,
      with the moderation, report and gallery handlers;
    - the first revision of that file (module [ServerV1]): its one
      adapter and the handler that falls back from platform to platform;
    - [config] (module [Config]): the configuration loader of the
      generator package;
    - [internal/publisher] (module [Publisher]): the registry of publish
      adapters and its dispatcher;
    - [internal/generator] (module [Generator]): the fan-out generator.

    Effects are explicit.  A Go function that talks to the network, the
    clock, the file system, the database or the log becomes a function in
    the state monad [M] over a [World]; the world carries the scripted
    answers of the remote side and a trace of everything the program did. *)

From stdpp Require Import base strings gmap list pretty.
From Stdlib Require Import ZArith Ascii Permutation.

Open Scope string_scope.
Open Scope Z_scope.

(** ** Go library functions used by the program *)

(** [fmt.Sprintf("%d", n)] for a Go [int]. *)
Definition itoa (n : Z) : string := pretty n.

(** Decimal rendering of a calendar field, zero padded to [width] digits,
    as [time.Format] renders [2006], [01], [02], [15], [04] and [05]. *)
Fixpoint zeros (n : nat) : string :=
  match n with
  | O => ""
  | S n' => String "0" (zeros n')
  end.

Definition zpad (width : nat) (n : nat) : string :=
  let s := pretty n in
  zeros (width - String.length s) +:+ s.

Record Time := mkTime {
  year : nat; month : nat; day : nat;
  hour : nat; minute : nat; second : nat;
  unix : Z
}.

(** [t.Format("2006-01-02")] *)
Definition Format_date (t : Time) : string :=
  zpad 4 (year t) +:+ "-" +:+ zpad 2 (month t) +:+ "-" +:+ zpad 2 (day t).

(** [t.Format("150405")] *)
Definition Format_hms (t : Time) : string :=
  zpad 2 (hour t) +:+ zpad 2 (minute t) +:+ zpad 2 (second t).

(** [t.Format("20060102_150405")] *)
Definition Format_stamp (t : Time) : string :=
  zpad 4 (year t) +:+ zpad 2 (month t) +:+ zpad 2 (day t) +:+ "_" +:+ Format_hms t.

(** [strings.Contains(s, sub)] *)
Fixpoint Contains (s sub : string) : bool :=
  String.prefix sub s ||
  match s with
  | EmptyString => false
  | String _ s' => Contains s' sub
  end.

(** [strings.ReplaceAll(s, old, new)] for a one-byte [old] and [new]. *)
Fixpoint ReplaceAll (s : string) (old new : ascii) : string :=
  match s with
  | EmptyString => EmptyString
  | String c s' => String (if Ascii.eqb c old then new else c) (ReplaceAll s' old new)
  end.

(** The byte slice [s[:n]] (for [n <= len(s)]). *)
Fixpoint take_bytes (n : nat) (s : string) : string :=
  match n, s with
  | S n', String c s' => String c (take_bytes n' s')
  | _, _ => EmptyString
  end.

(** [strings.Split(s, "/")] *)
Fixpoint split_slash (s : string) : list string :=
  match s with
  | EmptyString => [EmptyString]
  | String c s' =>
      if Ascii.eqb c "/" then EmptyString :: split_slash s'
      else match split_slash s' with
           | x :: xs => String c x :: xs
           | [] => [String c EmptyString]
           end
  end.

(** [strings.Join(elems, "/")] *)
Fixpoint join_slash (elems : list string) : string :=
  match elems with
  | [] => ""
  | [e] => e
  | e :: rest => e +:+ "/" +:+ join_slash rest
  end.

(** One path element of [filepath.Clean].  [out] is the cleaned prefix, last
    element first.  An empty element and [.] are skipped; [..] removes the
    last real element, is kept in a relative path that has nothing left to
    remove, and is dropped at the root. *)
Definition clean_elem (rooted : bool) (out : list string) (e : string) : list string :=
  if String.eqb e "" || String.eqb e "." then out
  else if String.eqb e ".." then
    match out with
    | top :: rest => if String.eqb top ".." then e :: out else rest
    | [] => if rooted then [] else [e]
    end
  else e :: out.

(** [filepath.Clean(path)] on a slash separated path. *)
Definition Clean (path : string) : string :=
  match path with
  | EmptyString => "."
  | String c _ =>
      let rooted := Ascii.eqb c "/" in
      let out := rev (fold_left (clean_elem rooted) (split_slash path) []) in
      if rooted then "/" +:+ join_slash out
      else match out with
           | [] => "."
           | _ => join_slash out
           end
  end.

(** [filepath.Join(elem...)]: leading empty elements are ignored, the rest
    is joined with slashes and cleaned; no non-empty element gives [""]. *)
Fixpoint Join (elem : list string) : string :=
  match elem with
  | [] => ""
  | e :: rest =>
      if String.eqb e "" then Join rest else Clean (join_slash elem)
  end.

(** [filepath.Base(path)] is only used in a log line and in a multipart
    file name; the last element of the split is what it returns for the
    paths the program builds. *)
Definition Base (path : string) : string :=
  match path with
  | EmptyString => "."
  | _ => List.last (split_slash path) ""
  end.

(** A Go [error] is its message; [nil] is [None]. *)
Definition error := option string.

(** [fmt.Sprintf("%v", err)] *)
Definition fmt_err (e : error) : string :=
  match e with
  | None => "<nil>"
  | Some m => m
  end.

(** ** The world the program runs in *)

(** What [encoding/json] decodes from a response body into the anonymous
    structs the program declares.  A field that is absent from the body
    has Go's zero value (the empty string, the empty list). *)
Record Json := mkJson {
  unmarshal_err : error;          (* result of json.Unmarshal *)
  data : list string;             (* data[i].url *)
  output_task_id : string;        (* output.task_id *)
  output_task_status : string;    (* output.task_status *)
  output_results : list string;   (* output.results[i].url *)
  task_id : string;               (* task_id *)
  task_status : string;           (* task_status *)
  output_images : list string     (* output_images[i] *)
}.

Definition no_json : Json := mkJson None [] "" "" [] "" "" [].

Record Response := mkResponse {
  StatusCode : Z;
  raw : string;                   (* the bytes io.ReadAll returns *)
  read_err : error;               (* the error io.ReadAll returns with them *)
  json : Json                     (* what json.Unmarshal makes of them *)
}.

(** The answer to one HTTP request: a transport error, or a response. *)
Inductive HttpResult :=
| Failed (err : string)
| Replied (resp : Response).

Inductive ReqBody :=
| NoBody
| JsonSync (model prompt size : string) (n : Z)
| JsonAliyun (model prompt size : string) (n : Z)
| JsonModelScope (model prompt : string) (size : option string)
| Multipart (filename title content : string).

Record Request := mkRequest {
  method : string;
  url : string;
  headers : list (string * string);
  body : ReqBody
}.

Inductive Event :=
| EvHttp (req : Request)                      (* a request handed to the HTTP client *)
| EvLLM (baseURL model prompt : string)       (* a langchaingo completion call *)
| EvSleep (seconds : nat)                     (* time.Sleep *)
| EvLog (line : string)                       (* log.Printf / log.Println *)
| EvMkdirAll (dir : string)                   (* os.MkdirAll *)
| EvWriteFile (path : string) (contents : string) (* os.WriteFile *)
| EvPublish (platform : string) (imgPath title content : string).
                                              (* entry into an adapter's Publish *)

(** A row of the [images] table ([ImageRecord] of main.go). *)
Module ImageRecord.
Record t := mk {
  ID : nat;
  Name : string;
  Date : string;
  Path : string;
  Platform : string;
  Model : string;
  Prompt : string;
  GeneratedAt : Time;
  Status : string;
  Note : string
}.
End ImageRecord.

Record World := mkWorld {
  clock : Time;                   (* what time.Now() returns *)
  getenv : string -> string;      (* os.Getenv *)
  net : list HttpResult;          (* answers of the remote side, in request order *)
  files : gmap string string;     (* regular files: path to contents *)
  write_err : error;              (* the error os.WriteFile fails with, if it does *)
  db : list ImageRecord.t;          (* the images table *)
  trace : list Event              (* what the program did, oldest first *)
}.

Definition M (A : Type) : Type := World -> A * World.

#[global] Instance M_ret : MRet M := fun A x w => (x, w).
#[global] Instance M_bind : MBind M :=
  fun A B f m w => let '(a, w') := m w in f a w'.

Definition emit (e : Event) : M unit :=
  fun w => (tt, mkWorld (clock w) (getenv w) (net w) (files w) (write_err w) (db w)
                        (trace w ++ [e])).

Definition time_Now : M Time := fun w => (clock w, w).

Definition time_Sleep (seconds : nat) : M unit := emit (EvSleep seconds).

Definition log_Printf (line : string) : M unit := emit (EvLog line).

Definition os_MkdirAll (dir : string) : M unit := emit (EvMkdirAll dir).

(** [os.Open(path)] succeeds on the files that exist. *)
Definition os_Open (path : string) : M error :=
  fun w => match files w !! path with
           | Some _ => (None, w)
           | None => (Some ("open " +:+ path +:+ ": no such file or directory"), w)
           end.

(** [os.WriteFile(path, data, 0644)]: the whole of [data] in one call, or
    an error and no change. *)
Definition os_WriteFile (path contents : string) : M error :=
  fun w => match write_err w with
           | Some e => (Some e, w)
           | None =>
               (None, mkWorld (clock w) (getenv w) (net w) (<[path := contents]> (files w))
                              (write_err w) (db w) (trace w ++ [EvWriteFile path contents]))
           end.

(** [client.Do(req)] and [http.Get(url)]: the request is recorded and the
    next scripted answer is consumed; a remote side with nothing left to
    say is unreachable. *)
Definition http_Do (req : Request) : M HttpResult :=
  fun w =>
    let tr := (trace w ++ [EvHttp req])%list in
    match net w with
    | r :: rest => (r, mkWorld (clock w) (getenv w) rest (files w) (write_err w) (db w) tr)
    | [] => (Failed "connection refused",
             mkWorld (clock w) (getenv w) [] (files w) (write_err w) (db w) tr)
    end.

Definition http_Get (u : string) : M HttpResult :=
  http_Do (mkRequest "GET" u [] NoBody).

(** The requests sent so far. *)
Definition requests (w : World) : list Request :=
  omap (fun e => match e with EvHttp r => Some r | _ => None end) (trace w).

(** The files written so far. *)
Definition writes (w : World) : list (string * string) :=
  omap (fun e => match e with EvWriteFile p c => Some (p, c) | _ => None end) (trace w).

(** [http.NewRequest] succeeds on every URL in this model: the endpoints
    come from the configuration and are taken to be well-formed, so the
    error branches the source has after it are never entered. *)

(** ** internal/publisher: the publish registry and its adapters *)

Module Publisher.

(** [type PlatformType string] *)
Abbreviation PlatformType := string.

Definition PlatformXiaohongshu : PlatformType := "xiaohongshu".
Definition PlatformDouyin : PlatformType := "douyin".
Definition PlatformBilibili : PlatformType := "bilibili".
Definition PlatformTwitter : PlatformType := "twitter".
Definition PlatformCustom : PlatformType := "custom".

(** The [Platform] interface: what an adapter has to provide. *)
Class PlatformImpl (T : Type) := {
  impl_Name : T -> string;
  impl_Publish : T -> string -> string -> string -> M (string * error);
  impl_Type : T -> PlatformType
}.

(** An interface value: the methods of some adapter, closed over it. *)
Record Platform := mkPlatform {
  Name : string;
  Publish : string -> string -> string -> M (string * error);
  Type_ : PlatformType
}.

Definition as_Platform {T} `{PlatformImpl T} (x : T) : Platform :=
  mkPlatform (impl_Name x) (impl_Publish x) (impl_Type x).

(** A call [p.Publish(ctx, imgPath, title, content)] through the
    interface.  The call itself is recorded in the trace. *)
Definition invoke (p : Platform) (imgPath title content : string) : M (string * error) :=
  emit (EvPublish (Type_ p) imgPath title content);;
  Publish p imgPath title content.

(** *** Xiaohongshu *)

Record Xiaohongshu := mkXiaohongshu {
  xhs_APIURL : string;
  xhs_Cookies : string;
  xhs_XSecToken : string
}.

Definition NewXiaohongshu (apiURL cookies xSecToken : string) : Xiaohongshu :=
  let apiURL := if String.eqb apiURL "" then "http://127.0.0.1:18060/mcp" else apiURL in
  mkXiaohongshu apiURL cookies xSecToken.

(** The request is built and never sent. *)
Definition publishViaMCP (p : Xiaohongshu) (imgPath title content : string) : M error :=
  log_Printf ("[小红书] 调用 MCP 发布图片: " +:+ Base imgPath);;
  mret None.

Definition Xiaohongshu_Publish (p : Xiaohongshu) (imgPath title content : string)
  : M (string * error) :=
  log_Printf ("[小红书] 开始发布: " +:+ imgPath);;
  err ← os_Open imgPath;
  match err with
  | Some e => mret ("", Some ("打开图片失败: " +:+ e))
  | None =>
      err ← publishViaMCP p imgPath title content;
      match err with
      | Some e => mret ("", Some ("发布失败: " +:+ e))
      | None =>
          log_Printf "[小红书] 发布成功";;
          mret ("发布成功", None)
      end
  end.

#[global] Instance Xiaohongshu_impl : PlatformImpl Xiaohongshu := {
  impl_Name _ := "小红书";
  impl_Publish := Xiaohongshu_Publish;
  impl_Type _ := PlatformXiaohongshu
}.

(** *** Douyin *)

Record Douyin := mkDouyin { dy_APIURL : string }.

Definition NewDouyin (apiURL : string) : Douyin := mkDouyin apiURL.

Definition Douyin_Publish (p : Douyin) (imgPath title content : string)
  : M (string * error) :=
  log_Printf ("[抖音] 发布: " +:+ imgPath);;
  mret ("抖音发布功能开发中", None).

#[global] Instance Douyin_impl : PlatformImpl Douyin := {
  impl_Name _ := "抖音";
  impl_Publish := Douyin_Publish;
  impl_Type _ := PlatformDouyin
}.

(** *** Bilibili *)

Record Bilibili := mkBilibili { bl_APIURL : string; bl_Cookie : string }.

Definition NewBilibili (apiURL cookie : string) : Bilibili := mkBilibili apiURL cookie.

Definition Bilibili_Publish (p : Bilibili) (imgPath title content : string)
  : M (string * error) :=
  log_Printf ("[B站] 发布: " +:+ imgPath);;
  mret ("B站发布功能开发中", None).

#[global] Instance Bilibili_impl : PlatformImpl Bilibili := {
  impl_Name _ := "B站";
  impl_Publish := Bilibili_Publish;
  impl_Type _ := PlatformBilibili
}.

(** *** CustomPlatform: multipart upload to an arbitrary endpoint

    The multipart body is kept as its three parts; the boundary that
    [FormDataContentType] appends to the content type is left out. *)

Record CustomPlatform := mkCustomPlatform {
  NameVal : string;
  TypeVal : PlatformType;
  APIURL : string;
  AuthHeader : string
}.

Definition NewCustomPlatform (name : string) (ptype : PlatformType)
                             (apiURL authHeader : string) : CustomPlatform :=
  mkCustomPlatform name ptype apiURL authHeader.

Definition CustomPlatform_Publish (p : CustomPlatform) (imgPath title content : string)
  : M (string * error) :=
  log_Printf ("[" +:+ NameVal p +:+ "] 发布: " +:+ imgPath);;
  if String.eqb (APIURL p) "" then mret ("", Some "未配置 API URL")
  else
    err ← os_Open imgPath;
    match err with
    | Some e => mret ("", Some e)
    | None =>
        let hs := ("Content-Type", "multipart/form-data") ::
                  (if String.eqb (AuthHeader p) "" then []
                   else [("Authorization", AuthHeader p)]) in
        r ← http_Do (mkRequest "POST" (APIURL p) hs
                               (Multipart (Base imgPath) title content));
        match r with
        | Failed e => mret ("", Some e)
        | Replied resp =>
            if 400 <=? StatusCode resp
            then mret ("", Some ("HTTP " +:+ itoa (StatusCode resp)))
            else mret ("发布成功", None)
        end
    end.

#[global] Instance CustomPlatform_impl : PlatformImpl CustomPlatform := {
  impl_Name := NameVal;
  impl_Publish := CustomPlatform_Publish;
  impl_Type := TypeVal
}.

(** *** Manager *)

Record Manager := mkManager { platforms : gmap PlatformType Platform }.

Definition New : Manager := mkManager ∅.

(** [m.Register(p)] mutates the manager in place; here the updated
    manager is returned. *)
Definition Register (m : Manager) (p : Platform) : M Manager :=
  log_Printf ("📤 已注册发布平台: " +:+ Name p);;
  mret (mkManager (<[Type_ p := p]> (platforms m))).

Definition Get (m : Manager) (t : PlatformType) : option Platform :=
  platforms m !! t.

(** [m.List()]: the registered adapters, in the order the map is ranged
    over. *)
Definition List_ (m : Manager) : list Platform :=
  (map_to_list (platforms m)).*2.

Definition Manager_Publish (m : Manager) (platformType : PlatformType)
                           (imgPath title content : string) : M (string * error) :=
  match platforms m !! platformType with
  | None => mret ("", Some ("未支持的平台: " +:+ platformType))
  | Some p => invoke p imgPath title content
  end.

Fixpoint PublishAll_loop (ps : list Platform) (imgPath title content : string)
                         (results : gmap string string) : M (gmap string string) :=
  match ps with
  | [] => mret results
  | p :: rest =>
      '(u, err) ← invoke p imgPath title content;
      let results :=
        match err with
        | Some e => <[Name p := "失败: " +:+ e]> results
        | None => <[Name p := u]> results
        end in
      PublishAll_loop rest imgPath title content results
  end.

Definition PublishAll (m : Manager) (imgPath title content : string)
  : M (gmap string string) :=
  PublishAll_loop (List_ m) imgPath title content ∅.

End Publisher.

(** ** internal/generator: fan-out over every registered provider *)

Module Generator.

Module ImageGenConfig.
Record t := mk {
  OutputDir : string;
  LogDir : string;
  Width : Z;
  Height : Z;
  MaxRetries : Z;
  RetryDelay : Z;
  Timeout : Z;
  MaxWorkers : Z
}.
End ImageGenConfig.

Module PlatformConfig.
Record t := mk {
  Name : string;
  EnvKey : string;
  APIKey : string;
  URL : string;
  Model : string;
  Enabled : bool;
  Description : string
}.
End PlatformConfig.

Module PlatformGenerator.
Record t := mk {
  Name : string;
  APIKey : string;
  Model : string;
  BaseURL : string
}.
End PlatformGenerator.

Module GenerateResult.
Record t := mk {
  Platform : string;
  FilePath : string;
  ImageURL : string;
  Success : bool;
  Error : string;
  GeneratedAt : Time
}.
End GenerateResult.

Record ImageGenerator := mkImageGenerator {
  cfg : ImageGenConfig.t;
  generators : gmap string PlatformGenerator.t
}.

Definition gen_of (platformCfg : PlatformConfig.t) : PlatformGenerator.t :=
  PlatformGenerator.mk (PlatformConfig.Name platformCfg)
                       (PlatformConfig.APIKey platformCfg)
                       (PlatformConfig.Model platformCfg)
                       (PlatformConfig.URL platformCfg).

Fixpoint log_each (lines : list string) : M unit :=
  match lines with
  | [] => mret tt
  | l :: rest => log_Printf l;; log_each rest
  end.

(** [New(cfg, platforms)]: one generator per entry of [platforms],
    whatever its [Enabled] flag says. *)
Definition New (c : ImageGenConfig.t) (platforms : gmap string PlatformConfig.t)
  : M ImageGenerator :=
  log_each ((fun kp => "已启用平台: " +:+ kp.1 +:+ " - " +:+ PlatformConfig.Name kp.2)
              <$> map_to_list platforms);;
  mret (mkImageGenerator c (gen_of <$> platforms)).

Definition sanitizeFilename (name : string) : string :=
  let name := if (20 <? String.length name)%nat then take_bytes 20 name else name in
  let name := ReplaceAll name "/" "_" in
  let name := ReplaceAll name " " "_" in
  ReplaceAll name ":" "_".

(** [httpGet(url)] *)
Definition httpGet (u : string) : M (string * error) :=
  r ← http_Get u;
  match r with
  | Failed e => mret ("", Some e)
  | Replied resp => mret (raw resp, read_err resp)
  end.

(** [downloadImage(url, filepath)] *)
Definition downloadImage (u filepath : string) : M error :=
  '(resp, err) ← httpGet u;
  match err with
  | Some e => mret (Some e)
  | None => os_WriteFile filepath resp
  end.

(** [callWithLangchaingo]: a demonstration call whose answer the source
    discards; only log lines depend on it, and they are left out. *)
Definition callWithLangchaingo (p : PlatformGenerator.t) (prompt : string) : M unit :=
  emit (EvLLM (PlatformGenerator.BaseURL p) (PlatformGenerator.Model p) prompt).

(** [generateViaHTTP(prompt, width, height)] *)
Definition generateViaHTTP (p : PlatformGenerator.t) (prompt : string) (width height : Z)
  : M (string * error) :=
  let size := itoa width +:+ "x" +:+ itoa height in
  let reqBody := JsonSync (PlatformGenerator.Model p) prompt size 1 in
  let apiURL := PlatformGenerator.BaseURL p in
  let apiURL := if negb (Contains apiURL "/images/generations")
                then apiURL +:+ "/images/generations" else apiURL in
  r ← http_Do (mkRequest "POST" apiURL
                 [("Authorization", "Bearer " +:+ PlatformGenerator.APIKey p);
                  ("Content-Type", "application/json")] reqBody);
  match r with
  | Failed e => mret ("", Some e)
  | Replied resp =>
      let respBody := raw resp in
      if negb (StatusCode resp =? 200)
      then mret ("", Some ("HTTP " +:+ itoa (StatusCode resp) +:+ ": " +:+ respBody))
      else
        let result := json resp in
        match unmarshal_err result with
        | Some e => mret ("", Some ("解析响应失败: " +:+ e))
        | None =>
            match data result with
            | [] => mret ("", Some ("无图片返回: " +:+ respBody))
            | u :: _ =>
                if String.eqb u "" then mret ("", Some ("无图片返回: " +:+ respBody))
                else mret (u, None)
            end
        end
  end.

(** [Generate(prompt, width, height)] *)
Definition Generate (p : PlatformGenerator.t) (prompt : string) (width height : Z)
  : M (string * error) :=
  callWithLangchaingo p prompt;;
  generateViaHTTP p prompt width height.

(** [GenerateSingle(platform, prompt)] *)
Definition GenerateSingle (g : ImageGenerator) (platform prompt : string)
  : M GenerateResult.t :=
  match generators g !! platform with
  | None =>
      now ← time_Now;
      mret (GenerateResult.mk platform "" "" false "平台未启用" now)
  | Some gen =>
      '(imageURL, err) ← Generate gen prompt (ImageGenConfig.Width (cfg g))
                                             (ImageGenConfig.Height (cfg g));
      now ← time_Now;
      let name := PlatformGenerator.Name gen in
      match err with
      | Some e => mret (GenerateResult.mk name "" "" false e now)
      | None =>
          t ← time_Now;
          let timestamp := Format_stamp t in
          let safePrompt := sanitizeFilename prompt in
          let outputDir := Join [ImageGenConfig.OutputDir (cfg g);
                                 timestamp +:+ "_" +:+ safePrompt] in
          os_MkdirAll outputDir;;
          t ← time_Now;
          let filename := platform +:+ "_" +:+ itoa (unix t) +:+ ".png" in
          let filepath := Join [outputDir; filename] in
          err ← downloadImage imageURL filepath;
          match err with
          | Some e => mret (GenerateResult.mk name "" "" false e now)
          | None =>
              log_Printf ("[" +:+ name +:+ "] 生成成功，耗时: 0s");;
              mret (GenerateResult.mk name filepath imageURL true "" now)
          end
      end
  end.

(** The body of one goroutine of [GenerateAll]; its return value is what
    it sends on the results channel. *)
Definition worker (g : ImageGenerator) (prompt outputDir : string)
                  (platform : string) (generator : PlatformGenerator.t)
  : M GenerateResult.t :=
  now ← time_Now;
  let name := PlatformGenerator.Name generator in
  log_Printf ("[" +:+ name +:+ "] 开始生成...");;
  '(imageURL, err) ← Generate generator prompt (ImageGenConfig.Width (cfg g))
                                               (ImageGenConfig.Height (cfg g));
  result ←
    match err with
    | Some e =>
        log_Printf ("[" +:+ name +:+ "] 生成失败: " +:+ e);;
        mret (GenerateResult.mk name "" "" false e now)
    | None =>
        t ← time_Now;
        let filename := platform +:+ "_" +:+ itoa (unix t) +:+ ".png" in
        let filepath := Join [outputDir; filename] in
        err ← downloadImage imageURL filepath;
        match err with
        | Some e =>
            log_Printf ("[" +:+ name +:+ "] 下载失败: " +:+ e);;
            mret (GenerateResult.mk name "" "" false e now)
        | None =>
            log_Printf ("[" +:+ name +:+ "] ✅ 生成成功: " +:+ filename);;
            mret (GenerateResult.mk name filepath imageURL true "" now)
        end
    end;
  log_Printf ("[" +:+ name +:+ "] 耗时: 0s");;
  mret result.

(** The goroutines of [GenerateAll] run one after the other, in the
    order [jobs]; the results channel has room for all of them, so each
    result is received in that order. *)
Fixpoint run_workers (g : ImageGenerator) (prompt outputDir : string)
                     (jobs : list (string * PlatformGenerator.t))
  : M (list GenerateResult.t) :=
  match jobs with
  | [] => mret []
  | (key, gen) :: rest =>
      r ← worker g prompt outputDir key gen;
      rs ← run_workers g prompt outputDir rest;
      mret (r :: rs)
  end.

Definition successCount (results : list GenerateResult.t) : nat :=
  length (filter (fun r => GenerateResult.Success r = true) results).

(** [GenerateAll(prompt)].  [sched] is the scheduler: it picks the order
    in which the goroutines complete. *)
Definition GenerateAll (sched : list (string * PlatformGenerator.t) ->
                                list (string * PlatformGenerator.t))
                       (g : ImageGenerator) (prompt : string)
  : M (list GenerateResult.t) :=
  if (size (generators g) =? 0)%nat then
    log_Printf "没有已启用的平台";;
    mret []
  else
    log_Printf "========================================";;
    log_Printf ("🚀 开始生成任务: " +:+ prompt);;
    log_Printf "========================================";;
    t ← time_Now;
    let timestamp := Format_stamp t in
    let safePrompt := sanitizeFilename prompt in
    let outputDir := Join [ImageGenConfig.OutputDir (cfg g);
                           timestamp +:+ "_" +:+ safePrompt] in
    os_MkdirAll outputDir;;
    results ← run_workers g prompt outputDir (sched (map_to_list (generators g)));
    log_Printf "========================================";;
    log_Printf ("📊 生成完成: 成功 " +:+ pretty (successCount results) +:+ "/"
                +:+ pretty (length results));;
    log_Printf "========================================";;
    mret results.

End Generator.

(** ** cmd/server/main.go *)

Module Server.

Module ImageGenConfig.
Record t := mk {
  OutputDir : string;
  LogDir : string;
  Width : Z;
  Height : Z
}.
End ImageGenConfig.

Module PlatformConfig.
Record t := mk {
  Name : string;
  EnvKey : string;
  APIKey : string;
  URL : string;
  Model : string;
  Enabled : bool;
  Description : string
}.
End PlatformConfig.

Module PublishConfig.
Record t := mk {
  Xiaohongshu_Enabled : bool;
  Xiaohongshu_MCPURL : string;
  Xiaohongshu_Cookies : string;
  Xiaohongshu_XSecToken : string;
  Douyin_Enabled : bool;
  Bilibili_Enabled : bool;
  Bilibili_Cookie : string
}.
End PublishConfig.

Record Config := mkConfig {
  Port : string;
  ImageGen : ImageGenConfig.t;
  Platforms : gmap string PlatformConfig.t;
  Publish : PublishConfig.t
}.

Module GenerateResult.
Record t := mk {
  Platform : string;
  Model : string;
  Filename : string;
  FilePath : string;
  Success : bool
}.
End GenerateResult.

Import PlatformConfig.

(** The part of [loadConfig] after [yaml.Unmarshal]: [c] is the
    configuration as decoded from the file. *)
Definition loadConfig (c : Config) : M Config :=
  fun w =>
    let width := if ImageGenConfig.Width (ImageGen c) =? 0 then 1024
                 else ImageGenConfig.Width (ImageGen c) in
    let height := if ImageGenConfig.Height (ImageGen c) =? 0 then 2048
                  else ImageGenConfig.Height (ImageGen c) in
    let load (p : PlatformConfig.t) :=
      let apiKey := getenv w (EnvKey p) in
      if negb (String.eqb apiKey "")
      then PlatformConfig.mk (Name p) (EnvKey p) apiKey (URL p) (Model p) true (Description p)
      else p in
    (mkConfig (Port c)
              (ImageGenConfig.mk (ImageGenConfig.OutputDir (ImageGen c))
                                 (ImageGenConfig.LogDir (ImageGen c)) width height)
              (load <$> Platforms c)
              (Publish c), w).

Definition getEnabledPlatforms (cfg : Config) : gmap string PlatformConfig.t :=
  filter (fun kp => Enabled kp.2 = true ∧ APIKey kp.2 ≠ "") (Platforms cfg).

Fixpoint register_all (mgr : Publisher.Manager) (ps : list Publisher.Platform)
  : M Publisher.Manager :=
  match ps with
  | [] => mret mgr
  | p :: rest => mgr ← Publisher.Register mgr p; register_all mgr rest
  end.

Definition initPublisher (cfg : Config) : M Publisher.Manager :=
  let pc := Publish cfg in
  register_all Publisher.New
    ((if PublishConfig.Xiaohongshu_Enabled pc
      then [Publisher.as_Platform
              (Publisher.NewXiaohongshu (PublishConfig.Xiaohongshu_MCPURL pc)
                                        (PublishConfig.Xiaohongshu_Cookies pc)
                                        (PublishConfig.Xiaohongshu_XSecToken pc))]
      else []) ++
     (if PublishConfig.Douyin_Enabled pc
      then [Publisher.as_Platform (Publisher.NewDouyin "")] else []) ++
     (if PublishConfig.Bilibili_Enabled pc
      then [Publisher.as_Platform
              (Publisher.NewBilibili "" (PublishConfig.Bilibili_Cookie pc))]
      else []))%list.

(** *** Artifact store *)

Definition downloadAndSave (cfg : Config) (p : PlatformConfig.t) (platform imageURL : string)
  : M (option GenerateResult.t) :=
  now ← time_Now;
  let dateDir := Format_date now in
  let dir := Join [ImageGenConfig.OutputDir (ImageGen cfg); dateDir; platform] in
  os_MkdirAll dir;;
  let filename := Format_hms now +:+ ".png" in
  let path := Join [dir; filename] in
  r ← http_Get imageURL;
  match r with
  | Failed e =>
      log_Printf ("[" +:+ Name p +:+ "] 下载失败: " +:+ e);;
      mret None
  | Replied imgResp =>
      let data := raw imgResp in
      _ ← os_WriteFile path data;
      log_Printf ("[" +:+ Name p +:+ "] 生成成功: " +:+ path);;
      mret (Some (GenerateResult.mk (Name p) (Model p) filename path true))
  end.

(** *** Synchronous adapter (SiliconFlow, OpenAI) *)

Definition generateSyncImage (cfg : Config) (p : PlatformConfig.t) (prompt : string)
  : M (option GenerateResult.t) :=
  let width := ImageGenConfig.Width (ImageGen cfg) in
  let height := ImageGenConfig.Height (ImageGen cfg) in
  let size := itoa width +:+ "x" +:+ itoa height in
  let size := if height >? width
              then itoa (width `quot` 2) +:+ "x" +:+ itoa height else size in
  let reqBody := JsonSync (Model p) prompt size 1 in
  let apiURL := URL p in
  let apiURL := if negb (Contains apiURL "/images/generations")
                then apiURL +:+ "/images/generations" else apiURL in
  r ← http_Do (mkRequest "POST" apiURL
                 [("Authorization", "Bearer " +:+ APIKey p);
                  ("Content-Type", "application/json")] reqBody);
  match r with
  | Failed e =>
      log_Printf ("[" +:+ Name p +:+ "] HTTP错误: " +:+ e);;
      mret None
  | Replied resp =>
      if negb (StatusCode resp =? 200) then
        log_Printf ("[" +:+ Name p +:+ "] HTTP错误: " +:+ fmt_err None);;
        mret None
      else
        let result := json resp in
        if bool_decide (is_Some (unmarshal_err result)) || (length (data result) =? 0)%nat
        then
          log_Printf ("[" +:+ Name p +:+ "] 解析失败: " +:+ raw resp);;
          mret None
        else
          let imageURL := hd "" (data result) in
          downloadAndSave cfg p "siliconflow" imageURL
  end.

(** *** Asynchronous pollers *)

(** The polling loop of [generateAliyunImage] with [n] iterations left.
    [Some r] is a [return r] from inside the loop; [None] is the loop
    running out. *)
Fixpoint aliyun_poll (cfg : Config) (p : PlatformConfig.t) (taskID : string) (n : nat)
  : M (option (option GenerateResult.t)) :=
  match n with
  | O => mret None
  | S n' =>
      time_Sleep 2;;
      r ← http_Do (mkRequest "GET" ("https://dashscope.aliyuncs.com/api/v1/tasks/" +:+ taskID)
                     [("Authorization", "Bearer " +:+ APIKey p)] NoBody);
      match r with
      | Failed _ => aliyun_poll cfg p taskID n'
      | Replied taskResp =>
          let statusResp := json taskResp in
          if String.eqb (output_task_status statusResp) "SUCCEEDED"
             && (0 <? length (output_results statusResp))%nat
          then
            res ← downloadAndSave cfg p "aliyun" (hd "" (output_results statusResp));
            mret (Some res)
          else if String.eqb (output_task_status statusResp) "FAILED" then
            log_Printf ("[" +:+ Name p +:+ "] 任务失败: " +:+ raw taskResp);;
            mret (Some None)
          else aliyun_poll cfg p taskID n'
      end
  end.

Definition generateAliyunImage (cfg : Config) (p : PlatformConfig.t) (prompt : string)
  : M (option GenerateResult.t) :=
  let reqBody :=
    JsonAliyun (Model p) prompt
               (itoa (ImageGenConfig.Width (ImageGen cfg)) +:+ "*" +:+
                itoa (ImageGenConfig.Height (ImageGen cfg))) 1 in
  r ← http_Do (mkRequest "POST"
                 "https://dashscope.aliyuncs.com/api/v1/services/aigc/text2image/image-synthesis"
                 [("Authorization", "Bearer " +:+ APIKey p);
                  ("Content-Type", "application/json");
                  ("X-DashScope-Async", "enable")] reqBody);
  match r with
  | Failed e =>
      log_Printf ("[" +:+ Name p +:+ "] 创建任务失败: " +:+ e);;
      mret None
  | Replied resp =>
      let taskResp := json resp in
      if bool_decide (is_Some (unmarshal_err taskResp))
         || String.eqb (output_task_id taskResp) ""
      then
        log_Printf ("[" +:+ Name p +:+ "] 解析任务ID失败: " +:+ raw resp);;
        mret None
      else
        let taskID := output_task_id taskResp in
        log_Printf ("[" +:+ Name p +:+ "] 任务创建成功: " +:+ taskID);;
        let maxRetries := 30%nat in
        out ← aliyun_poll cfg p taskID maxRetries;
        match out with
        | Some res => mret res
        | None =>
            log_Printf ("[" +:+ Name p +:+ "] 任务超时");;
            mret None
        end
  end.

(** The polling loop of [generateModelScopeImage]. *)
Fixpoint modelscope_poll (cfg : Config) (p : PlatformConfig.t) (taskID : string) (n : nat)
  : M (option (option GenerateResult.t)) :=
  match n with
  | O => mret None
  | S n' =>
      time_Sleep 3;;
      r ← http_Do (mkRequest "GET" (URL p +:+ "/v1/tasks/" +:+ taskID)
                     [("Authorization", "Bearer " +:+ APIKey p);
                      ("X-ModelScope-Task-Type", "image_generation")] NoBody);
      match r with
      | Failed _ => modelscope_poll cfg p taskID n'
      | Replied taskResp =>
          let statusResp := json taskResp in
          if String.eqb (task_status statusResp) "SUCCEED"
             && (0 <? length (output_images statusResp))%nat
          then
            res ← downloadAndSave cfg p "modelscope" (hd "" (output_images statusResp));
            mret (Some res)
          else if String.eqb (task_status statusResp) "FAILED" then
            log_Printf ("[" +:+ Name p +:+ "] 任务失败: " +:+ raw taskResp);;
            mret (Some None)
          else
            log_Printf ("[" +:+ Name p +:+ "] 任务状态: " +:+ task_status statusResp);;
            modelscope_poll cfg p taskID n'
      end
  end.

Definition generateModelScopeImage (cfg : Config) (p : PlatformConfig.t) (prompt size : string)
  : M (option GenerateResult.t) :=
  let reqBody := JsonModelScope (Model p) prompt
                   (if negb (String.eqb size "") then Some size else None) in
  r ← http_Do (mkRequest "POST" (URL p +:+ "/v1/images/generations")
                 [("Authorization", "Bearer " +:+ APIKey p);
                  ("Content-Type", "application/json");
                  ("X-ModelScope-Async-Mode", "true")] reqBody);
  match r with
  | Failed e =>
      log_Printf ("[" +:+ Name p +:+ "] 创建任务失败: " +:+ e);;
      mret None
  | Replied resp =>
      let taskResp := json resp in
      if String.eqb (task_id taskResp) "" then
        log_Printf ("[" +:+ Name p +:+ "] 解析任务ID失败: " +:+ raw resp);;
        mret None
      else
        let taskID := task_id taskResp in
        log_Printf ("[" +:+ Name p +:+ "] 任务创建成功: " +:+ taskID);;
        let maxRetries := 60%nat in
        out ← modelscope_poll cfg p taskID maxRetries;
        match out with
        | Some res => mret res
        | None =>
            log_Printf ("[" +:+ Name p +:+ "] 任务超时");;
            mret None
        end
  end.

(** *** Orchestrator *)

Definition generateImage (cfg : Config) (platform prompt size : string)
  : M (option GenerateResult.t) :=
  match Platforms cfg !! platform with
  | None => mret None
  | Some p =>
      if negb (Enabled p) then mret None
      else if String.eqb platform "aliyun" then generateAliyunImage cfg p prompt
      else if String.eqb platform "modelscope" then generateModelScopeImage cfg p prompt size
      else generateSyncImage cfg p prompt
  end.

(** *** HTTP handlers *)

(** The JSON body of a request as [c.ShouldBindJSON] sees it. *)
Inductive Payload (A : Type) :=
| Malformed (err : string)
| Parsed (a : A).
Arguments Malformed {A} err.
Arguments Parsed {A} a.

(** A gin response: the status code and the [gin.H] it carries. *)
Inductive H :=
| H_error (msg : string)
| H_generated (filePath platform model : string)
| H_published (results : gmap string string).

Definition required_failed : string :=
  "Field validation failed on the 'required' tag".

Module GenerateReq.
Record t := mk { Prompt : string; Platform : string; Size : string }.
End GenerateReq.

Module PublishReq.
Record t := mk {
  ImageID : nat;
  Platforms : list string;
  Title : string;
  Content : string
}.
End PublishReq.

(** [db.Create(&record)]: the row gets the next primary key. *)
Definition db_Create (r : ImageRecord.t) : M unit :=
  fun w =>
    let id := S (foldr Nat.max 0%nat (ImageRecord.ID <$> db w)) in
    let row := ImageRecord.mk id (ImageRecord.Name r) (ImageRecord.Date r)
                 (ImageRecord.Path r) (ImageRecord.Platform r) (ImageRecord.Model r)
                 (ImageRecord.Prompt r) (ImageRecord.GeneratedAt r)
                 (ImageRecord.Status r) (ImageRecord.Note r) in
    (tt, mkWorld (clock w) (getenv w) (net w) (files w) (write_err w)
                 (db w ++ [row]) (trace w)).

(** [db.First(&record, id)]: the row with that primary key, if any. *)
Definition db_First (id : nat) : M (option ImageRecord.t) :=
  fun w => (List.find (fun r => (ImageRecord.ID r =? id)%nat) (db w), w).

Definition handleGenerate (cfg : Config) (body : Payload GenerateReq.t) : M (Z * H) :=
  match body with
  | Malformed e => mret (400, H_error ("请指定平台: " +:+ e))
  | Parsed req =>
      if String.eqb (GenerateReq.Prompt req) "" || String.eqb (GenerateReq.Platform req) ""
      then mret (400, H_error ("请指定平台: " +:+ required_failed))
      else
        result ← generateImage cfg (GenerateReq.Platform req) (GenerateReq.Prompt req)
                               (GenerateReq.Size req);
        match result with
        | None => mret (500, H_error "生成失败，请检查平台是否正确或API是否配置")
        | Some result =>
            genTime ← time_Now;
            db_Create (ImageRecord.mk 0 (GenerateResult.Filename result)
                         (Format_date genTime) (GenerateResult.FilePath result)
                         (GenerateResult.Platform result) (GenerateResult.Model result)
                         (GenerateReq.Prompt req) genTime "pending" "");;
            mret (200, H_generated (GenerateResult.FilePath result)
                                   (GenerateResult.Platform result)
                                   (GenerateResult.Model result))
        end
  end.

(** The dispatch loop of [handlePublish]. *)
Fixpoint publish_loop (pubManager : Publisher.Manager) (platformsToUse : list string)
                      (path title content : string) (results : gmap string string)
  : M (gmap string string) :=
  match platformsToUse with
  | [] => mret results
  | plat :: rest =>
      '(u, err) ← Publisher.Manager_Publish pubManager plat path title content;
      let results :=
        match err with
        | Some e => <[plat := "失败: " +:+ e]> results
        | None => <[plat := u]> results
        end in
      publish_loop pubManager rest path title content results
  end.

(** The platforms a publish request goes to: the requested ones, or
    every registered one when none is requested. *)
Definition platformsToUse (pubManager : Publisher.Manager) (requested : list string)
  : list string :=
  if (length requested =? 0)%nat
  then (requested ++ (Publisher.Type_ <$> Publisher.List_ pubManager))%list
  else requested.

Definition handlePublish (pubManager : Publisher.Manager) (body : Payload PublishReq.t)
  : M (Z * H) :=
  match body with
  | Malformed e => mret (400, H_error e)
  | Parsed req =>
      if (PublishReq.ImageID req =? 0)%nat then mret (400, H_error required_failed)
      else
        found ← db_First (PublishReq.ImageID req);
        match found with
        | None => mret (404, H_error "图片不存在")
        | Some record =>
            if negb (String.eqb (ImageRecord.Status record) "approved")
            then mret (400, H_error "只能发布审核通过的图片")
            else
              let platformsToUse := platformsToUse pubManager (PublishReq.Platforms req) in
              results ← publish_loop pubManager platformsToUse (ImageRecord.Path record)
                                     (PublishReq.Title req) (PublishReq.Content req) ∅;
              mret (200, H_published results)
        end
  end.

(** *** Moderation, report and gallery handlers *)

(** A gin response that carries only a message or an error:
    [gin.H{"message": "success"}], [gin.H{"error": msg}]. *)
Inductive H_plain :=
| HP_error (msg : string)
| HP_success.

(** The body of a moderation request. *)
Module ModerateReq.
Record t := mk { ID : nat; Status : string; Note : string }.
End ModerateReq.

(** [db.Model(&ImageRecord{}).Where("id = ?", id).Updates(...)] with the
    columns [status], [note] and [moderated_at]; the rows of the model
    carry the first two. *)
Definition db_Updates (id : nat) (status note : string) : M unit :=
  fun w =>
    let upd (r : ImageRecord.t) :=
      if (ImageRecord.ID r =? id)%nat
      then ImageRecord.mk (ImageRecord.ID r) (ImageRecord.Name r) (ImageRecord.Date r)
             (ImageRecord.Path r) (ImageRecord.Platform r) (ImageRecord.Model r)
             (ImageRecord.Prompt r) (ImageRecord.GeneratedAt r) status note
      else r in
    (tt, mkWorld (clock w) (getenv w) (net w) (files w) (write_err w)
                 (upd <$> db w) (trace w)).

(** [moderateImage] *)
Definition moderateImage (body : Payload ModerateReq.t) : M (Z * H_plain) :=
  match body with
  | Malformed e => mret (400, HP_error e)
  | Parsed req =>
      if (ModerateReq.ID req =? 0)%nat || String.eqb (ModerateReq.Status req) ""
      then mret (400, HP_error required_failed)
      else
        db_Updates (ModerateReq.ID req) (ModerateReq.Status req) (ModerateReq.Note req);;
        mret (200, HP_success)
  end.

(** The [gin.H] of [dailyReport]. *)
Module Report.
Record t := mk {
  date : string;
  total : nat;
  approved : nat;
  rejected : nat;
  pending : nat;
  platform_stats : gmap string nat;
  images : list ImageRecord.t
}.
End Report.

(** [db.Where("date = ?", date).Find(&records)]; [order] is the order
    the database returns the rows in. *)
Definition db_Where_date (order : list ImageRecord.t → list ImageRecord.t)
                         (date : string) : M (list ImageRecord.t) :=
  fun w => (order (filter (fun r => ImageRecord.Date r = date) (db w)), w).

(** The counting loop of [dailyReport]. *)
Fixpoint tally (records : list ImageRecord.t)
               (approved rejected pending : nat) (platformStats : gmap string nat)
  : nat * nat * nat * gmap string nat :=
  match records with
  | [] => (approved, rejected, pending, platformStats)
  | r :: rest =>
      let '(approved, rejected, pending) :=
        if String.eqb (ImageRecord.Status r) "approved"
        then (S approved, rejected, pending)
        else if String.eqb (ImageRecord.Status r) "rejected"
        then (approved, S rejected, pending)
        else (approved, rejected, S pending) in
      let platformStats :=
        <[ImageRecord.Platform r :=
            S (default 0%nat (platformStats !! ImageRecord.Platform r))]> platformStats in
      tally rest approved rejected pending platformStats
  end.

(** [dailyReport]; [query] is the [date] parameter of the request, if it
    has one. *)
Definition dailyReport (order : list ImageRecord.t → list ImageRecord.t)
                       (query : option string) : M (Z * Report.t) :=
  now ← time_Now;
  let date := default (Format_date now) query in
  records ← db_Where_date order date;
  let '(approved, rejected, pending, platformStats) := tally records 0 0 0 ∅ in
  mret (200, Report.mk date (length records) approved rejected pending platformStats records).

(** The [gin.H] of [getGallery]. *)
Module Gallery.
Record t := mk { records : list ImageRecord.t; total : nat; date : string }.
End Gallery.

(** [db.Where("date = ? AND status = ?", date, "approved")
       .Order("generated_at DESC").Find(&records)];
    [order] is the order the database returns the rows in. *)
Definition db_Where_date_approved (order : list ImageRecord.t → list ImageRecord.t)
                                  (date : string) : M (list ImageRecord.t) :=
  fun w => (order (filter (fun r => ImageRecord.Date r = date
                                    ∧ ImageRecord.Status r = "approved") (db w)), w).

(** [getGallery]; [query] is the [date] parameter of the request, if it
    has one. *)
Definition getGallery (order : list ImageRecord.t → list ImageRecord.t)
                      (query : option string) : M (Z * Gallery.t) :=
  now ← time_Now;
  let date := default (Format_date now) query in
  records ← db_Where_date_approved order date;
  mret (200, Gallery.mk records (length records) date).

End Server.

(** ** cmd/server/main.go, first revision

    The file holds two revisions of the server.  The first one has a
    single synchronous adapter, which stores the artifact under the key
    of the provider, and a handler that falls back from one enabled
    provider to the next when no provider is named.  Its configuration
    has no [publish] section; the field is not read. *)

Module ServerV1.
Import Server.
Import PlatformConfig.

Module GenerateReq.
Record t := mk { Prompt : string; Platform : string }.
End GenerateReq.

(** [generateImage(platform, prompt)].  The part after the image
    address is known is, statement for statement, the body of the later
    [downloadAndSave], with the key of the provider as directory. *)
Definition generateImage (cfg : Config) (platform prompt : string)
  : M (option GenerateResult.t) :=
  match Platforms cfg !! platform with
  | None => mret None
  | Some p =>
      if negb (Enabled p) then mret None
      else
        let size := itoa (ImageGenConfig.Width (ImageGen cfg)) +:+ "x" +:+
                    itoa (ImageGenConfig.Height (ImageGen cfg)) in
        let reqBody := JsonSync (Model p) prompt size 1 in
        let apiURL := URL p in
        let apiURL := if negb (Contains apiURL "/images/generations")
                      then apiURL +:+ "/images/generations" else apiURL in
        r ← http_Do (mkRequest "POST" apiURL
                       [("Authorization", "Bearer " +:+ APIKey p);
                        ("Content-Type", "application/json")] reqBody);
        match r with
        | Failed e =>
            log_Printf ("[" +:+ Name p +:+ "] HTTP错误: " +:+ e);;
            mret None
        | Replied resp =>
            if negb (StatusCode resp =? 200) then
              log_Printf ("[" +:+ Name p +:+ "] HTTP错误: " +:+ fmt_err None);;
              mret None
            else
              let result := json resp in
              if bool_decide (is_Some (unmarshal_err result))
                 || (length (data result) =? 0)%nat
              then
                log_Printf ("[" +:+ Name p +:+ "] 解析失败: " +:+ raw resp);;
                mret None
              else
                let imageURL := hd "" (data result) in
                downloadAndSave cfg p platform imageURL
        end
  end.

(** The fallback loop of [handleGenerate] over the enabled platforms,
    in the order [jobs] the map is ranged over. *)
Fixpoint fallback_loop (cfg : Config) (prompt : string)
                       (jobs : list (string * PlatformConfig.t))
  : M (option GenerateResult.t) :=
  match jobs with
  | [] => mret None
  | (key, p) :: rest =>
      r ← generateImage cfg key prompt;
      match r with
      | Some r => mret (Some r)
      | None =>
          log_Printf ("[" +:+ Name p +:+ "] 生成失败");;
          fallback_loop cfg prompt rest
      end
  end.

(** [handleGenerate].  [order] is the order in which the runtime ranges
    over the map of the enabled platforms. *)
Definition handleGenerate (order : list (string * PlatformConfig.t) →
                                   list (string * PlatformConfig.t))
                          (cfg : Config) (body : Payload GenerateReq.t) : M (Z * H) :=
  match body with
  | Malformed e => mret (400, H_error e)
  | Parsed req =>
      if String.eqb (GenerateReq.Prompt req) "" then mret (400, H_error required_failed)
      else
        let platforms := getEnabledPlatforms cfg in
        result ←
          (if negb (String.eqb (GenerateReq.Platform req) "")
           then generateImage cfg (GenerateReq.Platform req) (GenerateReq.Prompt req)
           else fallback_loop cfg (GenerateReq.Prompt req) (order (map_to_list platforms)));
        match result with
        | None => mret (500, H_error "所有平台生成失败")
        | Some result =>
            genTime ← time_Now;
            db_Create (ImageRecord.mk 0 (GenerateResult.Filename result)
                         (Format_date genTime) (GenerateResult.FilePath result)
                         (GenerateResult.Platform result) (GenerateResult.Model result)
                         (GenerateReq.Prompt req) genTime "pending" "");;
            mret (200, H_generated (GenerateResult.FilePath result)
                                   (GenerateResult.Platform result)
                                   (GenerateResult.Model result))
        end
  end.

End ServerV1.

(** ** config: the configuration loader of the generator package *)

Module Config.
Import Generator.
Import PlatformConfig.

(** [config.Config]; the server and database sections are not read by
    the code below. *)
Record t := mk {
  ImageGen : ImageGenConfig.t;
  Platforms : gmap string PlatformConfig.t
}.

(** [os.ExpandEnv("$HOME" + rest)] for a [rest] without a dollar sign. *)
Definition ExpandEnv_HOME (rest : string) : M string :=
  fun w => (getenv w "HOME" +:+ rest, w).

(** [c.loadAPIKeys()] *)
Definition loadAPIKeys (c : t) : M t :=
  fun w =>
    let load (cfg : PlatformConfig.t) :=
      let apiKey := getenv w (EnvKey cfg) in
      if negb (String.eqb apiKey "")
      then PlatformConfig.mk (Name cfg) (EnvKey cfg) apiKey (URL cfg) (Model cfg) true
                             (Description cfg)
      else cfg in
    (mk (ImageGen c) (load <$> Platforms c), w).

(** The part of [Load] after [yaml.Unmarshal]: [cfg] is the
    configuration as decoded from the file. *)
Definition Load (cfg : t) : M t :=
  let ig := ImageGen cfg in
  outputDir ← (if String.eqb (ImageGenConfig.OutputDir ig) ""
               then ExpandEnv_HOME "/generated_images"
               else mret (ImageGenConfig.OutputDir ig));
  logDir ← (if String.eqb (ImageGenConfig.LogDir ig) ""
            then ExpandEnv_HOME "/generated_images/logs"
            else mret (ImageGenConfig.LogDir ig));
  let width := if ImageGenConfig.Width ig =? 0 then 1024 else ImageGenConfig.Width ig in
  let height := if ImageGenConfig.Height ig =? 0 then 2048 else ImageGenConfig.Height ig in
  let maxRetries := if ImageGenConfig.MaxRetries ig =? 0 then 3
                    else ImageGenConfig.MaxRetries ig in
  let retryDelay := if ImageGenConfig.RetryDelay ig =? 0 then 3
                    else ImageGenConfig.RetryDelay ig in
  let timeout := if ImageGenConfig.Timeout ig =? 0 then 180 else ImageGenConfig.Timeout ig in
  let maxWorkers := if ImageGenConfig.MaxWorkers ig =? 0 then 5
                    else ImageGenConfig.MaxWorkers ig in
  loadAPIKeys (mk (ImageGenConfig.mk outputDir logDir width height maxRetries retryDelay
                                     timeout maxWorkers)
                  (Platforms cfg)).

(** [c.GetEnabledPlatforms()] *)
Definition GetEnabledPlatforms (c : t) : gmap string PlatformConfig.t :=
  filter (fun kp => Enabled kp.2 = true ∧ APIKey kp.2 ≠ "") (Platforms c).

End Config.

Import Server.
Import Publisher.

(** ** Specification vocabulary and example inputs *)


Definition aliyun_task_request (p : PlatformConfig.t) (taskID : string) : Request :=
  mkRequest "GET" ("https://dashscope.aliyuncs.com/api/v1/tasks/" +:+ taskID)
            [("Authorization", "Bearer " +:+ PlatformConfig.APIKey p)] NoBody.

(** The world after one iteration of a polling loop that goes on. *)
Definition polled (seconds : nat) (req : Request) (w : World) : World :=
  mkWorld (clock w) (getenv w) (tail (net w)) (files w) (write_err w) (db w)
          ((trace w ++ [EvSleep seconds]) ++ [EvHttp req]).

Definition aliyun_goes_on (r : HttpResult) : Prop :=
  match r with
  | Failed _ => True
  | Replied resp =>
      output_task_status (json resp) ≠ "FAILED" ∧
      (output_task_status (json resp) = "SUCCEEDED" → output_results (json resp) = [])
  end.

Fixpoint after_polls (n : nat) (step : World → World) (w : World) : World :=
  match n with
  | O => w
  | S n' => after_polls n' step (step w)
  end.

(** The observable footprint of an iteration that goes on: one more
    request, one answer consumed, nothing else touched. *)
Definition poll_step (req : Request) (step : World → World) : Prop :=
  ∀ w, requests (step w) = (requests w ++ [req])%list
       ∧ writes (step w) = writes w
       ∧ files (step w) = files w
       ∧ clock (step w) = clock w
       ∧ net (step w) = tail (net w).

Definition modelscope_task_request (p : PlatformConfig.t) (taskID : string) : Request :=
  mkRequest "GET" (PlatformConfig.URL p +:+ "/v1/tasks/" +:+ taskID)
            [("Authorization", "Bearer " +:+ PlatformConfig.APIKey p);
             ("X-ModelScope-Task-Type", "image_generation")] NoBody.

Definition modelscope_goes_on (r : HttpResult) : Prop :=
  match r with
  | Failed _ => True
  | Replied resp =>
      task_status (json resp) ≠ "FAILED" ∧
      (task_status (json resp) = "SUCCEED" → output_images (json resp) = [])
  end.

(** An iteration of the ModelScope loop that goes on also logs the status
    it has seen, unless the request failed. *)
Definition modelscope_polled (p : PlatformConfig.t) (taskID : string) (w : World) : World :=
  let w1 := polled 3 (modelscope_task_request p taskID) w in
  match net w with
  | Replied resp :: _ =>
      (log_Printf ("[" +:+ PlatformConfig.Name p +:+ "] 任务状态: "
                   +:+ task_status (json resp)) w1).2
  | _ => w1
  end.

Definition aliyun_create_request (cfg : Config) (p : PlatformConfig.t) (prompt : string) : Request :=
  mkRequest "POST"
    "https://dashscope.aliyuncs.com/api/v1/services/aigc/text2image/image-synthesis"
    [("Authorization", "Bearer " +:+ PlatformConfig.APIKey p);
     ("Content-Type", "application/json");
     ("X-DashScope-Async", "enable")]
    (JsonAliyun (PlatformConfig.Model p) prompt
       (itoa (ImageGenConfig.Width (ImageGen cfg)) +:+ "*" +:+
        itoa (ImageGenConfig.Height (ImageGen cfg))) 1).

Definition modelscope_create_request (p : PlatformConfig.t) (prompt size : string) : Request :=
  mkRequest "POST" (PlatformConfig.URL p +:+ "/v1/images/generations")
    [("Authorization", "Bearer " +:+ PlatformConfig.APIKey p);
     ("Content-Type", "application/json");
     ("X-ModelScope-Async-Mode", "true")]
    (JsonModelScope (PlatformConfig.Model p) prompt
       (if negb (String.eqb size "") then Some size else None)).

(** The world once a task has been created: the creation request is out,
    its answer consumed, the task id logged. *)
Definition task_created (req : Request) (name taskID : string) (w : World) : World :=
  mkWorld (clock w) (getenv w) (tail (net w)) (files w) (write_err w) (db w)
          ((trace w ++ [EvHttp req]) ++ [EvLog ("[" +:+ name +:+ "] 任务创建成功: " +:+ taskID)]).

(** The end of both generate functions once their loop is over. *)
Definition poll_outcome (name : string) (out : option (option GenerateResult.t))
  : M (option GenerateResult.t) :=
  match out with
  | Some res => mret res
  | None => log_Printf ("[" +:+ name +:+ "] 任务超时");; mret None
  end.

(** The world after a log line. *)
Definition logged (line : string) (w : World) : World := (log_Printf line w).2.

Definition timed_out (name : string) (w : World) : Prop :=
  last (trace w) = Some (EvLog ("[" +:+ name +:+ "] 任务超时")).


(** *** Example inputs *)

Definition example_time : Time := mkTime 2026 2 20 21 56 54 1771624614.

Definition example_platform (name model : string) : PlatformConfig.t :=
  PlatformConfig.mk name "API_KEY" "sk-1" "https://api.example.com/v1" model true "".

Definition example_cfg : Config :=
  mkConfig "8081" (ImageGenConfig.mk "/data/out" "/data/log" 1024 2048)
    (<["siliconflow" := example_platform "SiliconFlow" "Kwai-Kolors/Kolors"]>
       (<["openai" := example_platform "OpenAI DALL-E 3" "dall-e-3"]>
          (<["aliyun" := example_platform "Aliyun" "wanx-v1"]>
             (<["modelscope" := example_platform "ModelScope" "Tongyi-MAI/Z-Image-Turbo"]> ∅))))
    (PublishConfig.mk true "" "" "" true true "").

Definition example_world (answers : list HttpResult) : World :=
  mkWorld example_time (fun _ => "") answers ∅ None [] [].

Definition ok_json (j : Json) : HttpResult := Replied (mkResponse 200 "{}" None j).
Definition sync_answer (urls : list string) : HttpResult :=
  ok_json (mkJson None urls "" "" [] "" "" []).
Definition aliyun_answer (taskID status : string) (urls : list string) : HttpResult :=
  ok_json (mkJson None [] taskID status urls "" "" []).
Definition modelscope_answer (taskID status : string) (urls : list string) : HttpResult :=
  ok_json (mkJson None [] "" "" [] taskID status urls).
Definition image_answer (bytes : string) : HttpResult :=
  Replied (mkResponse 200 bytes None no_json).



(** Where [downloadAndSave] puts the artifact of [platform]. *)
Definition artifact_dir (cfg : Config) (now : Time) (platform : string) : string :=
  Join [ImageGenConfig.OutputDir (ImageGen cfg); Format_date now; platform].

Definition artifact_name (now : Time) : string := Format_hms now +:+ ".png".

Definition artifact_path (cfg : Config) (now : Time) (platform : string) : string :=
  Join [artifact_dir cfg now platform; artifact_name now].

Definition artifact (cfg : Config) (p : PlatformConfig.t) (now : Time) (platform : string)
  : GenerateResult.t :=
  GenerateResult.mk (PlatformConfig.Name p) (PlatformConfig.Model p)
                    (artifact_name now) (artifact_path cfg now platform) true.


Definition openai_world : World :=
  example_world [sync_answer ["https://cdn.example.com/1.png"]; image_answer "PNG"].


Definition example_generator : Generator.PlatformGenerator.t :=
  Generator.PlatformGenerator.mk "SiliconFlow" "sk-1" "Kwai-Kolors/Kolors"
                                 "https://api.example.com/v1".

(** The size token of [generateSyncImage]. *)
Definition sync_size (width height : Z) : string :=
  if height >? width then itoa (width `quot` 2) +:+ "x" +:+ itoa height
  else itoa width +:+ "x" +:+ itoa height.

Definition sync_request (cfg : Config) (p : PlatformConfig.t) (prompt : string) : Request :=
  mkRequest "POST"
    (if negb (Contains (PlatformConfig.URL p) "/images/generations")
     then PlatformConfig.URL p +:+ "/images/generations" else PlatformConfig.URL p)
    [("Authorization", "Bearer " +:+ PlatformConfig.APIKey p);
     ("Content-Type", "application/json")]
    (JsonSync (PlatformConfig.Model p) prompt
       (sync_size (ImageGenConfig.Width (ImageGen cfg))
                  (ImageGenConfig.Height (ImageGen cfg))) 1).

Definition enabled_without_key_cfg : Config :=
  mkConfig "8081" (ImageGenConfig.mk "/data/out" "/data/log" 1024 2048)
    {["siliconflow" := PlatformConfig.mk "SiliconFlow" "SILICONFLOW_API_KEY" ""
                         "https://api.siliconflow.cn/v1" "Kwai-Kolors/Kolors" true ""]}
    (PublishConfig.mk false "" "" "" false false "").

(** What [loadConfig] does to one platform entry. *)
Definition with_env_key (w : World) (p : PlatformConfig.t) : PlatformConfig.t :=
  let apiKey := getenv w (PlatformConfig.EnvKey p) in
  if negb (String.eqb apiKey "")
  then PlatformConfig.mk (PlatformConfig.Name p) (PlatformConfig.EnvKey p) apiKey
                         (PlatformConfig.URL p) (PlatformConfig.Model p) true
                         (PlatformConfig.Description p)
  else p.

Definition not_enabled (cfg : Config) (platform : string) : Prop :=
  match Platforms cfg !! platform with
  | None => True
  | Some p => PlatformConfig.Enabled p = false
  end.

(** A remote side on which [platform] succeeds at once. *)
Definition cooperative_world (platform : string) : World :=
  example_world
    (if String.eqb platform "aliyun"
     then [aliyun_answer "task-1" "" [];
           aliyun_answer "" "SUCCEEDED" ["https://cdn.example.com/1.png"];
           image_answer "PNG"]
     else if String.eqb platform "modelscope"
     then [modelscope_answer "task-1" "" [];
           modelscope_answer "" "SUCCEED" ["https://cdn.example.com/1.png"];
           image_answer "PNG"]
     else [sync_answer ["https://cdn.example.com/1.png"]; image_answer "PNG"]).

Definition generate_failed : string := "生成失败，请检查平台是否正确或API是否配置".

Definition same_name_generator : Generator.ImageGenerator :=
  Generator.mkImageGenerator
    (Generator.ImageGenConfig.mk "/data/out" "/data/log" 1024 2048 3 3 180 5)
    (<["sf-kolors" := Generator.PlatformGenerator.mk "SiliconFlow" "sk-1" "Kwai-Kolors/Kolors"
                        "https://api.siliconflow.cn/v1"]>
       {["sf-flux" := Generator.PlatformGenerator.mk "SiliconFlow" "sk-1" "black-forest-labs/FLUX.1"
                        "https://api.siliconflow.cn/v1"]}).


(** Every adapter is registered under its own type: the invariant
    [Register] maintains. *)
Definition wf_manager (m : Manager) : Prop :=
  map_Forall (λ k p, Type_ p = k) (platforms m).

(** What [handlePublish] stores for the result of one dispatch. *)
Definition outcome_text (r : string * error) : string :=
  match r.2 with
  | Some e => "失败: " +:+ e
  | None => r.1
  end.

(** The world after the platforms [ks] have been dispatched to, in order. *)
Fixpoint dispatched (m : Manager) (path title content : string)
                    (ks : list string) (w : World) : World :=
  match ks with
  | [] => w
  | k :: rest =>
      dispatched m path title content rest (Manager_Publish m k path title content w).2
  end.

(** An adapter that only looks at the files and leaves them alone. *)
Definition reads_files_only (p : Platform) : Prop :=
  ∀ path title content w,
    files (invoke p path title content w).2 = files w
    ∧ ∀ w2, files w2 = files w →
            (invoke p path title content w2).1 = (invoke p path title content w).1.


(** The directory an artifact of [platform] is stored under. *)
Definition store_key (platform : string) : string :=
  if String.eqb platform "aliyun" then "aliyun"
  else if String.eqb platform "modelscope" then "modelscope"
  else "siliconflow".

Definition pending_then_succeeded_world : World :=
  example_world [aliyun_answer "task-1" "" [];
                 aliyun_answer "" "PENDING" [];
                 aliyun_answer "" "PENDING" [];
                 aliyun_answer "" "SUCCEEDED" ["https://oss.example.com/1.png"];
                 image_answer "PNG"].

Definition always_pending_world : World :=
  example_world (aliyun_answer "task-1" "" [] :: replicate 40 (aliyun_answer "" "PENDING" [])).

Definition key_in_env_world : World :=
  mkWorld example_time
          (fun k => if String.eqb k "SILICONFLOW_API_KEY" then "sk-live" else "")
          [] ∅ None [] [].

Definition pending_record_world : World :=
  mkWorld example_time (fun _ => "") []
          {["/data/out/2026-02-20/siliconflow/215654.png" := "PNG"]} None
          [ImageRecord.mk 1 "215654.png" "2026-02-20"
             "/data/out/2026-02-20/siliconflow/215654.png" "SiliconFlow"
             "Kwai-Kolors/Kolors" "a cat" example_time "pending" ""] [].

Definition example_manager : Manager := (initPublisher example_cfg (example_world [])).1.

Definition published_world : World :=
  mkWorld example_time (fun _ => "") []
          {["/data/out/2026-02-20/siliconflow/215654.png" := "PNG"]} None
          [ImageRecord.mk 1 "215654.png" "2026-02-20"
             "/data/out/2026-02-20/siliconflow/215654.png" "SiliconFlow"
             "Kwai-Kolors/Kolors" "a cat" example_time "approved" ""] [].

(** ** Vocabulary of the further properties *)

(** The seconds slept so far. *)
Definition slept (w : World) : nat :=
  sum_list (omap (fun e => match e with EvSleep s => Some s | _ => None end) (trace w)).

(** [w'] differs from [w] only in the answers consumed and in trace
    entries that are neither requests, nor sleeps, nor writes. *)
Definition same_store (w w' : World) : Prop :=
  files w' = files w ∧ writes w' = writes w ∧ clock w' = clock w
  ∧ write_err w' = write_err w ∧ db w' = db w.

(** [w'] is [w] after the artifact [r] has been stored: the one file at
    [FilePath r] written in one piece, or nothing at all when the disk
    refuses the write. *)
Definition stored (w : World) (r : GenerateResult.t) (w' : World) : Prop :=
  clock w' = clock w ∧ db w' = db w ∧
  match write_err w with
  | None => ∃ bytes, files w' = <[GenerateResult.FilePath r := bytes]> (files w)
                     ∧ writes w' = (writes w ++ [(GenerateResult.FilePath r, bytes)])%list
  | Some _ => files w' = files w ∧ writes w' = writes w
  end.

(** The outcome of a generation seen from the file system. *)
Definition store_outcome (w : World) (run : option GenerateResult.t * World) : Prop :=
  match run.1 with
  | None => same_store w run.2
  | Some r => stored w r run.2
  end.

(** The requests a generation may send: the creation of the task, the
    polls and the download, or the one call and the download. *)
Definition request_budget (platform : string) : nat :=
  if String.eqb platform "aliyun" then 32
  else if String.eqb platform "modelscope" then 62
  else 2.

(** The seconds a generation may sleep between polls. *)
Definition sleep_budget (platform : string) : nat :=
  if String.eqb platform "aliyun" then 60
  else if String.eqb platform "modelscope" then 180
  else 0.

(** What a run has cost since [w]: at most [reqs] requests and [secs]
    seconds of sleep. *)
Definition within (w : World) (reqs secs : nat) (w' : World) : Prop :=
  (length (requests w') ≤ length (requests w) + reqs)%nat
  ∧ (slept w' ≤ slept w + secs)%nat.

(** What one event costs: requests and seconds of sleep. *)
Definition event_cost (e : Event) : nat * nat :=
  match e with
  | EvHttp _ => (1, 0)
  | EvSleep s => (0, s)
  | _ => (0, 0)
  end%nat.

(** Whether an event is a file write. *)
Definition is_write (e : Event) : bool :=
  match e with EvWriteFile _ _ => true | _ => false end.

(** A world that extends [w] by the events [evs], with other answers left. *)
Definition extended (w : World) (net' : list HttpResult) (evs : list Event) : World :=
  mkWorld (clock w) (getenv w) net' (files w) (write_err w) (db w) (trace w ++ evs).

(** What the events [evs] cost together. *)
Definition cost (evs : list Event) : nat * nat :=
  (sum_list ((fun e => (event_cost e).1) <$> evs),
   sum_list ((fun e => (event_cost e).2) <$> evs)).

(** The footprint of a polling loop: what [Some (Some r)] stored, and
    otherwise nothing. *)
Definition poll_footprint (w : World) (reqs secs : nat)
           (run : option (option GenerateResult.t) * World) : Prop :=
  within w reqs secs run.2
  ∧ match run.1 with
    | Some (Some r) => stored w r run.2
    | _ => same_store w run.2
    end.

(** The footprint of a generation. *)
Definition generation_footprint (w : World) (reqs secs : nat)
           (run : option GenerateResult.t * World) : Prop :=
  within w reqs secs run.2 ∧ store_outcome w run.

(** The last thing the program did was to log the failure of the task
    that [resp] reports. *)
Definition task_failed (name : string) (resp : Response) (w : World) : Prop :=
  last (trace w) = Some (EvLog ("[" +:+ name +:+ "] 任务失败: " +:+ raw resp)).

(** An Aliyun task that is pending at the first poll and has failed at
    the second. *)
Definition failed_task_world : World :=
  example_world [aliyun_answer "task-1" "" [];
                 aliyun_answer "" "PENDING" [];
                 aliyun_answer "" "FAILED" [];
                 image_answer "PNG"].

(** The same for a ModelScope task. *)
Definition failed_modelscope_task_world : World :=
  example_world [modelscope_answer "task-1" "" [];
                 modelscope_answer "" "RUNNING" [];
                 modelscope_answer "" "FAILED" [];
                 image_answer "PNG"].

(** The primary keys in use. *)
Definition ids (w : World) : list nat := ImageRecord.ID <$> db w.

(** The row [handleGenerate] queues for the artifact [r]. *)
Definition queued_row (w : World) (prompt : string) (r : GenerateResult.t) : ImageRecord.t :=
  ImageRecord.mk (S (foldr Nat.max 0%nat (ids w))) (GenerateResult.Filename r)
                 (Format_date (clock w)) (GenerateResult.FilePath r)
                 (GenerateResult.Platform r) (GenerateResult.Model r)
                 prompt (clock w) "pending" "".



(** A log line, or the entry into an adapter. *)
Definition log_or_call (e : Event) : Prop :=
  match e with
  | EvLog _ | EvPublish _ _ _ _ => True
  | _ => False
  end.

(** [w'] is [w] with more log lines and adapter calls in its trace, and
    nothing else. *)
Definition only_logs (w w' : World) : Prop :=
  ∃ evs, w' = extended w (net w) evs ∧ Forall log_or_call evs.

(** What a publish request gets back for the platform key [k] from the
    manager of [initPublisher]. *)
Definition builtin_outcome (cfg : Config) (fs : gmap string string) (path : string)
                           (k : string) : string :=
  let pc := Server.Publish cfg in
  if String.eqb k "xiaohongshu" && PublishConfig.Xiaohongshu_Enabled pc then
    match fs !! path with
    | Some _ => "发布成功"
    | None => "失败: 打开图片失败: open " +:+ path +:+ ": no such file or directory"
    end
  else if String.eqb k "douyin" && PublishConfig.Douyin_Enabled pc then "抖音发布功能开发中"
  else if String.eqb k "bilibili" && PublishConfig.Bilibili_Enabled pc then "B站发布功能开发中"
  else "失败: 未支持的平台: " +:+ k.




(** The API key a platform ends up with: the one of the environment, or
    else the one of the file. *)
Definition effective_key (w : World) (p : PlatformConfig.t) : string :=
  if String.eqb (getenv w (PlatformConfig.EnvKey p)) "" then PlatformConfig.APIKey p
  else getenv w (PlatformConfig.EnvKey p).

(** The request [http.Get(u)] sends: no header, no body. *)
Definition download_request (u : string) : Request := mkRequest "GET" u [] NoBody.

(** A request that carries the API key [key] as a bearer token. *)
Definition credentialed (key : string) (req : Request) : Prop :=
  ("Authorization", "Bearer " +:+ key) ∈ headers req.

(** Whether a generation returned an artifact. *)
Definition produced (res : option GenerateResult.t) : bool :=
  match res with Some _ => true | None => false end.

(** The same for the polling loops. *)
Definition poll_produced (out : option (option GenerateResult.t)) : bool :=
  match out with Some res => produced res | None => false end.

(** The requests of one generation: at least [least] calls to the
    provider, all with the key, then at most one download, without it;
    no artifact without a download. *)
Definition api_traffic (key : string) (least : nat) (w w' : World) (stored : bool) : Prop :=
  ∃ calls download,
    requests w' = (requests w ++ calls ++ download)%list
    ∧ Forall (credentialed key) calls
    ∧ (least ≤ length calls)%nat
    ∧ (download = [] ∨ ∃ u, download = [download_request u])
    ∧ (stored = true → download ≠ []).



(** A path element that [filepath.Clean] keeps as it is: not empty, not
    [.] or [..], and without a slash. *)
Definition plain (s : string) : Prop :=
  s ≠ "" ∧ s ≠ "." ∧ s ≠ ".."
  ∧ Forall (fun c => c ≠ "/"%char) (String.list_ascii_of_string s).

(** The absolute path with the elements [dirs]. *)
Definition absolute (dirs : list string) : string := "/" +:+ join_slash dirs.

(** The bytes of a formatted date or time: digits and dashes. *)
Definition stamp_char (c : ascii) : Prop :=
  c ∈ String.list_ascii_of_string "0123456789-".

(** The primary keys of the table are distinct and none of them is 0. *)
Definition keys_ok (w : World) : Prop := NoDup (ids w) ∧ 0%nat ∉ ids w.

Arguments itoa : simpl never.
Arguments zpad : simpl never.
Arguments Format_date : simpl never.
Arguments Format_hms : simpl never.
Arguments Format_stamp : simpl never.
Arguments Join : simpl never.
Arguments Clean : simpl never.
Arguments Contains : simpl never.
Arguments String.eqb : simpl never.
Arguments String.append : simpl never.

(** ** Proofs *)

Ltac unfold_M :=
  unfold mbind, M_bind, mret, M_ret, time_Now, time_Sleep, os_MkdirAll,
         log_Printf, http_Get, http_Do, emit in *.

Lemma eqb_false (a b : string) : a ≠ b → String.eqb a b = false.
Proof. intros. by apply String.eqb_neq. Qed.

Lemma aliyun_poll_goes_on cfg p taskID n w :
  Forall aliyun_goes_on (take 1 (net w)) →
  aliyun_poll cfg p taskID (S n) w =
  aliyun_poll cfg p taskID n (polled 2 (aliyun_task_request p taskID) w).
Proof.
  intros Hgo. cbn [aliyun_poll]. unfold_M. unfold polled, aliyun_task_request.
  destruct (net w) as [|r rest]; [done|].
  apply Forall_cons_1 in Hgo as [Hgo _].
  destruct r as [e|resp]; [done|]. destruct Hgo as [Hf Hs]. simpl.
  destruct (String.eqb (output_task_status (json resp)) "SUCCEEDED") eqn:E.
  - apply String.eqb_eq in E. rewrite (Hs E). cbn [length Nat.ltb Nat.leb andb].
    rewrite (eqb_false _ _ Hf). done.
  - cbn [andb]. rewrite (eqb_false _ _ Hf). done.
Qed.

Lemma aliyun_poll_after cfg p taskID k n : ∀ w,
  Forall aliyun_goes_on (take k (net w)) →
  aliyun_poll cfg p taskID (k + n) w =
  aliyun_poll cfg p taskID n (after_polls k (polled 2 (aliyun_task_request p taskID)) w).
Proof.
  induction k as [|k IH]; intros w Hgo; [done|].
  cbn [Nat.add]. rewrite aliyun_poll_goes_on.
  2:{ destruct (net w); [done|]. apply Forall_cons_1 in Hgo as [? _]. by constructor. }
  rewrite IH; [done|].
  cbn [polled net]. destruct (net w); cbn [tail]; [by destruct k|].
  by apply Forall_cons_1 in Hgo as [_ ?].
Qed.

Lemma aliyun_poll_succeeds cfg p taskID n w resp rest u us :
  net w = Replied resp :: rest →
  output_task_status (json resp) = "SUCCEEDED" →
  output_results (json resp) = u :: us →
  aliyun_poll cfg p taskID (S n) w =
  (let '(res, w') := downloadAndSave cfg p "aliyun" u
                       (polled 2 (aliyun_task_request p taskID) w) in
   (Some res, w')).
Proof.
  intros Hnet Hst Hres. cbn [aliyun_poll]. unfold_M. simpl. rewrite Hnet, Hst, Hres. simpl.
  unfold polled, aliyun_task_request. rewrite Hnet. done.
Qed.

Lemma after_polls_spec req step n : poll_step req step → ∀ w,
  requests (after_polls n step w) = (requests w ++ replicate n req)%list
  ∧ writes (after_polls n step w) = writes w
  ∧ files (after_polls n step w) = files w
  ∧ clock (after_polls n step w) = clock w
  ∧ net (after_polls n step w) = drop n (net w).
Proof.
  intros Hstep. induction n as [|n IH]; intros w.
  - cbn. by rewrite app_nil_r.
  - cbn [after_polls]. destruct (IH (step w)) as (Hr & Hw & Hf & Hc & Hn).
    destruct (Hstep w) as (Hr' & Hw' & Hf' & Hc' & Hn').
    rewrite Hr, Hf, Hw, Hc, Hn, Hr', Hw', Hf', Hc', Hn', <- app_assoc.
    repeat split; try done. destruct (net w); cbn [tail]; [by rewrite !drop_nil | done].
Qed.

Lemma polled_poll_step s req : poll_step req (polled s req).
Proof.
  intros w. unfold requests, writes, polled. cbn [trace files clock net].
  rewrite !omap_app. cbn. by rewrite !app_nil_r.
Qed.

Lemma modelscope_poll_step p taskID :
  poll_step (modelscope_task_request p taskID) (modelscope_polled p taskID).
Proof.
  intros w. unfold modelscope_polled. destruct (polled_poll_step 3 (modelscope_task_request p taskID) w) as (Hr & Hw & Hf & Hc & Hn).
  destruct (net w) as [|[e|resp] rest] eqn:E; try done.
  unfold log_Printf, emit. cbn [snd files clock net].
  unfold requests, writes in *. cbn [trace]. rewrite !omap_app, Hr, Hw. cbn. by rewrite !app_nil_r.
Qed.

Lemma modelscope_poll_goes_on cfg p taskID n w :
  Forall modelscope_goes_on (take 1 (net w)) →
  modelscope_poll cfg p taskID (S n) w =
  modelscope_poll cfg p taskID n (modelscope_polled p taskID w).
Proof.
  intros Hgo. cbn [modelscope_poll]. unfold_M.
  unfold modelscope_polled, polled, modelscope_task_request, log_Printf, emit.
  destruct (net w) as [|r rest]; [done|].
  apply Forall_cons_1 in Hgo as [Hgo _].
  destruct r as [e|resp]; [done|]. destruct Hgo as [Hf Hs]. simpl.
  destruct (String.eqb (task_status (json resp)) "SUCCEED") eqn:E.
  - apply String.eqb_eq in E. rewrite (Hs E). cbn [length Nat.ltb Nat.leb andb].
    rewrite (eqb_false _ _ Hf). done.
  - cbn [andb]. rewrite (eqb_false _ _ Hf). done.
Qed.

Lemma modelscope_poll_after cfg p taskID k n : ∀ w,
  Forall modelscope_goes_on (take k (net w)) →
  modelscope_poll cfg p taskID (k + n) w =
  modelscope_poll cfg p taskID n (after_polls k (modelscope_polled p taskID) w).
Proof.
  induction k as [|k IH]; intros w Hgo; [done|].
  cbn [Nat.add]. rewrite modelscope_poll_goes_on.
  2:{ destruct (net w); [done|]. apply Forall_cons_1 in Hgo as [? _]. by constructor. }
  rewrite IH; [done|].
  destruct (modelscope_poll_step p taskID w) as (_ & _ & _ & _ & ->).
  destruct (net w); cbn [tail]; [by destruct k|].
  by apply Forall_cons_1 in Hgo as [_ ?].
Qed.

Lemma modelscope_poll_succeeds cfg p taskID n w resp rest u us :
  net w = Replied resp :: rest →
  task_status (json resp) = "SUCCEED" →
  output_images (json resp) = u :: us →
  modelscope_poll cfg p taskID (S n) w =
  (let '(res, w') := downloadAndSave cfg p "modelscope" u
                       (polled 3 (modelscope_task_request p taskID) w) in
   (Some res, w')).
Proof.
  intros Hnet Hst Hres. cbn [modelscope_poll]. unfold_M. simpl. rewrite Hnet, Hst, Hres. simpl.
  unfold polled, modelscope_task_request. rewrite Hnet. done.
Qed.

Lemma task_created_spec req name taskID w :
  requests (task_created req name taskID w) = (requests w ++ [req])%list
  ∧ writes (task_created req name taskID w) = writes w
  ∧ files (task_created req name taskID w) = files w
  ∧ clock (task_created req name taskID w) = clock w
  ∧ net (task_created req name taskID w) = tail (net w).
Proof.
  unfold requests, writes, task_created. cbn [trace files clock net].
  rewrite !omap_app. cbn. by rewrite !app_nil_r.
Qed.

Lemma generateAliyunImage_created cfg p prompt w create rest taskID :
  net w = Replied create :: rest →
  unmarshal_err (json create) = None →
  output_task_id (json create) = taskID →
  taskID ≠ "" →
  generateAliyunImage cfg p prompt w =
  (out ← aliyun_poll cfg p taskID 30; poll_outcome (PlatformConfig.Name p) out)
    (task_created (aliyun_create_request cfg p prompt) (PlatformConfig.Name p) taskID w).
Proof.
  intros Hnet Herr Hid Hne. unfold generateAliyunImage. unfold_M.
  rewrite Hnet. cbn -[aliyun_poll]. rewrite Herr, Hid, (eqb_false _ _ Hne). cbn -[aliyun_poll].
  unfold task_created, aliyun_create_request. rewrite Hnet. done.
Qed.

Lemma generateModelScopeImage_created cfg p prompt size w create rest taskID :
  net w = Replied create :: rest →
  task_id (json create) = taskID →
  taskID ≠ "" →
  generateModelScopeImage cfg p prompt size w =
  (out ← modelscope_poll cfg p taskID 60; poll_outcome (PlatformConfig.Name p) out)
    (task_created (modelscope_create_request p prompt size) (PlatformConfig.Name p) taskID w).
Proof.
  intros Hnet Hid Hne. unfold generateModelScopeImage. unfold_M.
  rewrite Hnet. cbn -[modelscope_poll]. rewrite Hid, (eqb_false _ _ Hne). cbn -[modelscope_poll].
  unfold task_created, modelscope_create_request. rewrite Hnet. done.
Qed.

Lemma requests_logged line w : requests (logged line w) = requests w.
Proof. unfold requests, logged. cbn. rewrite omap_app. cbn. by rewrite app_nil_r. Qed.

Lemma writes_logged line w : writes (logged line w) = writes w.
Proof. unfold writes, logged. cbn. rewrite omap_app. cbn. by rewrite app_nil_r. Qed.

Lemma pair_eta {A B} (x : A * B) : (let '(a, b) := x in (a, b)) = x.
Proof. by destruct x. Qed.

Lemma last_snoc_event (l : list Event) (e : Event) : last (l ++ [e]) = Some e.
Proof. apply last_snoc. Qed.

(** Claim C2.  The asynchronous pollers of [generateAliyunImage] and
    [generateModelScopeImage].  When the polled statuses are PENDING,
    PENDING and then the provider's success token with a non-empty URL
    list, the loop stops after the third poll and hands the first URL to
    [downloadAndSave]: by then the creation request and exactly three
    polls have been sent and nothing has been written.  When every answer
    up to the cap (30 polls for Aliyun, 60 for ModelScope) lets the loop go
    on -- a transport error, or any status that is neither FAILED nor the
    success token with a URL -- the function sends exactly that many polls
    and returns no result, after logging the time-out; it writes no
    file. *)
Theorem C2_async_poller :
  (∀ cfg p prompt w create r1 r2 r3 rest taskID u us,
     net w = Replied create :: Replied r1 :: Replied r2 :: Replied r3 :: rest →
     unmarshal_err (json create) = None →
     output_task_id (json create) = taskID → taskID ≠ "" →
     output_task_status (json r1) = "PENDING" →
     output_task_status (json r2) = "PENDING" →
     output_task_status (json r3) = "SUCCEEDED" →
     output_results (json r3) = u :: us →
     ∃ w3, generateAliyunImage cfg p prompt w = downloadAndSave cfg p "aliyun" u w3
           ∧ requests w3 = (requests w ++ aliyun_create_request cfg p prompt
                              :: replicate 3 (aliyun_task_request p taskID))%list
           ∧ writes w3 = writes w ∧ net w3 = rest)
  ∧ (∀ cfg p prompt w create rest taskID,
       net w = Replied create :: rest →
       unmarshal_err (json create) = None →
       output_task_id (json create) = taskID → taskID ≠ "" →
       Forall aliyun_goes_on (take 30 rest) →
       ∃ w', generateAliyunImage cfg p prompt w = (None, w')
             ∧ requests w' = (requests w ++ aliyun_create_request cfg p prompt
                                :: replicate 30 (aliyun_task_request p taskID))%list
             ∧ writes w' = writes w ∧ timed_out (PlatformConfig.Name p) w')
  ∧ (∀ cfg p prompt size w create r1 r2 r3 rest taskID u us,
       net w = Replied create :: Replied r1 :: Replied r2 :: Replied r3 :: rest →
       task_id (json create) = taskID → taskID ≠ "" →
       task_status (json r1) = "PENDING" →
       task_status (json r2) = "PENDING" →
       task_status (json r3) = "SUCCEED" →
       output_images (json r3) = u :: us →
       ∃ w3, generateModelScopeImage cfg p prompt size w
             = downloadAndSave cfg p "modelscope" u w3
             ∧ requests w3 = (requests w ++ modelscope_create_request p prompt size
                                :: replicate 3 (modelscope_task_request p taskID))%list
             ∧ writes w3 = writes w ∧ net w3 = rest)
  ∧ (∀ cfg p prompt size w create rest taskID,
       net w = Replied create :: rest →
       task_id (json create) = taskID → taskID ≠ "" →
       Forall modelscope_goes_on (take 60 rest) →
       ∃ w', generateModelScopeImage cfg p prompt size w = (None, w')
             ∧ requests w' = (requests w ++ modelscope_create_request p prompt size
                                :: replicate 60 (modelscope_task_request p taskID))%list
             ∧ writes w' = writes w ∧ timed_out (PlatformConfig.Name p) w').
Proof.
  split; [|split; [|split]].
  - intros cfg p prompt w create r1 r2 r3 rest taskID u us Hnet Herr Hid Hne H1 H2 H3 Hu.
    rewrite (generateAliyunImage_created _ _ _ _ _ _ _ Hnet Herr Hid Hne).
    set (w0 := task_created _ _ _ w).
    destruct (task_created_spec (aliyun_create_request cfg p prompt)
                (PlatformConfig.Name p) taskID w) as (Hr & Hw & _ & _ & Hn).
    fold w0 in Hr, Hw, Hn. rewrite Hnet in Hn. cbn [tail] in Hn.
    set (step := polled 2 (aliyun_task_request p taskID)).
    destruct (after_polls_spec _ _ 2 (polled_poll_step 2 (aliyun_task_request p taskID)) w0)
      as (Hr2 & Hw2 & _ & _ & Hn2).
    fold step in Hr2, Hw2, Hn2. rewrite Hn in Hn2. cbn [drop] in Hn2.
    exists (step (after_polls 2 step w0)).
    destruct (polled_poll_step 2 (aliyun_task_request p taskID) (after_polls 2 step w0))
      as (Hr3 & Hw3 & _ & _ & Hn3).
    fold step in Hr3, Hw3, Hn3.
    split; [|split; [|split]].
    + unfold mbind, M_bind.
      change 30%nat with (2 + 28)%nat. rewrite aliyun_poll_after.
      2:{ rewrite Hn. cbn [take]. repeat constructor; cbn; rewrite ?H1, ?H2; done. }
      rewrite (aliyun_poll_succeeds _ _ _ _ _ _ _ _ _ Hn2 H3 Hu). fold step.
      destruct (downloadAndSave cfg p "aliyun" u (step (after_polls 2 step w0))). done.
    + rewrite Hr3, Hr2, Hr, <- !app_assoc. done.
    + by rewrite Hw3, Hw2.
    + by rewrite Hn3, Hn2.
  - intros cfg p prompt w create rest taskID Hnet Herr Hid Hne Hgo.
    rewrite (generateAliyunImage_created _ _ _ _ _ _ _ Hnet Herr Hid Hne).
    set (w0 := task_created _ _ _ w).
    destruct (task_created_spec (aliyun_create_request cfg p prompt)
                (PlatformConfig.Name p) taskID w) as (Hr & Hw & _ & _ & Hn).
    fold w0 in Hr, Hw, Hn. rewrite Hnet in Hn. cbn [tail] in Hn.
    set (step := polled 2 (aliyun_task_request p taskID)).
    destruct (after_polls_spec _ _ 30 (polled_poll_step 2 (aliyun_task_request p taskID)) w0)
      as (Hr2 & Hw2 & _ & _ & Hn2).
    fold step in Hr2, Hw2, Hn2.
    unfold mbind, M_bind. change 30%nat with (30 + 0)%nat at 1.
    rewrite aliyun_poll_after by (by rewrite Hn). fold step.
    exists (logged ("[" +:+ PlatformConfig.Name p +:+ "] 任务超时") (after_polls 30 step w0)).
    split; [done|]. split; [|split].
    + rewrite requests_logged, Hr2, Hr, <- app_assoc. done.
    + by rewrite writes_logged, Hw2.
    + apply last_snoc.
  - intros cfg p prompt size w create r1 r2 r3 rest taskID u us Hnet Hid Hne H1 H2 H3 Hu.
    rewrite (generateModelScopeImage_created _ _ _ _ _ _ _ _ Hnet Hid Hne).
    set (w0 := task_created _ _ _ w).
    destruct (task_created_spec (modelscope_create_request p prompt size)
                (PlatformConfig.Name p) taskID w) as (Hr & Hw & _ & _ & Hn).
    fold w0 in Hr, Hw, Hn. rewrite Hnet in Hn. cbn [tail] in Hn.
    set (step := modelscope_polled p taskID).
    destruct (after_polls_spec _ _ 2 (modelscope_poll_step p taskID) w0)
      as (Hr2 & Hw2 & _ & _ & Hn2).
    fold step in Hr2, Hw2, Hn2. rewrite Hn in Hn2. cbn [drop] in Hn2.
    exists (polled 3 (modelscope_task_request p taskID) (after_polls 2 step w0)).
    destruct (polled_poll_step 3 (modelscope_task_request p taskID) (after_polls 2 step w0))
      as (Hr3 & Hw3 & _ & _ & Hn3).
    split; [|split; [|split]].
    + unfold mbind, M_bind.
      change 60%nat with (2 + 58)%nat. rewrite modelscope_poll_after.
      2:{ rewrite Hn. cbn [take]. repeat constructor; cbn; rewrite ?H1, ?H2; done. }
      rewrite (modelscope_poll_succeeds _ _ _ _ _ _ _ _ _ Hn2 H3 Hu). fold step.
      destruct (downloadAndSave cfg p "modelscope" u _). done.
    + rewrite Hr3, Hr2, Hr, <- !app_assoc. done.
    + by rewrite Hw3, Hw2.
    + by rewrite Hn3, Hn2.
  - intros cfg p prompt size w create rest taskID Hnet Hid Hne Hgo.
    rewrite (generateModelScopeImage_created _ _ _ _ _ _ _ _ Hnet Hid Hne).
    set (w0 := task_created _ _ _ w).
    destruct (task_created_spec (modelscope_create_request p prompt size)
                (PlatformConfig.Name p) taskID w) as (Hr & Hw & _ & _ & Hn).
    fold w0 in Hr, Hw, Hn. rewrite Hnet in Hn. cbn [tail] in Hn.
    set (step := modelscope_polled p taskID).
    destruct (after_polls_spec _ _ 60 (modelscope_poll_step p taskID) w0)
      as (Hr2 & Hw2 & _ & _ & Hn2).
    fold step in Hr2, Hw2, Hn2.
    unfold mbind, M_bind. change 60%nat with (60 + 0)%nat at 1.
    rewrite modelscope_poll_after by (by rewrite Hn). fold step.
    exists (logged ("[" +:+ PlatformConfig.Name p +:+ "] 任务超时") (after_polls 60 step w0)).
    split; [done|]. split; [|split].
    + rewrite requests_logged, Hr2, Hr, <- app_assoc. done.
    + by rewrite writes_logged, Hw2.
    + apply last_snoc.
Qed.








(** Claim C1 at the failing input.  With output root [/data/out], at
    2026-02-20T21:56:54, a successful generation for the provider key
    [openai] is stored as [/data/out/2026-02-20/siliconflow/215654.png];
    nothing is stored under [/data/out/2026-02-20/openai/]. *)
Theorem C1_openai_artifact_lands_under_siliconflow :
  let run := generateImage example_cfg "openai" "a cat" "" openai_world in
  clock openai_world = mkTime 2026 2 20 21 56 54 1771624614
  ∧ ImageGenConfig.OutputDir (ImageGen example_cfg) = "/data/out"
  ∧ run.1 = Some (GenerateResult.mk "OpenAI DALL-E 3" "dall-e-3" "215654.png"
                    "/data/out/2026-02-20/siliconflow/215654.png" true)
  ∧ files run.2 !! "/data/out/2026-02-20/siliconflow/215654.png" = Some "PNG"
  ∧ files run.2 !! "/data/out/2026-02-20/openai/215654.png" = None.
Proof. vm_compute. done. Qed.

(** The example of the interface description: the path for [siliconflow]
    at 2026-02-20T21:56:54 under [/data/out]. *)
Lemma artifact_path_example :
  artifact_path example_cfg example_time "siliconflow"
  = "/data/out/2026-02-20/siliconflow/215654.png".
Proof. reflexivity. Qed.

Lemma downloadAndSave_result cfg p platform u w r w' :
  downloadAndSave cfg p platform u w = (Some r, w') →
  r = artifact cfg p (clock w) platform ∧ clock w' = clock w.
Proof.
  unfold downloadAndSave. unfold_M. unfold os_WriteFile. cbn.
  destruct (net w) as [|[e|resp] rest]; cbn; try done.
  destruct (write_err w); cbn; intros [= <- <-]; done.
Qed.

(** The synchronous adapter never sees the key it was reached by: every
    artifact it stores goes to the [siliconflow] directory. *)
Lemma generateSyncImage_result cfg p prompt w r w' :
  generateSyncImage cfg p prompt w = (Some r, w') →
  r = artifact cfg p (clock w) "siliconflow".
Proof.
  unfold generateSyncImage. unfold_M. cbn.
  destruct (net w) as [|[e|resp] rest]; cbn; try done.
  - destruct (negb (StatusCode resp =? 200)); cbn; [done|].
    destruct (bool_decide _ || _); cbn; [done|].
    intros H. by apply downloadAndSave_result in H as [-> _].
Qed.


(** Claim C9 at the failing input.  For a requested 1024 by 2048 image
    [generateViaHTTP] sends the size token [1024x2048], with the raw
    width, where [generateSyncImage] sends [512x2048]. *)
Theorem C9_generateViaHTTP_sends_the_raw_width :
  body <$> requests (Generator.generateViaHTTP example_generator "a cat" 1024 2048
                       (example_world [])).2
  = [JsonSync "Kwai-Kolors/Kolors" "a cat" "1024x2048" 1]
  ∧ body <$> requests (generateSyncImage example_cfg
                         (example_platform "SiliconFlow" "Kwai-Kolors/Kolors") "a cat"
                         (example_world [])).2
    = [JsonSync "Kwai-Kolors/Kolors" "a cat" "512x2048" 1].
Proof. vm_compute. done. Qed.

Lemma generateSyncImage_request cfg p prompt w :
  ∃ tr, trace (generateSyncImage cfg p prompt w).2
        = (trace w ++ EvHttp (sync_request cfg p prompt) :: tr)%list.
Proof.
  unfold generateSyncImage, sync_request, sync_size. unfold_M. cbn.
  destruct (_ >? _);
  (destruct (net w) as [|[e|resp] rest]; cbn;
   [eexists; by rewrite <- !app_assoc
   |eexists; by rewrite <- !app_assoc
   |destruct (negb (StatusCode resp =? 200)); cbn;
    [eexists; by rewrite <- !app_assoc|];
    destruct (bool_decide _ || _); cbn;
    [eexists; by rewrite <- !app_assoc|];
    unfold downloadAndSave; unfold_M; unfold os_WriteFile; cbn;
    destruct rest as [|[e|img] rest']; cbn;
    [eexists; by rewrite <- !app_assoc
    |eexists; by rewrite <- !app_assoc
    |destruct (write_err w); cbn; eexists; by rewrite <- !app_assoc]]).
Qed.

Lemma sync_size_portrait width height :
  0 < width < height →
  sync_size width height = itoa (width `quot` 2) +:+ "x" +:+ itoa height
  ∧ width `quot` 2 < width.
Proof.
  intros [Hw Hh]. unfold sync_size.
  destruct (height >? width) eqn:E; [|lia].
  split; [done|]. apply Z.quot_lt; lia.
Qed.

(** Claim C10.  A publish request for an existing image record whose
    status is not [approved] is answered with status 400 and an error, and
    leaves the world as it was: no adapter is invoked.  Conversely, when
    [handlePublish] does anything at all to the trace, the request named a
    record whose status is [approved]. *)
Theorem C10_only_approved_images_are_published :
  (∀ pubManager req record w,
     PublishReq.ImageID req ≠ 0%nat →
     (db_First (PublishReq.ImageID req) w).1 = Some record →
     ImageRecord.Status record ≠ "approved" →
     handlePublish pubManager (Parsed req) w
     = ((400, H_error "只能发布审核通过的图片"), w))
  ∧ (∀ pubManager body w,
       trace (handlePublish pubManager body w).2 ≠ trace w →
       ∃ req record,
         body = Parsed req
         ∧ (db_First (PublishReq.ImageID req) w).1 = Some record
         ∧ ImageRecord.Status record = "approved").
Proof.
  split.
  - intros m req record w Hid Hfound Hst. unfold handlePublish.
    destruct (PublishReq.ImageID req =? 0)%nat eqn:E; [apply Nat.eqb_eq in E; done|].
    unfold mbind, M_bind. unfold db_First in *. cbn in Hfound. rewrite Hfound.
    by rewrite (eqb_false _ _ Hst).
  - intros m [e|req] w; unfold handlePublish; [by cbn|].
    destruct (PublishReq.ImageID req =? 0)%nat; [by cbn|].
    unfold mbind, M_bind. unfold db_First. cbn [fst].
    destruct (List.find _ (db w)) as [record|] eqn:F; [|by cbn].
    destruct (String.eqb (ImageRecord.Status record) "approved") eqn:E; [|by cbn].
    intros _. exists req, record. apply String.eqb_eq in E. done.
Qed.

(** Claim C5 fails as stated: a platform that the file enables and whose
    environment variable is unset is, after [loadConfig], enabled with an
    empty credential. *)
Lemma C5_counterexample :
  let loaded := (loadConfig enabled_without_key_cfg (example_world [])).1 in
  getenv (example_world []) "SILICONFLOW_API_KEY" = ""
  ∧ ∃ p, Platforms loaded !! "siliconflow" = Some p
         ∧ PlatformConfig.Enabled p = true ∧ PlatformConfig.APIKey p = "".
Proof. split; [done|]. eexists. split; [by vm_compute|]. done. Qed.

Lemma generateImage_not_enabled cfg platform prompt size w :
  not_enabled cfg platform → generateImage cfg platform prompt size w = (None, w).
Proof.
  unfold not_enabled, generateImage. destruct (Platforms cfg !! platform) as [p|]; [|done].
  by intros ->.
Qed.

(** Claim C5, as amended.  [loadConfig] maps every platform entry through
    [with_env_key]: an entry whose environment variable is non-empty
    becomes enabled with that credential, any other entry keeps the flag
    and the credential of the configuration file.  [getEnabledPlatforms]
    holds exactly the entries that are enabled and have a non-empty
    credential.  [generateImage] returns at once, leaving the world
    untouched, for a key that is missing or whose enabled flag is
    false. *)
Theorem C5_enabled_flag_and_credential :
  (∀ c w key,
     Platforms (loadConfig c w).1 !! key = with_env_key w <$> Platforms c !! key)
  ∧ (∀ w p,
       getenv w (PlatformConfig.EnvKey p) ≠ "" →
       PlatformConfig.Enabled (with_env_key w p) = true
       ∧ PlatformConfig.APIKey (with_env_key w p) = getenv w (PlatformConfig.EnvKey p))
  ∧ (∀ w p, getenv w (PlatformConfig.EnvKey p) = "" → with_env_key w p = p)
  ∧ (∀ cfg key p,
       getEnabledPlatforms cfg !! key = Some p ↔
       Platforms cfg !! key = Some p
       ∧ PlatformConfig.Enabled p = true ∧ PlatformConfig.APIKey p ≠ "")
  ∧ (∀ cfg platform prompt size w,
       not_enabled cfg platform →
       generateImage cfg platform prompt size w = (None, w)).
Proof.
  split; [|split; [|split; [|split]]].
  - intros c w key. unfold loadConfig. cbn. by rewrite lookup_fmap.
  - intros w p Hne. unfold with_env_key. by rewrite (eqb_false _ _ Hne).
  - intros w p He. unfold with_env_key. by rewrite He.
  - intros cfg key p. unfold getEnabledPlatforms. by rewrite map_lookup_filter_Some.
  - apply generateImage_not_enabled.
Qed.



(** Claim C6 fails as stated: for a key that is not configured
    [generateImage] returns nil and leaves no trace, not even a log line. *)
Lemma C6_counterexample :
  Platforms example_cfg !! "dall-e" = None
  ∧ generateImage example_cfg "dall-e" "a cat" "" (example_world [])
    = (None, example_world []).
Proof. split; by vm_compute. Qed.

Lemma generateImage_can_succeed cfg platform p :
  Platforms cfg !! platform = Some p →
  PlatformConfig.Enabled p = true →
  ∃ r, (generateImage cfg platform "a cat" "" (cooperative_world platform)).1 = Some r
       ∧ GenerateResult.Success r = true.
Proof.
  intros Hp Hen. unfold generateImage, cooperative_world. rewrite Hp, Hen. cbn [negb].
  destruct (String.eqb platform "aliyun"); [|destruct (String.eqb platform "modelscope")].
  - eexists. split; [by vm_compute|done].
  - eexists. split; [by vm_compute|done].
  - eexists. split; [by vm_compute|done].
Qed.

Lemma GenerateSingle_can_succeed g platform gen :
  Generator.generators g !! platform = Some gen →
  ∃ r, (Generator.GenerateSingle g platform "a cat" (cooperative_world "")).1 = r
       ∧ Generator.GenerateResult.Success r = true
       ∧ Generator.GenerateResult.Platform r = Generator.PlatformGenerator.Name gen.
Proof.
  intros Hg. unfold Generator.GenerateSingle. rewrite Hg.
  eexists. split; [by vm_compute|done].
Qed.

(** Claim C6, as amended.  For an enabled provider [generateImage] can
    succeed.  For a missing or disabled key it returns no result and does
    nothing, and [handleGenerate] answers every missing result with status
    500 and a fixed error message.  [GenerateSingle] can succeed for a
    registered key, and for an unregistered one returns a failed outcome
    that names the key and carries the error text. *)
Theorem C6_single_target_outcomes :
  (∀ cfg platform p,
     Platforms cfg !! platform = Some p →
     PlatformConfig.Enabled p = true →
     ∃ r, (generateImage cfg platform "a cat" "" (cooperative_world platform)).1 = Some r
          ∧ GenerateResult.Success r = true)
  ∧ (∀ cfg platform prompt size w,
       not_enabled cfg platform →
       generateImage cfg platform prompt size w = (None, w))
  ∧ (∀ cfg req w,
       GenerateReq.Prompt req ≠ "" →
       GenerateReq.Platform req ≠ "" →
       (generateImage cfg (GenerateReq.Platform req) (GenerateReq.Prompt req)
                      (GenerateReq.Size req) w).1 = None →
       (handleGenerate cfg (Parsed req) w).1 = (500, H_error generate_failed))
  ∧ (∀ g platform gen,
       Generator.generators g !! platform = Some gen →
       ∃ r, (Generator.GenerateSingle g platform "a cat" (cooperative_world "")).1 = r
            ∧ Generator.GenerateResult.Success r = true
            ∧ Generator.GenerateResult.Platform r = Generator.PlatformGenerator.Name gen)
  ∧ (∀ g platform prompt w,
       Generator.generators g !! platform = None →
       Generator.GenerateSingle g platform prompt w
       = (Generator.GenerateResult.mk platform "" "" false "平台未启用" (clock w), w)).
Proof.
  split; [|split; [|split; [|split]]].
  - apply generateImage_can_succeed.
  - apply generateImage_not_enabled.
  - intros cfg req w Hp Hk Hnone. unfold handleGenerate.
    rewrite (eqb_false _ _ Hp), (eqb_false _ _ Hk). cbn [orb].
    unfold mbind, M_bind.
    destruct (generateImage _ _ _ _ w) as [[r|] w']; [done|done].
  - apply GenerateSingle_can_succeed.
  - intros g platform prompt w Hg. unfold Generator.GenerateSingle. by rewrite Hg.
Qed.

(** C6 on the example configuration: [openai] is capable of success and
    the unknown key [dall-e] yields nil. *)
Lemma C6_witness :
  (∃ r, (generateImage example_cfg "openai" "a cat" "" (cooperative_world "openai")).1 = Some r
        ∧ GenerateResult.Success r = true)
  ∧ generateImage example_cfg "dall-e" "a cat" "" (example_world []) = (None, example_world []).
Proof.
  split.
  - eapply (proj1 C6_single_target_outcomes); [by vm_compute | done].
  - apply (proj1 (proj2 C6_single_target_outcomes)). by vm_compute.
Defined.

Section FanOut.
Import Generator.

Lemma worker_Platform g prompt outputDir platform gen w :
  GenerateResult.Platform (worker g prompt outputDir platform gen w).1
  = PlatformGenerator.Name gen.
Proof.
  unfold worker, Generate, generateViaHTTP, downloadImage, httpGet, callWithLangchaingo.
  unfold_M. unfold os_WriteFile. cbn.
  repeat case_match; by simplify_eq/=.
Qed.

Lemma run_workers_Platform g prompt outputDir jobs : ∀ w,
  GenerateResult.Platform <$> (run_workers g prompt outputDir jobs w).1
  = (λ job, PlatformGenerator.Name job.2) <$> jobs.
Proof.
  induction jobs as [|[key gen] jobs IH]; intros w; [done|].
  cbn [run_workers]. unfold mbind, M_bind, mret, M_ret.
  pose proof (worker_Platform g prompt outputDir key gen w) as Hw.
  destruct (worker g prompt outputDir key gen w) as [r w1].
  specialize (IH w1). destruct (run_workers g prompt outputDir jobs w1) as [rs w2].
  cbn in *. by rewrite Hw, IH.
Qed.

(** Claim C8, as amended.  Whatever order the goroutines finish in,
    [GenerateAll] returns as many outcomes as there are registered
    providers, one for each, and each outcome is labelled with the display
    name of its provider (not with the registry key). *)
Theorem C8_fan_out_one_outcome_per_provider sched g prompt w :
  (∀ jobs, sched jobs ≡ₚ jobs) →
  let results := (GenerateAll sched g prompt w).1 in
  length results = size (generators g)
  ∧ GenerateResult.Platform <$> results
    ≡ₚ (λ job, PlatformGenerator.Name job.2) <$> map_to_list (generators g).
Proof.
  intros Hsched. unfold GenerateAll.
  destruct (size (generators g) =? 0)%nat eqn:E.
  - apply Nat.eqb_eq in E. cbn. split; [done|].
    apply map_size_empty_iff in E. rewrite E, map_to_list_empty. done.
  - unfold mbind, M_bind, mret, M_ret. cbn.
    match goal with |- context [run_workers g prompt ?d ?j ?w0] =>
      pose proof (run_workers_Platform g prompt d j w0) as Hrun;
      destruct (run_workers g prompt d j w0) as [rs w1] end.
    cbn in *.
    assert (GenerateResult.Platform <$> rs
            ≡ₚ (λ job, PlatformGenerator.Name job.2) <$> map_to_list (generators g)) as Hperm.
    { rewrite Hrun. by rewrite Hsched. }
    split; [|done].
    rewrite <- (length_fmap GenerateResult.Platform), Hperm, length_fmap.
    apply length_map_to_list.
Qed.

(** Claim C8 fails as stated: two providers registered under distinct keys
    share a display name, and the two outcomes carry the same label. *)
Lemma C8_counterexample :
  let results := (GenerateAll id same_name_generator "a cat" (example_world [])).1 in
  dom (generators same_name_generator) = {["sf-kolors"; "sf-flux"]}
  ∧ GenerateResult.Platform <$> results = ["SiliconFlow"; "SiliconFlow"]
  ∧ ¬ NoDup (GenerateResult.Platform <$> results).
Proof.
  split; [by vm_compute|].
  assert (GenerateResult.Platform <$> (GenerateAll id same_name_generator "a cat" (example_world [])).1 = ["SiliconFlow"; "SiliconFlow"]) as H by (by vm_compute).
  split; [done|]. cbv zeta. rewrite H. intros Hnd. apply NoDup_cons in Hnd as [Hnin _].
  apply Hnin. by left.
Qed.

(** C8 on the generator of the counterexample, goroutines in map order. *)
Lemma C8_witness :
  let results := (GenerateAll id same_name_generator "a cat" (example_world [])).1 in
  length results = size (generators same_name_generator)
  ∧ GenerateResult.Platform <$> results
    ≡ₚ (λ job, PlatformGenerator.Name job.2) <$> map_to_list (generators same_name_generator).
Proof. apply C8_fan_out_one_outcome_per_provider. done. Defined.
End FanOut.


Section Dispatch.
Variable m : Manager.
Variables path title content : string.

Lemma publish_loop_cons k0 ks acc w :
  publish_loop m (k0 :: ks) path title content acc w
  = publish_loop m ks path title content
      (<[k0 := outcome_text (Manager_Publish m k0 path title content w).1]> acc)
      (Manager_Publish m k0 path title content w).2.
Proof.
  cbn [publish_loop]. unfold mbind, M_bind.
  destruct (Manager_Publish m k0 path title content w) as [[u err] w1]. by destruct err.
Qed.

Lemma publish_loop_spec ks : ∀ acc w,
  let run := publish_loop m ks path title content acc w in
  run.2 = dispatched m path title content ks w
  ∧ dom run.1 = dom acc ∪ list_to_set ks
  ∧ (∀ k, k ∉ ks → run.1 !! k = acc !! k)
  ∧ (NoDup ks → ∀ i k, ks !! i = Some k →
       run.1 !! k = Some (outcome_text
                            (Manager_Publish m k path title content
                               (dispatched m path title content (take i ks) w)).1)).
Proof.
  induction ks as [|k0 ks IH]; intros acc w.
  - split; [done|]. split; [symmetry; apply (right_id_L ∅ (∪))|]. split; [done|].
    intros _ i k Hk. done.
  - cbv zeta. rewrite publish_loop_cons. cbn [dispatched].
    set (r := Manager_Publish m k0 path title content w).
    destruct (IH (<[k0 := outcome_text r.1]> acc) r.2) as (Hw & Hdom & Hout & Hin).
    split; [done|]. split; [|split].
    + rewrite Hdom, dom_insert_L. cbn [list_to_set].
      by rewrite (comm_L (∪) {[k0]} (dom acc)), (assoc_L (∪)).
    + intros k Hk. apply not_elem_of_cons in Hk as [Hne Hk].
      rewrite (Hout k Hk). by rewrite lookup_insert_ne.
    + intros Hnd i k Hik. apply NoDup_cons in Hnd as [Hnin Hnd].
      destruct i as [|i]; cbn in Hik.
      * injection Hik as ->. by rewrite (Hout k Hnin), lookup_insert_eq.
      * cbn [take dispatched]. by apply Hin.
Qed.

Lemma dispatched_files ks : ∀ w,
  map_Forall (λ _ p, reads_files_only p) (platforms m) →
  files (dispatched m path title content ks w) = files w.
Proof.
  intros w Hm. revert w. induction ks as [|k ks IH]; intros w; [done|].
  cbn [dispatched]. rewrite IH. unfold Manager_Publish.
  destruct (platforms m !! k) as [p|] eqn:E; [|done].
  by destruct (Hm k p E path title content w) as [-> _].
Qed.

Lemma Manager_Publish_files k w w2 :
  map_Forall (λ _ p, reads_files_only p) (platforms m) →
  files w2 = files w →
  (Manager_Publish m k path title content w2).1
  = (Manager_Publish m k path title content w).1.
Proof.
  intros Hm Hf. unfold Manager_Publish.
  destruct (platforms m !! k) as [p|] eqn:E; [|done].
  by destruct (Hm k p E path title content w) as [_ ->].
Qed.
End Dispatch.

Lemma wf_manager_types m :
  wf_manager m → Type_ <$> List_ m = (map_to_list (platforms m)).*1.
Proof.
  intros Hwf. unfold List_. rewrite <- list_fmap_compose.
  apply Forall_fmap_ext_1. apply map_Forall_to_list in Hwf.
  eapply Forall_impl; [exact Hwf|]. by intros [k p].
Qed.

(** Claim C7.  The dispatch loop of [handlePublish] over distinct
    requested keys, or over every registered platform when none is
    requested: the result map has exactly the dispatched keys, one entry
    each, and the entry of a key is the text of what the dispatch to that
    very key returned, whatever the other dispatches returned.  For
    adapters that only read the files (those [initPublisher] registers)
    the entry is what a dispatch to that key alone returns in the initial
    world. *)
Theorem C7_publish_dispatch m requested path title content w :
  wf_manager m →
  NoDup requested →
  let ks := platformsToUse m requested in
  let run := publish_loop m ks path title content ∅ w in
  (requested = [] → ks = (map_to_list (platforms m)).*1)
  ∧ NoDup ks
  ∧ dom run.1 = list_to_set ks
  ∧ size run.1 = length ks
  ∧ (∀ i k, ks !! i = Some k →
       run.1 !! k
       = Some (outcome_text
                 (Manager_Publish m k path title content
                    (dispatched m path title content (take i ks) w)).1))
  ∧ (map_Forall (λ _ p, reads_files_only p) (platforms m) →
     ∀ k, k ∈ ks →
       run.1 !! k = Some (outcome_text (Manager_Publish m k path title content w).1)).
Proof.
  intros Hwf Hnd ks run.
  assert (requested = [] → ks = (map_to_list (platforms m)).*1) as Hall.
  { intros ->. subst ks. unfold platformsToUse. cbn. by apply wf_manager_types. }
  assert (NoDup ks) as Hks.
  { subst ks. unfold platformsToUse. destruct requested as [|k0 rest]; [|done].
    cbn. rewrite wf_manager_types by done. apply NoDup_fst_map_to_list. }
  destruct (publish_loop_spec m path title content ks ∅ w) as (_ & Hdom & _ & Hin).
  fold run in Hdom, Hin. rewrite dom_empty_L, (left_id_L ∅ (∪)) in Hdom.
  split; [done|]. split; [done|]. split; [done|]. split; [|split].
  - rewrite <- size_dom, Hdom. by apply size_list_to_set.
  - by apply Hin.
  - intros Hro k Hk. apply list_elem_of_lookup in Hk as [i Hi].
    rewrite (Hin Hks i k Hi). f_equal. f_equal.
    apply Manager_Publish_files; [done|]. by apply dispatched_files.
Qed.

Lemma Register_wf m p w : wf_manager m → wf_manager (Register m p w).1.
Proof. intros Hwf. cbn. by apply map_Forall_insert_2. Qed.

Lemma register_all_wf ps : ∀ m w, wf_manager m → wf_manager (register_all m ps w).1.
Proof.
  induction ps as [|p ps IH]; intros m w Hwf; [done|].
  cbn [register_all]. unfold mbind, M_bind.
  pose proof (Register_wf m p w Hwf) as Hwf'.
  destruct (Register m p w) as [m' w']. by apply IH.
Qed.

Lemma register_all_reads_files_only ps : ∀ m w,
  map_Forall (λ _ p, reads_files_only p) (platforms m) →
  Forall reads_files_only ps →
  map_Forall (λ _ p, reads_files_only p) (platforms (register_all m ps w).1).
Proof.
  induction ps as [|p ps IH]; intros m w Hm Hps; [done|].
  apply Forall_cons_1 in Hps as [Hp Hps].
  cbn [register_all]. unfold mbind, M_bind.
  assert (map_Forall (λ _ p, reads_files_only p) (platforms (Register m p w).1)) as Hm'
    by (cbn; by apply map_Forall_insert_2).
  destruct (Register m p w) as [m' w']. by apply IH.
Qed.

Lemma Xiaohongshu_reads_files_only x : reads_files_only (as_Platform (T:=Xiaohongshu) x).
Proof.
  intros path title content w.
  unfold invoke, as_Platform, Publish, impl_Publish, Xiaohongshu_impl, Xiaohongshu_Publish,
         publishViaMCP, os_Open.
  unfold_M. cbn.
  split.
  - by destruct (files w !! path).
  - intros w2 ->. by destruct (files w !! path).
Qed.

Lemma Douyin_reads_files_only x : reads_files_only (as_Platform (T:=Douyin) x).
Proof. intros path title content w. done. Qed.

Lemma Bilibili_reads_files_only x : reads_files_only (as_Platform (T:=Bilibili) x).
Proof. intros path title content w. done. Qed.

Lemma initPublisher_wf cfg w : wf_manager (initPublisher cfg w).1.
Proof. apply register_all_wf. apply map_Forall_empty. Qed.

Lemma initPublisher_reads_files_only cfg w :
  map_Forall (λ _ p, reads_files_only p) (platforms (initPublisher cfg w).1).
Proof.
  apply register_all_reads_files_only; [apply map_Forall_empty|].
  unfold initPublisher.
  destruct (PublishConfig.Xiaohongshu_Enabled _), (PublishConfig.Douyin_Enabled _),
           (PublishConfig.Bilibili_Enabled _); cbn [app];
    repeat (apply Forall_cons_2;
            [first [ exact (Xiaohongshu_reads_files_only _)
                   | exact (Douyin_reads_files_only _)
                   | exact (Bilibili_reads_files_only _) ] |]);
    apply Forall_nil_2.
Qed.

(** C7 on the manager [initPublisher] builds from the example
    configuration, for a request that names an adapter whose upload fails,
    an unknown platform and a working adapter. *)
Lemma C7_witness :
  let ks := platformsToUse example_manager ["xiaohongshu"; "twitter"; "douyin"] in
  let run := publish_loop example_manager ks "/tmp/missing.png" "title" "content" ∅
                          published_world in
  (["xiaohongshu"; "twitter"; "douyin"] = [] →
   ks = (map_to_list (platforms example_manager)).*1)
  ∧ NoDup ks
  ∧ dom run.1 = list_to_set ks
  ∧ size run.1 = length ks
  ∧ (∀ i k, ks !! i = Some k →
       run.1 !! k
       = Some (outcome_text
                 (Manager_Publish example_manager k "/tmp/missing.png" "title" "content"
                    (dispatched example_manager "/tmp/missing.png" "title" "content"
                                (take i ks) published_world)).1))
  ∧ (map_Forall (λ _ p, reads_files_only p) (platforms example_manager) →
     ∀ k, k ∈ ks →
       run.1 !! k = Some (outcome_text (Manager_Publish example_manager k "/tmp/missing.png"
                                          "title" "content" published_world).1)).
Proof.
  apply C7_publish_dispatch.
  - apply initPublisher_wf.
  - apply (bool_decide_unpack _). vm_compute. exact I.
Defined.

(** The three outcomes of that request: the failure of the first and the
    unknown second leave the third as it is. *)
Example dispatch_example :
  (publish_loop example_manager ["xiaohongshu"; "twitter"; "douyin"]
                "/tmp/missing.png" "title" "content" ∅ published_world).1
  = <["xiaohongshu" := "失败: 打开图片失败: open /tmp/missing.png: no such file or directory"]>
      (<["twitter" := "失败: 未支持的平台: twitter"]>
         {["douyin" := "抖音发布功能开发中"]}).
Proof. by vm_compute. Qed.


Lemma aliyun_poll_result cfg p taskID n : ∀ w r w',
  aliyun_poll cfg p taskID n w = (Some (Some r), w') →
  r = artifact cfg p (clock w) "aliyun".
Proof.
  induction n as [|n IH]; intros w r w'; [done|].
  cbn [aliyun_poll]. unfold_M. cbn.
  destruct (net w) as [|[e|resp] rest]; cbn.
  - intros H. by apply IH in H.
  - intros H. by apply IH in H.
  - destruct (String.eqb _ "SUCCEEDED" && _).
    + destruct (downloadAndSave _ _ _ _ _) as [res w1] eqn:E. intros [= -> <-].
      by apply downloadAndSave_result in E as [-> _].
    + destruct (String.eqb _ "FAILED"); [done|]. intros H. by apply IH in H.
Qed.

Lemma modelscope_poll_result cfg p taskID n : ∀ w r w',
  modelscope_poll cfg p taskID n w = (Some (Some r), w') →
  r = artifact cfg p (clock w) "modelscope".
Proof.
  induction n as [|n IH]; intros w r w'; [done|].
  cbn [modelscope_poll]. unfold_M. cbn.
  destruct (net w) as [|[e|resp] rest]; cbn.
  - intros H. by apply IH in H.
  - intros H. by apply IH in H.
  - destruct (String.eqb _ "SUCCEED" && _).
    + destruct (downloadAndSave _ _ _ _ _) as [res w1] eqn:E. intros [= -> <-].
      by apply downloadAndSave_result in E as [-> _].
    + destruct (String.eqb _ "FAILED"); [done|]. intros H. by apply IH in H.
Qed.

(** Every artifact [generateImage] returns is the one [downloadAndSave]
    stores under [store_key]: the provider's own key for the two
    asynchronous providers, [siliconflow] for every other key. *)
Lemma generateImage_result cfg platform prompt size w r w' :
  generateImage cfg platform prompt size w = (Some r, w') →
  ∃ p, Platforms cfg !! platform = Some p
       ∧ r = artifact cfg p (clock w) (store_key platform).
Proof.
  unfold generateImage, store_key.
  destruct (Platforms cfg !! platform) as [p|]; [|done].
  destruct (negb (PlatformConfig.Enabled p)); [done|].
  intros H. exists p. split; [done|].
  destruct (String.eqb platform "aliyun"); [|destruct (String.eqb platform "modelscope")].
  - revert H. unfold generateAliyunImage. generalize 30%nat. intros n. unfold_M.
    destruct (net w) as [|[e|resp] rest]; cbn; try done.
    destruct (bool_decide _ || _); cbn; [done|].
    destruct (aliyun_poll _ _ _ _ _) as [[res|] w1] eqn:E; cbn; [|done].
    intros [= -> <-]. by apply aliyun_poll_result in E.
  - revert H. unfold generateModelScopeImage. generalize 60%nat. intros n. unfold_M.
    destruct (net w) as [|[e|resp] rest]; cbn; try done.
    destruct (String.eqb (task_id _) ""); cbn; [done|].
    destruct (modelscope_poll _ _ _ _ _) as [[res|] w1] eqn:E; cbn; [|done].
    intros [= -> <-]. by apply modelscope_poll_result in E.
  - by apply generateSyncImage_result in H.
Qed.


(** C2 on two Aliyun scripts: PENDING, PENDING, SUCCEEDED with a URL, and
    forty times PENDING. *)
Lemma C2_witness :
  (∃ w3, generateAliyunImage example_cfg (example_platform "Aliyun" "wanx-v1") "a cat"
                             pending_then_succeeded_world
         = downloadAndSave example_cfg (example_platform "Aliyun" "wanx-v1") "aliyun"
                           "https://oss.example.com/1.png" w3
         ∧ requests w3
           = (requests pending_then_succeeded_world
              ++ aliyun_create_request example_cfg (example_platform "Aliyun" "wanx-v1") "a cat"
              :: replicate 3 (aliyun_task_request (example_platform "Aliyun" "wanx-v1")
                                                  "task-1"))%list
         ∧ writes w3 = writes pending_then_succeeded_world
         ∧ net w3 = [image_answer "PNG"])
  ∧ (∃ w', generateAliyunImage example_cfg (example_platform "Aliyun" "wanx-v1") "a cat"
                               always_pending_world = (None, w')
           ∧ requests w'
             = (requests always_pending_world
                ++ aliyun_create_request example_cfg (example_platform "Aliyun" "wanx-v1")
                                         "a cat"
                :: replicate 30 (aliyun_task_request (example_platform "Aliyun" "wanx-v1")
                                                     "task-1"))%list
           ∧ writes w' = writes always_pending_world
           ∧ timed_out "Aliyun" w').
Proof.
  split.
  - eapply (proj1 C2_async_poller); try reflexivity. done.
  - eapply (proj1 (proj2 C2_async_poller)); try reflexivity; [done|].
    vm_compute. repeat constructor; done.
Defined.

(** C5 on a disabled entry whose environment variable is set, and on an
    unknown key. *)
Lemma C5_witness :
  (let p := PlatformConfig.mk "SiliconFlow" "SILICONFLOW_API_KEY" ""
              "https://api.siliconflow.cn/v1" "Kwai-Kolors/Kolors" false "" in
   PlatformConfig.Enabled (with_env_key key_in_env_world p) = true
   ∧ PlatformConfig.APIKey (with_env_key key_in_env_world p) = "sk-live")
  ∧ generateImage example_cfg "dall-e" "a cat" "" (example_world [])
    = (None, example_world []).
Proof.
  split.
  - apply (proj1 (proj2 C5_enabled_flag_and_credential)). by vm_compute.
  - apply (proj2 (proj2 (proj2 (proj2 C5_enabled_flag_and_credential)))). by vm_compute.
Defined.

(** C10 on a record that is still pending. *)
Lemma C10_witness :
  handlePublish example_manager (Parsed (PublishReq.mk 1 ["douyin"] "title" "content"))
                pending_record_world
  = ((400, H_error "只能发布审核通过的图片"), pending_record_world).
Proof.
  eapply (proj1 C10_only_approved_images_are_published); [done | by vm_compute | done].
Defined.

(** ** Further properties of the code *)

Lemma same_store_refl w : same_store w w.
Proof. by repeat split. Qed.

Lemma same_store_trans w1 w2 w3 : same_store w1 w2 → same_store w2 w3 → same_store w1 w3.
Proof.
  intros (? & ? & ? & ? & ?) (? & ? & ? & ? & ?). repeat split; congruence.
Qed.

Lemma stored_same_store_l w1 w2 r w3 : same_store w1 w2 → stored w2 r w3 → stored w1 r w3.
Proof.
  intros (Hf & Hw & Hc & He & Hd) (Hc' & Hd' & H). unfold stored.
  rewrite <- He, <- Hf, <- Hw, <- Hc, <- Hd. done.
Qed.

Lemma within_refl w : within w 0 0 w.
Proof. unfold within. lia. Qed.

Lemma within_trans w1 w2 w3 a b c d :
  within w1 a b w2 → within w2 c d w3 → within w1 (a + c) (b + d) w3.
Proof. unfold within. lia. Qed.

Lemma within_weaken w w' a b c d :
  (a ≤ c)%nat → (b ≤ d)%nat → within w a b w' → within w c d w'.
Proof. unfold within. lia. Qed.

Lemma emit_footprint e w :
  within w (event_cost e).1 (event_cost e).2 (emit e w).2
  ∧ (is_write e = false → same_store w (emit e w).2).
Proof.
  unfold within, same_store, requests, slept, writes, emit. cbn.
  rewrite !omap_app, !length_app, sum_list_with_app. 
  destruct e; cbn; repeat split; try lia; try done; rewrite ?app_nil_r; done.
Qed.

Lemma requests_app_events w net' evs :
  length (requests (extended w net' evs)) = (length (requests w) + (cost evs).1)%nat.
Proof.
  unfold requests, extended. cbn [trace]. rewrite omap_app, length_app. f_equal.
  induction evs as [|e evs IH]; [done|]. destruct e; cbn in *; lia.
Qed.

Lemma slept_app_events w net' evs :
  slept (extended w net' evs) = (slept w + (cost evs).2)%nat.
Proof.
  unfold slept, extended. cbn [trace]. rewrite omap_app, sum_list_with_app. f_equal.
  induction evs as [|e evs IH]; [done|]. destruct e; cbn in *; lia.
Qed.

Lemma writes_app_events w net' evs :
  forallb (fun e => negb (is_write e)) evs = true →
  writes (extended w net' evs) = writes w.
Proof.
  intros Hno. unfold writes, extended. cbn [trace]. rewrite omap_app.
  rewrite <- (app_nil_r (omap _ (trace w))) at 2. f_equal.
  induction evs as [|e evs IH]; [done|]. cbn in Hno. apply andb_prop in Hno as [He Hno].
  destruct e; cbn in *; try done; by apply IH.
Qed.

Lemma extended_footprint w net' evs :
  forallb (fun e => negb (is_write e)) evs = true →
  within w (cost evs).1 (cost evs).2 (extended w net' evs)
  ∧ same_store w (extended w net' evs).
Proof.
  intros Hno. unfold within, same_store.
  rewrite requests_app_events, slept_app_events, writes_app_events by done.
  repeat split; try done; lia.
Qed.

Lemma downloadAndSave_footprint cfg p platform u w :
  let run := downloadAndSave cfg p platform u w in
  within w 1 0 run.2 ∧ store_outcome w run.
Proof.
  unfold downloadAndSave, store_outcome. unfold_M. unfold os_WriteFile. cbn.
  destruct (net w) as [|[e|resp] rest]; cbn.
  - rewrite <- !app_assoc. cbn [app].
    match goal with |- context [mkWorld _ _ ?n _ _ _ (trace w ++ ?evs)] =>
      change (mkWorld _ _ n _ _ _ (trace w ++ evs)) with (extended w n evs);
      apply (extended_footprint w n evs) end. done.
  - rewrite <- !app_assoc. cbn [app].
    match goal with |- context [mkWorld _ _ ?n _ _ _ (trace w ++ ?evs)] =>
      change (mkWorld _ _ n _ _ _ (trace w ++ evs)) with (extended w n evs);
      apply (extended_footprint w n evs) end. done.
  - destruct (write_err w) as [e|] eqn:E; cbn.
    + rewrite <- !app_assoc. cbn [app].
      match goal with |- context [mkWorld _ _ ?n _ _ _ (trace w ++ ?evs)] =>
        change (mkWorld (clock w) (getenv w) n (files w) (Some e) (db w) (trace w ++ evs))
          with (mkWorld (clock w) (getenv w) n (files w) (Some e) (db w) (trace w ++ evs));
        destruct (extended_footprint w n evs eq_refl) as [Hin Hsame] end.
      unfold extended in *. rewrite E in *. split; [done|].
      unfold stored. rewrite E. destruct Hsame as (? & ? & ? & ? & ?). done.
    + unfold within, stored, requests, slept, writes. cbn. rewrite E.
      rewrite !omap_app, !length_app, !sum_list_with_app. cbn.
      rewrite !app_nil_r. split; [lia|]. split; [done|]. split; [done|].
      eexists. by split.
Qed.

(** Turn the world under the goal's loop or download into [extended w]. *)
Ltac as_extended w :=
  rewrite <- ?app_assoc; cbn [app];
  match goal with
  | |- context [mkWorld (clock w) (getenv w) ?n (files w) (write_err w) (db w)
                        (trace w ++ ?evs)] =>
      change (mkWorld (clock w) (getenv w) n (files w) (write_err w) (db w)
                      (trace w ++ evs)) with (extended w n evs);
      let Hin := fresh "Hin" in
      let Hsame := fresh "Hsame" in
      destruct (extended_footprint w n evs eq_refl) as [Hin Hsame];
      cbn in Hin;
      generalize dependent (extended w n evs); intros
  end.

Lemma poll_footprint_step w w1 a b c d run :
  within w a b w1 → same_store w w1 →
  poll_footprint w1 c d run → poll_footprint w (a + c) (b + d) run.
Proof.
  intros Hin Hsame [Hin' Hout]. split; [by eapply within_trans|].
  destruct run.1 as [[r|]|].
  - by eapply stored_same_store_l.
  - by eapply same_store_trans.
  - by eapply same_store_trans.
Qed.

Lemma poll_footprint_seq w w1 a b c d e f run :
  within w a b w1 → same_store w w1 → poll_footprint w1 c d run →
  (a + c ≤ e)%nat → (b + d ≤ f)%nat → poll_footprint w e f run.
Proof.
  intros Hin Hsame Hrun He Hf.
  destruct (poll_footprint_step w w1 a b c d run Hin Hsame Hrun) as [Hin' Hout].
  split; [|done]. eapply within_weaken; [exact He|exact Hf|exact Hin'].
Qed.

Lemma aliyun_poll_footprint cfg p taskID n : ∀ w,
  poll_footprint w (n + 1) (2 * n) (aliyun_poll cfg p taskID n w).
Proof.
  induction n as [|n IH]; intros w.
  - split; [apply (within_weaken w w 0 0); [lia|lia|apply within_refl]|apply same_store_refl].
  - cbn [aliyun_poll]. unfold_M. cbn.
    destruct (net w) as [|[e|resp] rest]; cbn.
    + as_extended w. eapply poll_footprint_seq; [exact Hin|exact Hsame|apply IH|lia|lia].
    + as_extended w. eapply poll_footprint_seq; [exact Hin|exact Hsame|apply IH|lia|lia].
    + destruct (String.eqb _ "SUCCEEDED" && _).
      * as_extended w.
        destruct (downloadAndSave_footprint cfg p "aliyun"
                    (hd "" (output_results (json resp))) w0) as [Hin' Hout].
        destruct (downloadAndSave _ _ _ _ w0) as [res w1]. cbn in *.
        eapply (poll_footprint_seq w w0 _ _ 1 0); [exact Hin|exact Hsame| |lia|lia].
        split; [done|]. by destruct res.
      * destruct (String.eqb _ "FAILED"); cbn.
        -- as_extended w. split; [eapply within_weaken; [| |exact Hin]; lia|done].
        -- as_extended w. eapply poll_footprint_seq; [exact Hin|exact Hsame|apply IH|lia|lia].
Qed.

Lemma modelscope_poll_footprint cfg p taskID n : ∀ w,
  poll_footprint w (n + 1) (3 * n) (modelscope_poll cfg p taskID n w).
Proof.
  induction n as [|n IH]; intros w.
  - split; [apply (within_weaken w w 0 0); [lia|lia|apply within_refl]|apply same_store_refl].
  - cbn [modelscope_poll]. unfold_M. cbn.
    destruct (net w) as [|[e|resp] rest]; cbn.
    + as_extended w. eapply poll_footprint_seq; [exact Hin|exact Hsame|apply IH|lia|lia].
    + as_extended w. eapply poll_footprint_seq; [exact Hin|exact Hsame|apply IH|lia|lia].
    + destruct (String.eqb _ "SUCCEED" && _).
      * as_extended w.
        destruct (downloadAndSave_footprint cfg p "modelscope"
                    (hd "" (output_images (json resp))) w0) as [Hin' Hout].
        destruct (downloadAndSave _ _ _ _ w0) as [res w1]. cbn in *.
        eapply (poll_footprint_seq w w0 _ _ 1 0); [exact Hin|exact Hsame| |lia|lia].
        split; [done|]. by destruct res.
      * destruct (String.eqb _ "FAILED"); cbn.
        -- as_extended w. split; [eapply within_weaken; [| |exact Hin]; lia|done].
        -- as_extended w. eapply poll_footprint_seq; [exact Hin|exact Hsame|apply IH|lia|lia].
Qed.

Lemma generation_footprint_seq w w1 a b c d e f run :
  within w a b w1 → same_store w w1 → generation_footprint w1 c d run →
  (a + c ≤ e)%nat → (b + d ≤ f)%nat → generation_footprint w e f run.
Proof.
  intros Hin Hsame [Hin' Hout] He Hf. split.
  - eapply within_weaken; [exact He|exact Hf|by eapply within_trans].
  - unfold store_outcome in *. destruct run.1.
    + by eapply stored_same_store_l.
    + by eapply same_store_trans.
Qed.

Lemma generateSyncImage_footprint cfg p prompt w :
  generation_footprint w 2 0 (generateSyncImage cfg p prompt w).
Proof.
  unfold generateSyncImage. unfold_M. cbn.
  destruct (net w) as [|[e|resp] rest]; cbn.
  - as_extended w. split; [eapply within_weaken; [| |exact Hin]; lia|done].
  - as_extended w. split; [eapply within_weaken; [| |exact Hin]; lia|done].
  - destruct (negb (StatusCode resp =? 200)); cbn.
    { as_extended w. split; [eapply within_weaken; [| |exact Hin]; lia|done]. }
    destruct (bool_decide _ || _); cbn.
    { as_extended w. split; [eapply within_weaken; [| |exact Hin]; lia|done]. }
    as_extended w.
    eapply (generation_footprint_seq w w0 _ _ 1 0); [exact Hin|exact Hsame| |lia|lia].
    apply downloadAndSave_footprint.
Qed.

Lemma generateAliyunImage_footprint cfg p prompt w R T :
  (32 ≤ R)%nat → (60 ≤ T)%nat →
  generation_footprint w R T (generateAliyunImage cfg p prompt w).
Proof.
  unfold generateAliyunImage. remember 30%nat as n eqn:Hn. intros HR HS. unfold_M.
  destruct (net w) as [|[e|resp] rest]; cbn.
  - as_extended w. split; [eapply within_weaken; [| |exact Hin]; lia|done].
  - as_extended w. split; [eapply within_weaken; [| |exact Hin]; lia|done].
  - destruct (bool_decide _ || _); cbn.
    { as_extended w. split; [eapply within_weaken; [| |exact Hin]; lia|done]. }
    as_extended w.
    destruct (aliyun_poll_footprint cfg p (output_task_id (json resp)) n w0) as [Hin' Hout].
    destruct (aliyun_poll _ _ _ n w0) as [[res|] w1]; cbn in *.
    + eapply (generation_footprint_seq w w0 _ _ (n + 1) (2 * n));
        [exact Hin|exact Hsame| |lia|lia].
      split; [done|]. by destruct res.
    + eapply (generation_footprint_seq w w0 _ _ (n + 1) (2 * n));
        [exact Hin|exact Hsame| |lia|lia].
      clear Hin Hsame. as_extended w1.
      split; [eapply within_weaken; [| |by eapply (within_trans w0 w1 w2)]; lia|].
      by eapply same_store_trans.
Qed.

Lemma generateModelScopeImage_footprint cfg p prompt size w R T :
  (62 ≤ R)%nat → (180 ≤ T)%nat →
  generation_footprint w R T (generateModelScopeImage cfg p prompt size w).
Proof.
  unfold generateModelScopeImage. remember 60%nat as n eqn:Hn. intros HR HS. unfold_M.
  destruct (net w) as [|[e|resp] rest]; cbn.
  - as_extended w. split; [eapply within_weaken; [| |exact Hin]; lia|done].
  - as_extended w. split; [eapply within_weaken; [| |exact Hin]; lia|done].
  - destruct (String.eqb (task_id _) ""); cbn.
    { as_extended w. split; [eapply within_weaken; [| |exact Hin]; lia|done]. }
    as_extended w.
    destruct (modelscope_poll_footprint cfg p (task_id (json resp)) n w0) as [Hin' Hout].
    destruct (modelscope_poll _ _ _ n w0) as [[res|] w1]; cbn in *.
    + eapply (generation_footprint_seq w w0 _ _ (n + 1) (3 * n));
        [exact Hin|exact Hsame| |lia|lia].
      split; [done|]. by destruct res.
    + eapply (generation_footprint_seq w w0 _ _ (n + 1) (3 * n));
        [exact Hin|exact Hsame| |lia|lia].
      clear Hin Hsame. as_extended w1.
      split; [eapply within_weaken; [| |by eapply (within_trans w0 w1 w2)]; lia|].
      by eapply same_store_trans.
Qed.

Lemma generateImage_footprint cfg platform prompt size w :
  generation_footprint w (request_budget platform) (sleep_budget platform)
                       (generateImage cfg platform prompt size w).
Proof.
  unfold generateImage, request_budget, sleep_budget.
  destruct (Platforms cfg !! platform) as [p|];
    [|split; [apply (within_weaken w w 0 0); [lia|lia|apply within_refl]
             |apply same_store_refl]].
  destruct (negb (PlatformConfig.Enabled p));
    [split; [apply (within_weaken w w 0 0); [lia|lia|apply within_refl]
            |apply same_store_refl]|].
  destruct (String.eqb platform "aliyun"); [|destruct (String.eqb platform "modelscope")].
  - by apply generateAliyunImage_footprint.
  - by apply generateModelScopeImage_footprint.
  - apply generateSyncImage_footprint.
Qed.

(** X1.  Whatever provider is asked, an artifact [generateImage] returns
    carries the display name and the model of the provider's
    configuration, is named after the time of day, lies under the output
    directory, the date and the store key of the provider, and is marked
    as a success. *)
Theorem X1_artifact_of_every_successful_generation cfg platform prompt size w r w' :
  generateImage cfg platform prompt size w = (Some r, w') →
  ∃ p, Platforms cfg !! platform = Some p
       ∧ GenerateResult.Platform r = PlatformConfig.Name p
       ∧ GenerateResult.Model r = PlatformConfig.Model p
       ∧ GenerateResult.Filename r = Format_hms (clock w) +:+ ".png"
       ∧ GenerateResult.FilePath r
         = Join [Join [ImageGenConfig.OutputDir (ImageGen cfg); Format_date (clock w);
                       store_key platform];
                 Format_hms (clock w) +:+ ".png"]
       ∧ GenerateResult.Success r = true.
Proof.
  intros H. apply generateImage_result in H as (p & Hp & ->). exists p. done.
Qed.

Lemma X1_witness :
  ∃ p, Platforms example_cfg !! "aliyun" = Some p
       ∧ GenerateResult.Platform
           (artifact example_cfg (example_platform "Aliyun" "wanx-v1") example_time "aliyun")
         = PlatformConfig.Name p
       ∧ GenerateResult.Model
           (artifact example_cfg (example_platform "Aliyun" "wanx-v1") example_time "aliyun")
         = PlatformConfig.Model p
       ∧ GenerateResult.Filename
           (artifact example_cfg (example_platform "Aliyun" "wanx-v1") example_time "aliyun")
         = Format_hms (clock (cooperative_world "aliyun")) +:+ ".png"
       ∧ GenerateResult.FilePath
           (artifact example_cfg (example_platform "Aliyun" "wanx-v1") example_time "aliyun")
         = Join [Join [ImageGenConfig.OutputDir (ImageGen example_cfg);
                       Format_date (clock (cooperative_world "aliyun"));
                       store_key "aliyun"];
                 Format_hms (clock (cooperative_world "aliyun")) +:+ ".png"]
       ∧ GenerateResult.Success
           (artifact example_cfg (example_platform "Aliyun" "wanx-v1") example_time "aliyun")
         = true.
Proof.
  eapply (X1_artifact_of_every_successful_generation example_cfg "aliyun" "a cat" ""
            (cooperative_world "aliyun") _
            (generateImage example_cfg "aliyun" "a cat" "" (cooperative_world "aliyun")).2).
  vm_compute. reflexivity.
Defined.


(** X3.  One call of [generateImage] sends at most 32 requests for
    [aliyun], 62 for [modelscope] and 2 for any other key, sleeps at most
    60, 180 and 0 seconds, and never touches the images table. *)
Theorem X3_generation_is_bounded cfg platform prompt size w :
  let run := generateImage cfg platform prompt size w in
  (length (requests run.2) ≤ length (requests w) + request_budget platform)%nat
  ∧ (slept run.2 ≤ slept w + sleep_budget platform)%nat
  ∧ db run.2 = db w.
Proof.
  destruct (generateImage_footprint cfg platform prompt size w) as [[Hr Hs] Hout].
  cbv zeta. split; [done|]. split; [done|].
  unfold store_outcome in Hout.
  destruct (generateImage cfg platform prompt size w).1 as [r|].
  - by destruct Hout as (_ & ? & _).
  - by destruct Hout as (_ & _ & _ & _ & ?).
Qed.

Lemma aliyun_poll_failed cfg p taskID n w resp rest :
  net w = Replied resp :: rest →
  output_task_status (json resp) = "FAILED" →
  aliyun_poll cfg p taskID (S n) w =
  (Some None, logged ("[" +:+ PlatformConfig.Name p +:+ "] 任务失败: " +:+ raw resp)
                     (polled 2 (aliyun_task_request p taskID) w)).
Proof.
  intros Hnet Hst. cbn [aliyun_poll]. unfold_M. simpl. rewrite Hnet, Hst. simpl.
  unfold logged, polled, aliyun_task_request, log_Printf, emit. rewrite Hnet. done.
Qed.

Lemma modelscope_poll_failed cfg p taskID n w resp rest :
  net w = Replied resp :: rest →
  task_status (json resp) = "FAILED" →
  modelscope_poll cfg p taskID (S n) w =
  (Some None, logged ("[" +:+ PlatformConfig.Name p +:+ "] 任务失败: " +:+ raw resp)
                     (polled 3 (modelscope_task_request p taskID) w)).
Proof.
  intros Hnet Hst. cbn [modelscope_poll]. unfold_M. simpl. rewrite Hnet, Hst. simpl.
  unfold logged, polled, modelscope_task_request, log_Printf, emit. rewrite Hnet. done.
Qed.

(** X4.  When a poll of an Aliyun task is answered with the status
    [FAILED], after fewer than 30 polls that went on, the generation ends
    at once: nothing is returned, the task was polled exactly once more
    than it went on, the answers after the failure are not consumed,
    nothing is written, and the last log line reports the failure. *)
Theorem X4_failed_status_ends_the_aliyun_polling
        cfg p prompt w create answers failed rest taskID :
  net w = (Replied create :: answers ++ Replied failed :: rest)%list →
  unmarshal_err (json create) = None →
  output_task_id (json create) = taskID → taskID ≠ "" →
  (length answers < 30)%nat →
  Forall aliyun_goes_on answers →
  output_task_status (json failed) = "FAILED" →
  ∃ w', generateAliyunImage cfg p prompt w = (None, w')
        ∧ requests w' = (requests w ++ aliyun_create_request cfg p prompt
                           :: replicate (S (length answers))
                                        (aliyun_task_request p taskID))%list
        ∧ net w' = rest
        ∧ writes w' = writes w
        ∧ task_failed (PlatformConfig.Name p) failed w'.
Proof.
  intros Hnet Herr Hid Hne Hlen Hgo Hst.
  rewrite (generateAliyunImage_created _ _ _ _ _ _ _ Hnet Herr Hid Hne).
  set (w0 := task_created _ _ _ w).
  destruct (task_created_spec (aliyun_create_request cfg p prompt)
              (PlatformConfig.Name p) taskID w) as (Hr & Hw & _ & _ & Hn).
  fold w0 in Hr, Hw, Hn. rewrite Hnet in Hn. cbn [tail] in Hn.
  pose (k := length answers).
  set (step := polled 2 (aliyun_task_request p taskID)).
  destruct (after_polls_spec _ _ k (polled_poll_step 2 (aliyun_task_request p taskID)) w0)
    as (Hr2 & Hw2 & _ & _ & Hn2).
  fold step in Hr2, Hw2, Hn2. unfold k in Hn2. rewrite Hn, drop_app_length in Hn2.
  fold k in Hn2.
  destruct (polled_poll_step 2 (aliyun_task_request p taskID) (after_polls k step w0))
    as (Hr3 & Hw3 & _ & _ & Hn3).
  fold step in Hr3, Hw3, Hn3. rewrite Hn2 in Hn3. cbn [tail] in Hn3.
  unfold mbind, M_bind.
  replace 30%nat with (k + S (30 - S k))%nat by (unfold k; lia).
  rewrite aliyun_poll_after by (unfold k; by rewrite Hn, take_app_length).
  fold step. rewrite (aliyun_poll_failed _ _ _ _ _ _ _ Hn2 Hst). fold step.
  cbn [poll_outcome]. unfold mret, M_ret.
  eexists. split; [reflexivity|]. split; [|split; [|split]].
  + rewrite requests_logged, Hr3, Hr2, Hr, <- !app_assoc. cbn [app]. f_equal. f_equal.
    change [aliyun_task_request p taskID] with (replicate 1 (aliyun_task_request p taskID)).
    rewrite <- replicate_add. f_equal. unfold k. lia.
  + done.
  + by rewrite writes_logged, Hw3, Hw2.
  + apply last_snoc.
Qed.

Lemma X4_witness :
  ∃ w', generateAliyunImage example_cfg (example_platform "Aliyun" "wanx-v1") "a cat"
          failed_task_world = (None, w')
        ∧ requests w'
          = (requests failed_task_world
             ++ aliyun_create_request example_cfg (example_platform "Aliyun" "wanx-v1") "a cat"
             :: replicate (S (length [aliyun_answer "" "PENDING" []]))
                          (aliyun_task_request (example_platform "Aliyun" "wanx-v1")
                                               "task-1"))%list
        ∧ net w' = [image_answer "PNG"]
        ∧ writes w' = writes failed_task_world
        ∧ task_failed (PlatformConfig.Name (example_platform "Aliyun" "wanx-v1"))
                      (mkResponse 200 "{}" None (mkJson None [] "" "FAILED" [] "" "" [])) w'.
Proof.
  apply (X4_failed_status_ends_the_aliyun_polling example_cfg
           (example_platform "Aliyun" "wanx-v1") "a cat" failed_task_world
           (mkResponse 200 "{}" None (mkJson None [] "task-1" "" [] "" "" []))
           [aliyun_answer "" "PENDING" []]
           (mkResponse 200 "{}" None (mkJson None [] "" "FAILED" [] "" "" []))
           [image_answer "PNG"] "task-1").
  - reflexivity.
  - reflexivity.
  - reflexivity.
  - discriminate.
  - simpl. lia.
  - repeat constructor; simpl; discriminate.
  - reflexivity.
Defined.

(** X5.  The same for a ModelScope task and its limit of 60 polls. *)
Theorem X5_failed_status_ends_the_modelscope_polling
        cfg p prompt size w create answers failed rest taskID :
  net w = (Replied create :: answers ++ Replied failed :: rest)%list →
  task_id (json create) = taskID → taskID ≠ "" →
  (length answers < 60)%nat →
  Forall modelscope_goes_on answers →
  task_status (json failed) = "FAILED" →
  ∃ w', generateModelScopeImage cfg p prompt size w = (None, w')
        ∧ requests w' = (requests w ++ modelscope_create_request p prompt size
                           :: replicate (S (length answers))
                                        (modelscope_task_request p taskID))%list
        ∧ net w' = rest
        ∧ writes w' = writes w
        ∧ task_failed (PlatformConfig.Name p) failed w'.
Proof.
  intros Hnet Hid Hne Hlen Hgo Hst.
  rewrite (generateModelScopeImage_created _ _ _ _ _ _ _ _ Hnet Hid Hne).
  set (w0 := task_created _ _ _ w).
  destruct (task_created_spec (modelscope_create_request p prompt size)
              (PlatformConfig.Name p) taskID w) as (Hr & Hw & _ & _ & Hn).
  fold w0 in Hr, Hw, Hn. rewrite Hnet in Hn. cbn [tail] in Hn.
  pose (k := length answers).
  set (step := modelscope_polled p taskID).
  destruct (after_polls_spec _ _ k (modelscope_poll_step p taskID) w0)
    as (Hr2 & Hw2 & _ & _ & Hn2).
  fold step in Hr2, Hw2, Hn2. unfold k in Hn2. rewrite Hn, drop_app_length in Hn2.
  fold k in Hn2.
  destruct (polled_poll_step 3 (modelscope_task_request p taskID) (after_polls k step w0))
    as (Hr3 & Hw3 & _ & _ & Hn3).
  rewrite Hn2 in Hn3. cbn [tail] in Hn3.
  unfold mbind, M_bind.
  replace 60%nat with (k + S (60 - S k))%nat by (unfold k; lia).
  rewrite modelscope_poll_after by (unfold k; by rewrite Hn, take_app_length).
  fold step. rewrite (modelscope_poll_failed _ _ _ _ _ _ _ Hn2 Hst).
  cbn [poll_outcome]. unfold mret, M_ret.
  eexists. split; [reflexivity|]. split; [|split; [|split]].
  + rewrite requests_logged, Hr3, Hr2, Hr, <- !app_assoc. cbn [app]. f_equal. f_equal.
    change [modelscope_task_request p taskID]
      with (replicate 1 (modelscope_task_request p taskID)).
    rewrite <- replicate_add. f_equal. unfold k. lia.
  + done.
  + by rewrite writes_logged, Hw3, Hw2.
  + apply last_snoc.
Qed.

Lemma X5_witness :
  ∃ w', generateModelScopeImage example_cfg
          (example_platform "ModelScope" "Tongyi-MAI/Z-Image-Turbo") "a cat" ""
          failed_modelscope_task_world = (None, w')
        ∧ requests w'
          = (requests failed_modelscope_task_world
             ++ modelscope_create_request
                  (example_platform "ModelScope" "Tongyi-MAI/Z-Image-Turbo") "a cat" ""
             :: replicate (S (length [modelscope_answer "" "RUNNING" []]))
                          (modelscope_task_request
                             (example_platform "ModelScope" "Tongyi-MAI/Z-Image-Turbo")
                             "task-1"))%list
        ∧ net w' = [image_answer "PNG"]
        ∧ writes w' = writes failed_modelscope_task_world
        ∧ task_failed
            (PlatformConfig.Name (example_platform "ModelScope" "Tongyi-MAI/Z-Image-Turbo"))
            (mkResponse 200 "{}" None (mkJson None [] "" "" [] "" "FAILED" [])) w'.
Proof.
  apply (X5_failed_status_ends_the_modelscope_polling example_cfg
           (example_platform "ModelScope" "Tongyi-MAI/Z-Image-Turbo") "a cat" ""
           failed_modelscope_task_world
           (mkResponse 200 "{}" None (mkJson None [] "" "" [] "task-1" "" []))
           [modelscope_answer "" "RUNNING" []]
           (mkResponse 200 "{}" None (mkJson None [] "" "" [] "" "FAILED" []))
           [image_answer "PNG"] "task-1").
  - reflexivity.
  - reflexivity.
  - discriminate.
  - simpl. lia.
  - repeat constructor; simpl; discriminate.
  - reflexivity.
Defined.

Lemma max_ids_ge (l : list nat) x : x ∈ l → (x ≤ foldr Nat.max 0 l)%nat.
Proof.
  induction l as [|y l IH]; [by intros ?%elem_of_nil|].
  intros [->|Hin]%elem_of_cons; cbn; [lia|]. specialize (IH Hin). lia.
Qed.

Lemma find_fresh_snoc (rows : list ImageRecord.t) (row : ImageRecord.t) :
  ImageRecord.ID row ∉ (ImageRecord.ID <$> rows) →
  List.find (fun r => (ImageRecord.ID r =? ImageRecord.ID row)%nat) (rows ++ [row])
  = Some row.
Proof.
  induction rows as [|r rows IH]; intros Hfresh; cbn.
  - by rewrite Nat.eqb_refl.
  - cbn in Hfresh. apply not_elem_of_cons in Hfresh as [Hne Hfresh].
    destruct (ImageRecord.ID r =? ImageRecord.ID row)%nat eqn:E.
    + apply Nat.eqb_eq in E. congruence.
    + by apply IH.
Qed.

Lemma generateImage_keeps_table cfg platform prompt size w :
  db (generateImage cfg platform prompt size w).2 = db w
  ∧ clock (generateImage cfg platform prompt size w).2 = clock w.
Proof.
  destruct (generateImage_footprint cfg platform prompt size w) as [_ Hout].
  unfold store_outcome in Hout.
  destruct (generateImage cfg platform prompt size w).1 as [r|].
  - by destruct Hout as (? & ? & _).
  - by destruct Hout as (_ & _ & ? & _ & ?).
Qed.

Lemma handleGenerate_success cfg req w r w1 :
  GenerateReq.Prompt req ≠ "" →
  GenerateReq.Platform req ≠ "" →
  generateImage cfg (GenerateReq.Platform req) (GenerateReq.Prompt req)
                (GenerateReq.Size req) w = (Some r, w1) →
  handleGenerate cfg (Parsed req) w
  = ((200, H_generated (GenerateResult.FilePath r) (GenerateResult.Platform r)
                       (GenerateResult.Model r)),
     mkWorld (clock w1) (getenv w1) (net w1) (files w1) (write_err w1)
             (db w ++ [queued_row w (GenerateReq.Prompt req) r]) (trace w1)).
Proof.
  intros Hp Hk Hgen. unfold handleGenerate.
  rewrite (eqb_false _ _ Hp), (eqb_false _ _ Hk). cbn [orb].
  unfold mbind, M_bind. 
  destruct (generateImage_keeps_table cfg (GenerateReq.Platform req) (GenerateReq.Prompt req)
              (GenerateReq.Size req) w) as [Hdb Hclock].
  rewrite Hgen in *. cbn [snd] in *.
  unfold time_Now, db_Create, mret, M_ret, queued_row, ids. rewrite Hdb, Hclock. done.
Qed.

Lemma handleGenerate_queued cfg req w r w1 :
  GenerateReq.Prompt req ≠ "" →
  GenerateReq.Platform req ≠ "" →
  generateImage cfg (GenerateReq.Platform req) (GenerateReq.Prompt req)
                (GenerateReq.Size req) w = (Some r, w1) →
  let run := handleGenerate cfg (Parsed req) w in
  let row := queued_row w (GenerateReq.Prompt req) r in
  run.1 = (200, H_generated (GenerateResult.FilePath r) (GenerateResult.Platform r)
                            (GenerateResult.Model r))
  ∧ db run.2 = (db w ++ [row])%list
  ∧ ImageRecord.ID row ≠ 0%nat
  ∧ (ImageRecord.ID row ∉ ids w)
  ∧ (db_First (ImageRecord.ID row) run.2).1 = Some row.
Proof.
  intros Hp Hk Hgen run row. subst run.
  rewrite (handleGenerate_success _ _ _ _ _ Hp Hk Hgen). cbn [fst snd db].
  assert (ImageRecord.ID row ∉ ids w) as Hfresh.
  { intros Hin%max_ids_ge. cbn in Hin. lia. }
  repeat split; try done.
  unfold db_First. cbn [fst db]. by apply find_fresh_snoc.
Qed.


Lemma handleGenerate_cases cfg body w :
  let run := handleGenerate cfg body w in
  (run.1.1 = 400 ∧ run.2 = w)
  ∨ (run.1.1 = 500 ∧ db run.2 = db w
     ∧ ∃ req, body = Parsed req
              ∧ (generateImage cfg (GenerateReq.Platform req) (GenerateReq.Prompt req)
                               (GenerateReq.Size req) w).1 = None)
  ∨ (run.1.1 = 200
     ∧ ∃ req r, body = Parsed req
                ∧ GenerateReq.Prompt req ≠ "" ∧ GenerateReq.Platform req ≠ ""
                ∧ (generateImage cfg (GenerateReq.Platform req) (GenerateReq.Prompt req)
                                 (GenerateReq.Size req) w).1 = Some r).
Proof.
  cbv zeta. destruct body as [e|req]; [by left|]. cbn [handleGenerate].
  destruct (String.eqb (GenerateReq.Prompt req) "") eqn:Ep; [by left|].
  destruct (String.eqb (GenerateReq.Platform req) "") eqn:Ek; [by left|].
  cbn [orb]. right.
  apply String.eqb_neq in Ep, Ek.
  unfold mbind, M_bind.
  pose proof (generateImage_keeps_table cfg (GenerateReq.Platform req)
                (GenerateReq.Prompt req) (GenerateReq.Size req) w) as [Hdb _].
  destruct (generateImage cfg (GenerateReq.Platform req) (GenerateReq.Prompt req)
              (GenerateReq.Size req) w) as [[r|] w1] eqn:Hgen.
  - right. split; [reflexivity|]. exists req, r. by rewrite Hgen.
  - left. split; [reflexivity|]. split; [exact Hdb|]. exists req. by rewrite Hgen.
Qed.












Lemma db_Updates_unknown id status note w :
  id ∉ ids w → db (db_Updates id status note w).2 = db w.
Proof.
  unfold db_Updates, ids. cbn [snd db].
  induction (db w) as [|r rows IH]; [done|]. cbn.
  intros [Hne Hnin]%not_elem_of_cons.
  destruct (ImageRecord.ID r =? id)%nat eqn:E; [apply Nat.eqb_eq in E; done|].
  by rewrite IH.
Qed.

Lemma db_Updates_ids id status note w : ids (db_Updates id status note w).2 = ids w.
Proof.
  unfold db_Updates, ids. cbn [snd db]. rewrite <- list_fmap_compose.
  apply list_fmap_ext. intros i r _. cbn. by destruct (ImageRecord.ID r =? id)%nat.
Qed.

Lemma moderateImage_valid req w :
  ModerateReq.ID req ≠ 0%nat → ModerateReq.Status req ≠ "" →
  moderateImage (Parsed req) w
  = ((200, HP_success),
     (db_Updates (ModerateReq.ID req) (ModerateReq.Status req) (ModerateReq.Note req) w).2).
Proof.
  intros Hid Hst. unfold moderateImage.
  destruct (ModerateReq.ID req =? 0)%nat eqn:E; [apply Nat.eqb_eq in E; done|].
  rewrite (eqb_false _ _ Hst). done.
Qed.

Lemma db_First_Updates_other id status note w j :
  j ≠ id → (db_First j (db_Updates id status note w).2).1 = (db_First j w).1.
Proof.
  intros Hne. unfold db_First, db_Updates. cbn [fst snd db].
  induction (db w) as [|r rows IH]; [done|]. cbn.
  destruct (ImageRecord.ID r =? id)%nat eqn:E; cbn; [|by rewrite IH].
  apply Nat.eqb_eq in E. rewrite IH.
  destruct (ImageRecord.ID r =? j)%nat eqn:E'; [|done].
  apply Nat.eqb_eq in E'. congruence.
Qed.

(** X10.  A well-formed moderation request is always answered with 200,
    also for an id that no row has.  It keeps the primary keys as they
    are and every row with another id as it is; for an unknown id it
    changes nothing. *)
Theorem X10_moderation_touches_one_image id status note w :
  id ≠ 0%nat → status ≠ "" →
  let run := moderateImage (Parsed (ModerateReq.mk id status note)) w in
  run.1 = (200, HP_success)
  ∧ ids run.2 = ids w
  ∧ (∀ j, j ≠ id → (db_First j run.2).1 = (db_First j w).1)
  ∧ (id ∉ ids w → run.2 = w).
Proof.
  intros Hid Hst run. subst run. rewrite moderateImage_valid by done.
  cbn [fst snd ModerateReq.ID ModerateReq.Status ModerateReq.Note].
  split; [done|]. split; [apply db_Updates_ids|].
  split; [intros j Hj; by apply db_First_Updates_other|].
  intros Hnin. pose proof (db_Updates_unknown id status note w Hnin) as Hdb.
  unfold db_Updates in *. cbn in *. rewrite Hdb. by destruct w.
Qed.


Lemma X10_witness :
  let run := moderateImage (Parsed (ModerateReq.mk 7 "approved" "fine")) pending_record_world in
  run.1 = (200, HP_success)
  ∧ ids run.2 = ids pending_record_world
  ∧ (∀ j, j ≠ 7%nat → (db_First j run.2).1 = (db_First j pending_record_world).1)
  ∧ (7%nat ∉ ids pending_record_world → run.2 = pending_record_world).
Proof.
  apply (X10_moderation_touches_one_image 7 "approved" "fine" pending_record_world).
  - lia.
  - discriminate.
Defined.



Lemma extended_id w : w = extended w (net w) [].
Proof. unfold extended. rewrite app_nil_r. by destruct w. Qed.

Lemma extended_extended w n1 e1 n2 e2 :
  extended (extended w n1 e1) n2 e2 = extended w n2 (e1 ++ e2).
Proof. unfold extended. cbn. by rewrite app_assoc. Qed.

Lemma only_logs_refl w : only_logs w w.
Proof. exists []. split; [apply extended_id|done]. Qed.

Lemma only_logs_trans w1 w2 w3 : only_logs w1 w2 → only_logs w2 w3 → only_logs w1 w3.
Proof.
  intros (e1 & -> & H1) (e2 & -> & H2). exists (e1 ++ e2)%list.
  split; [by rewrite extended_extended|by apply Forall_app].
Qed.

Lemma only_logs_files w w' : only_logs w w' → files w' = files w.
Proof. by intros (e & -> & _). Qed.

Lemma initPublisher_lookup cfg w k :
  platforms (initPublisher cfg w).1 !! k
  = let pc := Server.Publish cfg in
    if String.eqb k "bilibili" then
      if PublishConfig.Bilibili_Enabled pc
      then Some (as_Platform (NewBilibili "" (PublishConfig.Bilibili_Cookie pc))) else None
    else if String.eqb k "douyin" then
      if PublishConfig.Douyin_Enabled pc then Some (as_Platform (NewDouyin "")) else None
    else if String.eqb k "xiaohongshu" then
      if PublishConfig.Xiaohongshu_Enabled pc
      then Some (as_Platform (NewXiaohongshu (PublishConfig.Xiaohongshu_MCPURL pc)
                                             (PublishConfig.Xiaohongshu_Cookies pc)
                                             (PublishConfig.Xiaohongshu_XSecToken pc)))
      else None
    else None.
Proof.
  unfold initPublisher. cbv zeta.
  destruct (String.eqb_spec k "bilibili") as [->|Hb];
    [|destruct (String.eqb_spec k "douyin") as [->|Hd];
      [|destruct (String.eqb_spec k "xiaohongshu") as [->|Hx]]];
    destruct (PublishConfig.Xiaohongshu_Enabled _), (PublishConfig.Douyin_Enabled _),
             (PublishConfig.Bilibili_Enabled _);
    cbn [app register_all]; unfold Register, mbind, M_bind, mret, M_ret, log_Printf, emit;
    cbn [fst snd platforms New as_Platform Type_ impl_Type Xiaohongshu_impl Douyin_impl
         Bilibili_impl];
    unfold PlatformBilibili, PlatformDouyin, PlatformXiaohongshu;
    rewrite ?lookup_insert_eq, ?lookup_insert_ne, ?lookup_empty by done; try done.
Qed.

(** Evaluate the comparisons of two literal keys. *)
Ltac eval_eqb :=
  repeat match goal with
         | |- context [String.eqb ?a ?b] =>
             let v := eval vm_compute in (String.eqb a b) in
             match v with
             | true => change (String.eqb a b) with true
             | false => change (String.eqb a b) with false
             end
         end.

Lemma only_logs_intro w evs :
  Forall log_or_call evs →
  only_logs w (mkWorld (clock w) (getenv w) (net w) (files w) (write_err w) (db w)
                       (trace w ++ evs)).
Proof. intros H. by exists evs. Qed.

Lemma Manager_Publish_builtin cfg w0 k path title content w :
  let run := Manager_Publish (initPublisher cfg w0).1 k path title content w in
  only_logs w run.2 ∧ outcome_text run.1 = builtin_outcome cfg (files w) path k.
Proof.
  cbv zeta. unfold Manager_Publish, builtin_outcome. rewrite initPublisher_lookup. cbv zeta.
  destruct (String.eqb_spec k "xiaohongshu") as [->|Hx];
    [|destruct (String.eqb_spec k "douyin") as [->|Hd];
      [|destruct (String.eqb_spec k "bilibili") as [->|Hb]]];
    eval_eqb; cbn [andb].
  - destruct (PublishConfig.Xiaohongshu_Enabled _);
      [|split; [apply only_logs_refl|done]].
    unfold invoke, as_Platform, Publish, impl_Publish, Xiaohongshu_impl, Xiaohongshu_Publish,
           publishViaMCP, os_Open.
    unfold_M. cbn.
    destruct (files w !! path); cbn;
      (split; [rewrite <- ?app_assoc; cbn [app]; apply only_logs_intro;
               repeat constructor|done]).
  - destruct (PublishConfig.Douyin_Enabled _); [|split; [apply only_logs_refl|done]].
    unfold invoke, as_Platform, Publish, impl_Publish, Douyin_impl, Douyin_Publish.
    unfold_M. cbn.
    split; [rewrite <- ?app_assoc; cbn [app]; apply only_logs_intro; repeat constructor|done].
  - destruct (PublishConfig.Bilibili_Enabled _); [|split; [apply only_logs_refl|done]].
    unfold invoke, as_Platform, Publish, impl_Publish, Bilibili_impl, Bilibili_Publish.
    unfold_M. cbn.
    split; [rewrite <- ?app_assoc; cbn [app]; apply only_logs_intro; repeat constructor|done].
  - split; [apply only_logs_refl|done].
Qed.

Lemma publish_loop_builtin cfg w0 path title content ks : ∀ acc w,
  let run := publish_loop (initPublisher cfg w0).1 ks path title content acc w in
  only_logs w run.2
  ∧ dom run.1 = dom acc ∪ list_to_set ks
  ∧ (∀ k, k ∈ ks → run.1 !! k = Some (builtin_outcome cfg (files w) path k))
  ∧ (∀ k, k ∉ ks → run.1 !! k = acc !! k).
Proof.
  induction ks as [|k0 ks IH]; intros acc w.
  - cbn. split; [apply only_logs_refl|]. split; [by rewrite (right_id_L ∅ (∪))|].
    split; [by intros k ?%elem_of_nil|done].
  - cbv zeta. rewrite publish_loop_cons.
    destruct (Manager_Publish_builtin cfg w0 k0 path title content w) as [Hlog Hout].
    set (r := Manager_Publish _ k0 path title content w) in *.
    destruct (IH (<[k0 := outcome_text r.1]> acc) r.2) as (Hlog' & Hdom & Hin & Hnot).
    rewrite (only_logs_files _ _ Hlog) in Hin.
    split; [by eapply only_logs_trans|]. split; [|split].
    + rewrite Hdom, dom_insert_L. cbn [list_to_set].
      by rewrite (comm_L (∪) {[k0]} (dom acc)), (assoc_L (∪)).
    + intros k Hk. destruct (decide (k ∈ ks)) as [Hks|Hks]; [by apply Hin|].
      apply elem_of_cons in Hk as [->|Hk]; [|done].
      by rewrite (Hnot k0 Hks), lookup_insert_eq, Hout.
    + intros k [Hne Hk]%not_elem_of_cons. by rewrite (Hnot k Hk), lookup_insert_ne.
Qed.


(** X13.  [initPublisher] registers the adapters whose [Enabled] flag is
    set and no other, each under its own type, and does nothing else but
    log. *)
Theorem X13_initPublisher_registers_the_enabled_adapters cfg w :
  let pc := Server.Publish cfg in
  let run := initPublisher cfg w in
  (∀ k, k ∈ dom (platforms run.1)
        ↔ (k = "xiaohongshu" ∧ PublishConfig.Xiaohongshu_Enabled pc = true)
          ∨ (k = "douyin" ∧ PublishConfig.Douyin_Enabled pc = true)
          ∨ (k = "bilibili" ∧ PublishConfig.Bilibili_Enabled pc = true))
  ∧ (∀ k p, platforms run.1 !! k = Some p → Type_ p = k)
  ∧ only_logs w run.2.
Proof.
  cbv zeta. split; [|split].
  - intros k. rewrite elem_of_dom, initPublisher_lookup. cbv zeta.
    destruct (String.eqb_spec k "bilibili") as [->|Hb];
      [|destruct (String.eqb_spec k "douyin") as [->|Hd];
        [|destruct (String.eqb_spec k "xiaohongshu") as [->|Hx]]];
      destruct (PublishConfig.Xiaohongshu_Enabled _), (PublishConfig.Douyin_Enabled _),
               (PublishConfig.Bilibili_Enabled _);
      (split;
       [intros [p Hp];
        first [discriminate Hp|left; by split|right; left; by split|right; right; by split]
       |intros [[H1 H2]|[[H1 H2]|[H1 H2]]];
        first [discriminate H1|discriminate H2|congruence|by eexists]]).
  - apply initPublisher_wf.
  - unfold initPublisher.
    destruct (PublishConfig.Xiaohongshu_Enabled _), (PublishConfig.Douyin_Enabled _),
             (PublishConfig.Bilibili_Enabled _);
      cbn [app register_all]; unfold Register; unfold_M; cbn;
      first [apply only_logs_refl
            |rewrite <- ?app_assoc; cbn [app]; apply only_logs_intro; repeat constructor].
Qed.



Lemma PublishAll_loop_dom imgPath title content ps : ∀ acc w,
  dom (PublishAll_loop ps imgPath title content acc w).1
  = dom acc ∪ list_to_set (Name <$> ps).
Proof.
  induction ps as [|p ps IH]; intros acc w.
  - cbn. by rewrite (right_id_L ∅ (∪)).
  - cbn [PublishAll_loop]. unfold mbind, M_bind.
    destruct (invoke p imgPath title content w) as [[u err] w1].
    destruct err as [e|]; rewrite IH, dom_insert_L; cbn [fmap list_fmap list_to_set];
      by rewrite (comm_L (∪) {[Name p]} (dom acc)), (assoc_L (∪)).
Qed.

Lemma size_list_to_set_le (l : list string) :
  (size (list_to_set l : gset string) ≤ length l)%nat
  ∧ (size (list_to_set l : gset string) = length l ↔ NoDup l).
Proof.
  induction l as [|x l [IHle IHeq]].
  - split; [done|]. split; [constructor|done].
  - cbn [list_to_set length]. destruct (decide (x ∈ l)) as [Hin|Hnin].
    + assert (({[x]} ∪ list_to_set l : gset string) = list_to_set l) as ->.
      { apply subseteq_union_1_L, singleton_subseteq_l. by apply elem_of_list_to_set. }
      split; [lia|]. split; [lia|]. by intros [? _]%NoDup_cons.
    + rewrite size_union, size_singleton
        by (apply disjoint_singleton_l; by rewrite elem_of_list_to_set).
      split; [lia|]. rewrite NoDup_cons. split.
      * intros H. split; [done|]. apply IHeq. lia.
      * intros [_ H%IHeq]. lia.
Qed.

(** X15.  In whatever order [PublishAll] ranges over the registered
    adapters, its results are keyed by display name: there are never
    more entries than adapters, and as many exactly when no two adapters
    share a name. *)
Theorem X15_PublishAll_reports_by_display_name m ps imgPath title content w :
  ps ≡ₚ List_ m →
  let run := PublishAll_loop ps imgPath title content ∅ w in
  dom run.1 = list_to_set (Name <$> List_ m)
  ∧ (size run.1 ≤ size (platforms m))%nat
  ∧ (size run.1 = size (platforms m) ↔ NoDup (Name <$> List_ m)).
Proof.
  intros Hperm run. subst run.
  pose proof (PublishAll_loop_dom imgPath title content ps ∅ w) as Hdom.
  rewrite dom_empty_L, (left_id_L ∅ (∪)) in Hdom.
  assert (length (Name <$> ps) = size (platforms m)) as Hlen.
  { rewrite length_fmap, Hperm. unfold List_. rewrite length_fmap.
    by rewrite length_map_to_list. }
  assert ((list_to_set (Name <$> ps) : gset string)
          = list_to_set (Name <$> List_ m)) as Hset.
  { apply set_eq. intros x. rewrite !elem_of_list_to_set. by rewrite Hperm. }
  split; [by rewrite Hdom|].
  rewrite <- size_dom, Hdom, <- Hlen.
  destruct (size_list_to_set_le (Name <$> ps)) as [Hle Heq].
  split; [done|]. rewrite Heq. by rewrite Hperm.
Qed.

Lemma X15_witness :
  let m := example_manager in
  let run := PublishAll_loop (List_ m) "/tmp/1.png" "title" "text" ∅ published_world in
  dom run.1 = list_to_set (Name <$> List_ m)
  ∧ (size run.1 ≤ size (platforms m))%nat
  ∧ (size run.1 = size (platforms m) ↔ NoDup (Name <$> List_ m)).
Proof.
  apply (X15_PublishAll_reports_by_display_name example_manager
           (List_ example_manager) "/tmp/1.png" "title" "text" published_world).
  reflexivity.
Defined.








Lemma ReplaceAll_length s old new : String.length (ReplaceAll s old new) = String.length s.
Proof. induction s as [|c s IH]; [done|]. cbn. by rewrite IH. Qed.

Lemma ReplaceAll_chars (P : ascii → Prop) s old new :
  P new →
  Forall (fun c => c ≠ old → P c) (String.list_ascii_of_string s) →
  Forall P (String.list_ascii_of_string (ReplaceAll s old new)).
Proof.
  intros Hnew. induction s as [|c s IH]; cbn; [constructor|].
  intros [Hc Hs]%Forall_cons. apply Forall_cons. split; [|by apply IH].
  destruct (Ascii.eqb_spec c old); [done|by apply Hc].
Qed.

Lemma ReplaceAll_id s old new :
  Forall (fun c => c ≠ old) (String.list_ascii_of_string s) → ReplaceAll s old new = s.
Proof.
  induction s as [|c s IH]; cbn; [done|].
  intros [Hc Hs]%Forall_cons. rewrite (IH Hs).
  by destruct (Ascii.eqb_spec c old).
Qed.

Lemma take_bytes_length n : ∀ s, String.length (take_bytes n s) = (n `min` String.length s)%nat.
Proof.
  induction n as [|n IH]; intros [|c s]; cbn; try done. by rewrite IH.
Qed.

Lemma take_bytes_id n : ∀ s, (String.length s ≤ n)%nat → take_bytes n s = s.
Proof.
  induction n as [|n IH]; intros [|c s]; cbn; intros H; try done; try lia.
  rewrite IH; [done|lia].
Qed.

(** X18.  [sanitizeFilename] returns the first 20 bytes of the name (all
    of a shorter one) with no slash, space or colon left in them, and
    leaves its own results as they are. *)
Theorem X18_sanitizeFilename_gives_a_short_plain_name name :
  let s := Generator.sanitizeFilename name in
  String.length s = (20 `min` String.length name)%nat
  ∧ Forall (fun c => c ≠ "/"%char ∧ c ≠ " "%char ∧ c ≠ ":"%char) (String.list_ascii_of_string s)
  ∧ Generator.sanitizeFilename s = s.
Proof.
  cbv zeta. unfold Generator.sanitizeFilename.
  set (cut := if (20 <? String.length name)%nat then take_bytes 20 name else name).
  assert (String.length cut = (20 `min` String.length name)%nat) as Hcut.
  { subst cut. destruct (20 <? String.length name)%nat eqn:E.
    - apply Nat.ltb_lt in E. rewrite take_bytes_length. lia.
    - apply Nat.ltb_ge in E. lia. }
  set (s := ReplaceAll (ReplaceAll (ReplaceAll cut "/" "_") " " "_") ":" "_").
  assert (String.length s = (20 `min` String.length name)%nat) as Hlen
    by (subst s; by rewrite !ReplaceAll_length).
  assert (Forall (fun c => c ≠ "/"%char ∧ c ≠ " "%char ∧ c ≠ ":"%char)
                 (String.list_ascii_of_string s)) as Hplain.
  { subst s.
    apply ReplaceAll_chars; [done|].
    apply (ReplaceAll_chars (fun c => c ≠ ":"%char → c ≠ "/"%char ∧ c ≠ " "%char ∧ c ≠ ":"%char));
      [done|].
    apply (ReplaceAll_chars
             (fun c => c ≠ " "%char → c ≠ ":"%char →
                       c ≠ "/"%char ∧ c ≠ " "%char ∧ c ≠ ":"%char)); [done|].
    apply Forall_forall. by intros c _ ? ? ?. }
  split; [done|]. split; [done|].
  replace (20 <? String.length s)%nat with false
    by (symmetry; apply Nat.ltb_ge; lia).
  rewrite (ReplaceAll_id s "/"), (ReplaceAll_id s " "), (ReplaceAll_id s ":");
    [done|..]; (eapply Forall_impl; [exact Hplain|]; by intros c (? & ? & ?)).
Qed.

Lemma loadConfig_lookup c w k :
  Platforms (loadConfig c w).1 !! k
  = (fun p => if negb (String.eqb (getenv w (PlatformConfig.EnvKey p)) "")
              then PlatformConfig.mk (PlatformConfig.Name p) (PlatformConfig.EnvKey p)
                     (getenv w (PlatformConfig.EnvKey p)) (PlatformConfig.URL p)
                     (PlatformConfig.Model p) true (PlatformConfig.Description p)
              else p) <$> (Platforms c !! k).
Proof. unfold loadConfig. cbn. by rewrite lookup_fmap. Qed.

(** X19.  [loadConfig] leaves the environment alone, never leaves a width
    or height of 0, and keeps the platform keys.  After it, the enabled
    platforms are exactly those whose environment variable is set, or
    which the file enables with a key of its own; each carries the
    environment's key if there is one and the file's key otherwise.
    Loading the result again changes nothing. *)
Theorem X19_environment_keys_enable_platforms c w :
  let cfg := (loadConfig c w).1 in
  (loadConfig c w).2 = w
  ∧ ImageGenConfig.Width (ImageGen cfg) ≠ 0
  ∧ ImageGenConfig.Height (ImageGen cfg) ≠ 0
  ∧ dom (Platforms cfg) = dom (Platforms c)
  ∧ (∀ k, k ∈ dom (getEnabledPlatforms cfg)
          ↔ ∃ p, Platforms c !! k = Some p
                 ∧ (getenv w (PlatformConfig.EnvKey p) ≠ ""
                    ∨ (PlatformConfig.Enabled p = true ∧ PlatformConfig.APIKey p ≠ "")))
  ∧ (∀ k p', getEnabledPlatforms cfg !! k = Some p' →
             ∃ p, Platforms c !! k = Some p
                  ∧ PlatformConfig.APIKey p' = effective_key w p
                  ∧ PlatformConfig.Name p' = PlatformConfig.Name p
                  ∧ PlatformConfig.URL p' = PlatformConfig.URL p
                  ∧ PlatformConfig.Model p' = PlatformConfig.Model p)
  ∧ (loadConfig cfg w).1 = cfg.
Proof.
  cbv zeta. split_and!.
  - done.
  - unfold loadConfig. cbn. by destruct (Z.eqb_spec (ImageGenConfig.Width (ImageGen c)) 0).
  - unfold loadConfig. cbn. by destruct (Z.eqb_spec (ImageGenConfig.Height (ImageGen c)) 0).
  - unfold loadConfig. cbn. by rewrite dom_fmap_L.
  - intros k. unfold getEnabledPlatforms. rewrite elem_of_dom. unfold is_Some.
    setoid_rewrite map_lookup_filter_Some. setoid_rewrite loadConfig_lookup.
    split.
    + intros (p' & Hp' & Hen & Hkey). cbn in Hen, Hkey.
      destruct (Platforms c !! k) as [p|]; [|done]. cbn in Hp'. exists p. split; [done|].
      destruct (String.eqb_spec (getenv w (PlatformConfig.EnvKey p)) "") as [He|He];
        cbn in Hp'; injection Hp' as <-; [right|left]; done.
    + intros (p & -> & H). cbn.
      destruct (String.eqb_spec (getenv w (PlatformConfig.EnvKey p)) "") as [He|He]; cbn.
      * destruct H as [H|[H1 H2]]; [done|]. by exists p.
      * eexists. by split.
  - intros k p'. unfold getEnabledPlatforms. rewrite map_lookup_filter_Some, loadConfig_lookup.
    intros [Hp' _]. destruct (Platforms c !! k) as [p|]; [|done]. cbn in Hp'.
    exists p. split; [done|]. unfold effective_key.
    destruct (String.eqb_spec (getenv w (PlatformConfig.EnvKey p)) "") as [He|He];
      cbn in Hp'; injection Hp' as <-; done.
  - unfold loadConfig. cbn. f_equal.
    + f_equal.
      * destruct (Z.eqb_spec (ImageGenConfig.Width (ImageGen c)) 0) as [E|E]; [done|].
        by destruct (Z.eqb_spec (ImageGenConfig.Width (ImageGen c)) 0).
      * destruct (Z.eqb_spec (ImageGenConfig.Height (ImageGen c)) 0) as [E|E]; [done|].
        by destruct (Z.eqb_spec (ImageGenConfig.Height (ImageGen c)) 0).
    + rewrite <- map_fmap_compose. apply map_fmap_ext. intros k p _. cbn.
      destruct (String.eqb_spec (getenv w (PlatformConfig.EnvKey p)) "") as [He|He]; cbn.
      * by destruct (String.eqb_spec (getenv w (PlatformConfig.EnvKey p)) "").
      * by destruct (String.eqb_spec (getenv w (PlatformConfig.EnvKey p)) "").
Qed.

Lemma api_traffic_call key least w w1 w2 req stored :
  requests w1 = (requests w ++ [req])%list →
  credentialed key req →
  api_traffic key least w1 w2 stored →
  api_traffic key (S least) w w2 stored.
Proof.
  intros Hreq Hcred (calls & dl & Hrs & Hall & Hn & Hdl & Hst).
  exists (req :: calls), dl. split_and!; try done.
  - rewrite Hrs, Hreq, <- !app_assoc. done.
  - by apply Forall_cons.
  - cbn. lia.
Qed.

Lemma api_traffic_quiet key w w' :
  requests w' = requests w → api_traffic key 0 w w' false.
Proof.
  intros H. exists [], []. split_and!; try done.
  - by rewrite H, !app_nil_r.
  - by left.
Qed.

Lemma api_traffic_weaken key n m w w' stored :
  (m ≤ n)%nat → api_traffic key n w w' stored → api_traffic key m w w' stored.
Proof. intros ? (c & d & ? & ? & ? & ? & ?). exists c, d. split_and!; try done. lia. Qed.

Lemma api_traffic_logged key n w w' line stored :
  api_traffic key n w w' stored → api_traffic key n w (logged line w') stored.
Proof. intros (c & d & ? & ?). exists c, d. by rewrite requests_logged. Qed.

Lemma downloadAndSave_requests cfg p platform u w :
  requests (downloadAndSave cfg p platform u w).2
  = (requests w ++ [download_request u])%list.
Proof.
  unfold downloadAndSave, os_WriteFile. unfold_M. unfold requests. cbn.
  destruct (net w) as [|[e|resp] rest]; cbn; [| |destruct (write_err w); cbn];
    rewrite !omap_app; cbn; by rewrite ?app_nil_r.
Qed.

Lemma downloadAndSave_traffic key cfg p platform u w :
  let run := downloadAndSave cfg p platform u w in
  api_traffic key 0 w run.2 (produced run.1).
Proof.
  cbv zeta. exists [], [download_request u]. split_and!; try done.
  - apply downloadAndSave_requests.
  - right. by exists u.
Qed.

(** The requests of the world under the goal, as those of [w] and more. *)
Ltac requests_of w :=
  unfold requests; cbn [trace]; rewrite ?omap_app; cbn [omap list_omap];
  rewrite ?app_nil_r; fold (requests w).

Lemma aliyun_poll_traffic cfg p taskID n : ∀ w,
  let run := aliyun_poll cfg p taskID n w in
  api_traffic (PlatformConfig.APIKey p) 0 w run.2 (poll_produced run.1).
Proof.
  induction n as [|n IH]; intros w.
  - cbn. by apply api_traffic_quiet.
  - cbv zeta. cbn [aliyun_poll]. unfold_M. cbn.
    apply (api_traffic_weaken _ 1); [lia|].
    destruct (net w) as [|[e|resp] rest]; cbn.
    + eapply api_traffic_call; [| |apply IH]; [by requests_of w|]. left.
    + eapply api_traffic_call; [| |apply IH]; [by requests_of w|]. left.
    + destruct (String.eqb _ "SUCCEEDED" && _).
      * match goal with |- context [downloadAndSave cfg p ?k ?u ?w0] =>
          pose proof (downloadAndSave_traffic (PlatformConfig.APIKey p) cfg p k u w0) as Hd;
          destruct (downloadAndSave cfg p k u w0) as [res w1] end.
        cbv zeta in Hd. cbn [fst snd poll_produced] in *.
        eapply api_traffic_call; [| |exact Hd]; [by requests_of w|left].
      * destruct (String.eqb _ "FAILED"); cbn.
        -- eapply api_traffic_call; [| |apply api_traffic_quiet; reflexivity];
             [by requests_of w|left].
        -- eapply api_traffic_call; [| |apply IH]; [by requests_of w|]. left.
Qed.

Lemma modelscope_poll_traffic cfg p taskID n : ∀ w,
  let run := modelscope_poll cfg p taskID n w in
  api_traffic (PlatformConfig.APIKey p) 0 w run.2 (poll_produced run.1).
Proof.
  induction n as [|n IH]; intros w.
  - cbn. by apply api_traffic_quiet.
  - cbv zeta. cbn [modelscope_poll]. unfold_M. cbn.
    apply (api_traffic_weaken _ 1); [lia|].
    destruct (net w) as [|[e|resp] rest]; cbn.
    + eapply api_traffic_call; [| |apply IH]; [by requests_of w|]. left.
    + eapply api_traffic_call; [| |apply IH]; [by requests_of w|]. left.
    + destruct (String.eqb _ "SUCCEED" && _).
      * match goal with |- context [downloadAndSave cfg p ?k ?u ?w0] =>
          pose proof (downloadAndSave_traffic (PlatformConfig.APIKey p) cfg p k u w0) as Hd;
          destruct (downloadAndSave cfg p k u w0) as [res w1] end.
        cbv zeta in Hd. cbn [fst snd poll_produced] in *.
        eapply api_traffic_call; [| |exact Hd]; [by requests_of w|left].
      * destruct (String.eqb _ "FAILED"); cbn.
        -- eapply api_traffic_call; [| |apply api_traffic_quiet; reflexivity];
             [by requests_of w|left].
        -- eapply api_traffic_call; [| |apply IH]; [by requests_of w|]. left.
Qed.

Lemma generateSyncImage_traffic cfg p prompt w :
  let run := generateSyncImage cfg p prompt w in
  api_traffic (PlatformConfig.APIKey p) 1 w run.2 (produced run.1).
Proof.
  cbv zeta. unfold generateSyncImage. unfold_M. cbn.
  destruct (net w) as [|[e|resp] rest]; cbn.
  - eapply api_traffic_call; [| |apply api_traffic_quiet; reflexivity];
      [by requests_of w|left].
  - eapply api_traffic_call; [| |apply api_traffic_quiet; reflexivity];
      [by requests_of w|left].
  - destruct (negb (StatusCode resp =? 200)); cbn.
    { eapply api_traffic_call; [| |apply api_traffic_quiet; reflexivity];
        [by requests_of w|left]. }
    destruct (bool_decide _ || _); cbn.
    { eapply api_traffic_call; [| |apply api_traffic_quiet; reflexivity];
        [by requests_of w|left]. }
    eapply api_traffic_call; [| |apply downloadAndSave_traffic]; [by requests_of w|left].
Qed.

Lemma generateAliyunImage_traffic cfg p prompt w :
  let run := generateAliyunImage cfg p prompt w in
  api_traffic (PlatformConfig.APIKey p) 1 w run.2 (produced run.1).
Proof.
  cbv zeta. unfold generateAliyunImage. unfold_M. cbn -[aliyun_poll].
  destruct (net w) as [|[e|resp] rest]; cbn -[aliyun_poll].
  - eapply api_traffic_call; [| |apply api_traffic_quiet; reflexivity];
      [by requests_of w|left].
  - eapply api_traffic_call; [| |apply api_traffic_quiet; reflexivity];
      [by requests_of w|left].
  - destruct (bool_decide _ || _); cbn -[aliyun_poll].
    { eapply api_traffic_call; [| |apply api_traffic_quiet; reflexivity];
        [by requests_of w|left]. }
    generalize 30%nat. intros n.
    match goal with |- context [aliyun_poll cfg p ?t n ?w0] =>
      pose proof (aliyun_poll_traffic cfg p t n w0) as Hp;
      destruct (aliyun_poll cfg p t n w0) as [out w1] end.
    cbv zeta in Hp. cbn [fst snd] in *.
    match type of Hp with api_traffic _ _ ?w0 _ _ =>
      eapply (api_traffic_call _ 0 w w0) end; [by requests_of w|left|].
    destruct out as [res|]; cbn; [exact Hp|].
    apply (api_traffic_logged _ _ _ _ _ _ Hp).
Qed.

Lemma generateModelScopeImage_traffic cfg p prompt size w :
  let run := generateModelScopeImage cfg p prompt size w in
  api_traffic (PlatformConfig.APIKey p) 1 w run.2 (produced run.1).
Proof.
  cbv zeta. unfold generateModelScopeImage. unfold_M. cbn -[modelscope_poll].
  destruct (net w) as [|[e|resp] rest]; cbn -[modelscope_poll].
  - eapply api_traffic_call; [| |apply api_traffic_quiet; reflexivity];
      [by requests_of w|left].
  - eapply api_traffic_call; [| |apply api_traffic_quiet; reflexivity];
      [by requests_of w|left].
  - destruct (String.eqb _ ""); cbn -[modelscope_poll].
    { eapply api_traffic_call; [| |apply api_traffic_quiet; reflexivity];
        [by requests_of w|left]. }
    generalize 60%nat. intros n.
    match goal with |- context [modelscope_poll cfg p ?t n ?w0] =>
      pose proof (modelscope_poll_traffic cfg p t n w0) as Hp;
      destruct (modelscope_poll cfg p t n w0) as [out w1] end.
    cbv zeta in Hp. cbn [fst snd] in *.
    match type of Hp with api_traffic _ _ ?w0 _ _ =>
      eapply (api_traffic_call _ 0 w w0) end; [by requests_of w|left|].
    destruct out as [res|]; cbn; [exact Hp|].
    apply (api_traffic_logged _ _ _ _ _ _ Hp).
Qed.

(** X20.  For an unknown or disabled platform [generateImage] does
    nothing.  For an enabled one its requests are: one or more calls that
    all carry the platform's API key as bearer token, followed by at most
    one download, which carries no header at all; an artifact is only
    returned after a download. *)
Theorem X20_api_key_goes_to_the_provider_only cfg platform prompt size w :
  let run := generateImage cfg platform prompt size w in
  match Platforms cfg !! platform with
  | Some p =>
      if PlatformConfig.Enabled p
      then api_traffic (PlatformConfig.APIKey p) 1 w run.2 (produced run.1)
      else run = (None, w)
  | None => run = (None, w)
  end.
Proof.
  cbv zeta. unfold generateImage.
  destruct (Platforms cfg !! platform) as [p|]; [|done].
  destruct (PlatformConfig.Enabled p); [|done]. cbn [negb].
  destruct (String.eqb platform "aliyun"); [|destruct (String.eqb platform "modelscope")].
  - apply generateAliyunImage_traffic.
  - apply generateModelScopeImage_traffic.
  - apply generateSyncImage_traffic.
Qed.







Lemma find_unique_id (rows : list ImageRecord.t) x :
  NoDup (ImageRecord.ID <$> rows) → x ∈ rows →
  List.find (fun r => (ImageRecord.ID r =? ImageRecord.ID x)%nat) rows = Some x.
Proof.
  induction rows as [|r rows IH]; [by intros _ ?%elem_of_nil|].
  cbn [fmap list_fmap]. intros [Hnin Hnd]%NoDup_cons [->|Hin]%elem_of_cons; cbn.
  - by rewrite Nat.eqb_refl.
  - destruct (ImageRecord.ID r =? ImageRecord.ID x)%nat eqn:E; [|by apply IH].
    apply Nat.eqb_eq in E. destruct Hnin. rewrite E. by apply list_elem_of_fmap_2.
Qed.



Lemma append_nil_l (s : string) : "" +:+ s = s.
Proof. reflexivity. Qed.

Lemma append_String c (s t : string) : String c s +:+ t = String c (s +:+ t).
Proof. reflexivity. Qed.

Lemma append_assoc' (a b c : string) : (a +:+ b) +:+ c = a +:+ (b +:+ c).
Proof. induction a as [|x a IH]; [done|]. by rewrite !append_String, IH. Qed.

Lemma chars_append (a b : string) :
  String.list_ascii_of_string (a +:+ b)
  = (String.list_ascii_of_string a ++ String.list_ascii_of_string b)%list.
Proof. induction a as [|x a IH]; [done|]. rewrite append_String. cbn. by rewrite IH. Qed.

Lemma length_append' (a b : string) :
  String.length (a +:+ b) = (String.length a + String.length b)%nat.
Proof. induction a as [|x a IH]; [done|]. rewrite append_String. cbn. by rewrite IH. Qed.

Lemma split_slash_plain (s t : string) :
  Forall (fun c => c ≠ "/"%char) (String.list_ascii_of_string s) →
  split_slash (s +:+ "/" +:+ t) = s :: split_slash t.
Proof.
  induction s as [|c s IH]; intros Hs.
  - rewrite append_nil_l. change ("/" +:+ t) with (String "/" t). done.
  - cbn in Hs. apply Forall_cons in Hs as [Hc Hs].
    rewrite append_String. cbn [split_slash]. rewrite (IH Hs).
    by destruct (Ascii.eqb_spec c "/").
Qed.

Lemma split_slash_one (s : string) :
  Forall (fun c => c ≠ "/"%char) (String.list_ascii_of_string s) →
  split_slash s = [s].
Proof.
  induction s as [|c s IH]; intros Hs; [done|].
  cbn in Hs. apply Forall_cons in Hs as [Hc Hs].
  cbn [split_slash]. rewrite (IH Hs). by destruct (Ascii.eqb_spec c "/").
Qed.

Lemma split_slash_join (elems : list string) :
  Forall plain elems → elems ≠ [] → split_slash (join_slash elems) = elems.
Proof.
  induction elems as [|e elems IH]; [done|]. intros [He Hall]%Forall_cons _.
  destruct He as (_ & _ & _ & Hns).
  destruct elems as [|e' elems].
  - cbn. by apply split_slash_one.
  - change (join_slash (e :: e' :: elems)) with (e +:+ "/" +:+ join_slash (e' :: elems)).
    rewrite split_slash_plain by done. by rewrite IH.
Qed.

Lemma join_slash_snoc (elems : list string) (e : string) :
  elems ≠ [] → join_slash (elems ++ [e]) = join_slash elems +:+ "/" +:+ e.
Proof.
  induction elems as [|x elems IH]; [done|]. intros _.
  destruct elems as [|y elems]; [done|].
  change (join_slash ((x :: y :: elems) ++ [e]))
    with (x +:+ "/" +:+ join_slash ((y :: elems) ++ [e])).
  rewrite IH by done.
  change (join_slash (x :: y :: elems)) with (x +:+ "/" +:+ join_slash (y :: elems)).
  by rewrite !append_assoc'.
Qed.

Lemma clean_elem_plain rooted out e : plain e → clean_elem rooted out e = e :: out.
Proof.
  intros (H1 & H2 & H3 & _). unfold clean_elem.
  by rewrite (eqb_false _ _ H1), (eqb_false _ _ H2), (eqb_false _ _ H3).
Qed.

Lemma fold_clean_plain rooted elems : ∀ out,
  Forall plain elems →
  fold_left (clean_elem rooted) elems out = (rev elems ++ out)%list.
Proof.
  induction elems as [|e elems IH]; intros out Hall; [done|].
  apply Forall_cons in Hall as [He Hall]. cbn [fold_left rev].
  rewrite clean_elem_plain by done. rewrite IH by done. by rewrite <- app_assoc.
Qed.

Lemma Clean_absolute dirs :
  Forall plain dirs → dirs ≠ [] → Clean (absolute dirs) = absolute dirs.
Proof.
  intros Hall Hne. unfold absolute, Clean.
  change ("/" +:+ join_slash dirs) with (String "/" (join_slash dirs)).
  cbn [Ascii.eqb]. 
  replace (Ascii.eqb "/" "/") with true by done.
  cbn [split_slash]. replace (Ascii.eqb "/" "/") with true by done.
  rewrite split_slash_join by done.
  cbn [fold_left]. unfold clean_elem at 2. rewrite String.eqb_refl. cbn [orb].
  rewrite fold_clean_plain by done. by rewrite app_nil_r, rev_involutive.
Qed.

Lemma Join_absolute dirs e :
  Forall plain dirs → dirs ≠ [] → plain e →
  Join [absolute dirs; e] = absolute (dirs ++ [e]).
Proof.
  intros Hall Hne He. unfold Join.
  assert (String.eqb (absolute dirs) "" = false) as -> by (by apply eqb_false).
  change (join_slash [absolute dirs; e]) with (absolute dirs +:+ "/" +:+ e).
  assert (absolute dirs +:+ "/" +:+ e = absolute (dirs ++ [e])) as ->.
  { unfold absolute. rewrite join_slash_snoc by done. by rewrite !append_assoc'. }
  apply Clean_absolute.
  - apply Forall_app. split; [done|]. by apply Forall_singleton.
  - by destruct dirs.
Qed.

Lemma Join3_absolute dirs a b :
  Forall plain dirs → dirs ≠ [] → plain a → plain b →
  Join [absolute dirs; a; b] = absolute (dirs ++ [a; b]).
Proof.
  intros Hall Hne Ha Hb. unfold Join.
  assert (String.eqb (absolute dirs) "" = false) as -> by (by apply eqb_false).
  change (join_slash [absolute dirs; a; b]) with (absolute dirs +:+ "/" +:+ a +:+ "/" +:+ b).
  assert (absolute dirs +:+ "/" +:+ a +:+ "/" +:+ b = absolute (dirs ++ [a; b])) as ->.
  { unfold absolute. change [a; b] with ([a] ++ [b])%list. rewrite app_assoc.
    rewrite !join_slash_snoc; [by rewrite !append_assoc'|done|by destruct dirs]. }
  apply Clean_absolute.
  - apply Forall_app. split; [done|]. by repeat apply Forall_cons_2.
  - by destruct dirs.
Qed.

Lemma pretty_N_char_stamp x : stamp_char (pretty_N_char x).
Proof.
  unfold stamp_char, pretty_N_char.
  repeat case_match; cbn; repeat (first [by left|right]).
Qed.

Lemma pretty_N_go_stamp x : ∀ s,
  Forall stamp_char (String.list_ascii_of_string s) →
  Forall stamp_char (String.list_ascii_of_string (pretty_N_go x s)).
Proof.
  induction (N.lt_wf_0 x) as [x _ IH]; intros s Hs.
  assert (x = 0 ∨ 0 < x)%N as [->|Hx] by lia.
  - by rewrite pretty_N_go_0.
  - rewrite pretty_N_go_step by done. apply IH; [by apply N.div_lt|].
    cbn. apply Forall_cons. split; [apply pretty_N_char_stamp|done].
Qed.

Lemma pretty_nat_stamp (n : nat) :
  Forall stamp_char (String.list_ascii_of_string (pretty n)).
Proof.
  unfold pretty, pretty_nat, pretty, pretty_N.
  destruct (decide (N.of_nat n = 0%N)).
  - cbn. apply Forall_singleton. unfold stamp_char. cbn. by left.
  - apply pretty_N_go_stamp. constructor.
Qed.

Lemma zeros_stamp k : Forall stamp_char (String.list_ascii_of_string (zeros k)).
Proof.
  induction k as [|k IH]; cbn; [constructor|].
  apply Forall_cons. split; [|done]. unfold stamp_char. cbn. by left.
Qed.

Lemma zpad_stamp width n : Forall stamp_char (String.list_ascii_of_string (zpad width n)).
Proof.
  unfold zpad. rewrite chars_append. apply Forall_app.
  split; [apply zeros_stamp|apply pretty_nat_stamp].
Qed.

Lemma stamp_char_no_slash c : stamp_char c → c ≠ "/"%char.
Proof.
  unfold stamp_char. cbn. intros H ->.
  repeat (apply elem_of_cons in H as [H|H]; [discriminate H|]). by apply elem_of_nil in H.
Qed.

Lemma stamp_char_no_dot c : stamp_char c → c ≠ "."%char.
Proof.
  unfold stamp_char. cbn. intros H ->.
  repeat (apply elem_of_cons in H as [H|H]; [discriminate H|]). by apply elem_of_nil in H.
Qed.

Lemma Format_date_stamp now :
  Forall stamp_char (String.list_ascii_of_string (Format_date now)).
Proof.
  unfold Format_date. rewrite !chars_append.
  repeat (apply Forall_app; split); try apply zpad_stamp;
    cbn; apply Forall_singleton; unfold stamp_char; cbn;
    repeat (first [by left|right]).
Qed.

Lemma Format_hms_stamp now :
  Forall stamp_char (String.list_ascii_of_string (Format_hms now)).
Proof.
  unfold Format_hms. rewrite !chars_append.
  repeat (apply Forall_app; split); apply zpad_stamp.
Qed.

Lemma Format_date_plain now : plain (Format_date now).
Proof.
  pose proof (Format_date_stamp now) as Hst.
  assert (2 ≤ String.length (Format_date now))%nat as Hlen.
  { unfold Format_date. rewrite !length_append'. cbn. lia. }
  split_and!.
  - intros E. rewrite E in Hlen. cbn in Hlen. lia.
  - intros E. rewrite E in Hlen. cbn in Hlen. lia.
  - intros E. rewrite E in Hst. cbn in Hst.
    apply Forall_cons in Hst as [Hdot _]. by apply stamp_char_no_dot in Hdot.
  - eapply Forall_impl; [exact Hst|]. apply stamp_char_no_slash.
Qed.

Lemma artifact_name_plain now : plain (artifact_name now).
Proof.
  assert (4 ≤ String.length (artifact_name now))%nat as Hlen.
  { unfold artifact_name. rewrite length_append'. cbn. lia. }
  split_and!; try (intros E; rewrite E in Hlen; cbn in Hlen; lia).
  unfold artifact_name. rewrite chars_append. apply Forall_app. split.
  - eapply Forall_impl; [apply Format_hms_stamp|]. apply stamp_char_no_slash.
  - cbn. by repeat (apply Forall_cons_2; [done|]).
Qed.

Lemma store_key_plain platform : plain (store_key platform).
Proof.
  unfold store_key.
  destruct (String.eqb platform "aliyun"); [|destruct (String.eqb platform "modelscope")];
    (split_and!; [done|done|done|cbn; by repeat (apply Forall_cons_2; [done|])]).
Qed.

Lemma artifact_path_elems cfg now key dirs :
  ImageGenConfig.OutputDir (ImageGen cfg) = absolute dirs →
  Forall plain dirs → dirs ≠ [] → plain key →
  artifact_path cfg now key
  = absolute (dirs ++ [Format_date now; key; artifact_name now]).
Proof.
  intros Hout Hall Hne Hkey. unfold artifact_path, artifact_dir. rewrite Hout.
  rewrite Join3_absolute by (try done; apply Format_date_plain).
  rewrite Join_absolute.
  - by rewrite <- app_assoc.
  - apply Forall_app. split; [done|].
    apply Forall_cons_2; [apply Format_date_plain|by apply Forall_singleton].
  - by destruct dirs.
  - apply artifact_name_plain.
Qed.

Lemma absolute_spelled dirs a b c :
  dirs ≠ [] →
  absolute (dirs ++ [a; b; c]) = absolute dirs +:+ "/" +:+ a +:+ "/" +:+ b +:+ "/" +:+ c.
Proof.
  intros Hne. unfold absolute.
  change [a; b; c] with ([a] ++ [b] ++ [c])%list. rewrite !app_assoc.
  rewrite !join_slash_snoc; [by rewrite !append_assoc'|done|by destruct dirs
                            |by destruct dirs].
Qed.

Lemma Base_absolute elems e :
  Forall plain elems → plain e → Base (absolute (elems ++ [e])) = e.
Proof.
  intros Hall He. unfold Base, absolute.
  change ("/" +:+ join_slash (elems ++ [e])) with (String "/" (join_slash (elems ++ [e]))).
  cbn [split_slash]. replace (Ascii.eqb "/" "/") with true by done.
  rewrite split_slash_join.
  - change ("" :: elems ++ [e]) with (("" :: elems) ++ [e])%list. apply last_last.
  - apply Forall_app. split; [done|]. by apply Forall_singleton.
  - by destruct elems.
Qed.

(** X24.  When the output directory is an absolute path of plain
    elements (none of them empty, [.] or [..]), [filepath.Join] and its
    [Clean] change nothing: the artifact of a successful generation lies
    at the output directory, a slash, the date, a slash, the store key
    of the provider, a slash, the time of day and [.png], and the last
    element of that path is the file name the artifact carries. *)
Theorem X24_artifact_path_is_spelled_out cfg platform prompt size dirs w r w' :
  ImageGenConfig.OutputDir (ImageGen cfg) = absolute dirs →
  Forall plain dirs → dirs ≠ [] →
  generateImage cfg platform prompt size w = (Some r, w') →
  GenerateResult.FilePath r
  = ImageGenConfig.OutputDir (ImageGen cfg) +:+ "/" +:+ Format_date (clock w) +:+ "/"
    +:+ store_key platform +:+ "/" +:+ Format_hms (clock w) +:+ ".png"
  ∧ Base (GenerateResult.FilePath r) = GenerateResult.Filename r.
Proof.
  intros Hout Hall Hne Hgen.
  apply generateImage_result in Hgen as (p & _ & ->).
  cbn [artifact GenerateResult.FilePath GenerateResult.Filename].
  rewrite (artifact_path_elems cfg (clock w) (store_key platform) dirs)
    by (try done; apply store_key_plain).
  split.
  - rewrite absolute_spelled by done. by rewrite Hout.
  - change [Format_date (clock w); store_key platform; artifact_name (clock w)]
      with ([Format_date (clock w); store_key platform] ++ [artifact_name (clock w)])%list.
    rewrite app_assoc. apply Base_absolute; [|apply artifact_name_plain].
    apply Forall_app. split; [done|].
    apply Forall_cons_2; [apply Format_date_plain|].
    apply Forall_singleton. apply store_key_plain.
Qed.

Lemma X24_witness :
  GenerateResult.FilePath
    (artifact example_cfg (example_platform "Aliyun" "wanx-v1") example_time "aliyun")
  = ImageGenConfig.OutputDir (ImageGen example_cfg) +:+ "/"
    +:+ Format_date (clock (cooperative_world "aliyun")) +:+ "/"
    +:+ store_key "aliyun" +:+ "/"
    +:+ Format_hms (clock (cooperative_world "aliyun")) +:+ ".png"
  ∧ Base (GenerateResult.FilePath
            (artifact example_cfg (example_platform "Aliyun" "wanx-v1") example_time
                      "aliyun"))
    = GenerateResult.Filename
        (artifact example_cfg (example_platform "Aliyun" "wanx-v1") example_time "aliyun").
Proof.
  apply (X24_artifact_path_is_spelled_out example_cfg "aliyun" "a cat" "" ["data"; "out"]
           (cooperative_world "aliyun") _
           (generateImage example_cfg "aliyun" "a cat" "" (cooperative_world "aliyun")).2).
  - reflexivity.
  - repeat constructor; (discriminate || (intros ?; discriminate)).
  - discriminate.
  - vm_compute. reflexivity.
Defined.

Lemma append_ne_nil (a b : string) : b ≠ "" → a +:+ b ≠ "".
Proof. intros Hb. destruct a as [|c a]; [done|]. rewrite append_String. done. Qed.

(** X25.  [config.Load] (after decoding) leaves the world alone and
    returns no empty output or log directory and no zero width, height,
    retry count, retry delay, timeout or worker count.  After it, the
    enabled platforms are exactly those whose environment variable is
    set or which the file enables with a key of its own, and loading the
    result again changes nothing. *)
Theorem X25_Load_fills_every_default c w :
  let run := Config.Load c w in
  let ig := Config.ImageGen run.1 in
  run.2 = w
  ∧ Generator.ImageGenConfig.OutputDir ig ≠ "" ∧ Generator.ImageGenConfig.LogDir ig ≠ ""
  ∧ Generator.ImageGenConfig.Width ig ≠ 0 ∧ Generator.ImageGenConfig.Height ig ≠ 0
  ∧ Generator.ImageGenConfig.MaxRetries ig ≠ 0 ∧ Generator.ImageGenConfig.RetryDelay ig ≠ 0
  ∧ Generator.ImageGenConfig.Timeout ig ≠ 0 ∧ Generator.ImageGenConfig.MaxWorkers ig ≠ 0
  ∧ (∀ k, k ∈ dom (Config.GetEnabledPlatforms run.1)
          ↔ ∃ p, Config.Platforms c !! k = Some p
                 ∧ (getenv w (Generator.PlatformConfig.EnvKey p) ≠ ""
                    ∨ (Generator.PlatformConfig.Enabled p = true
                       ∧ Generator.PlatformConfig.APIKey p ≠ "")))
  ∧ (Config.Load run.1 w).1 = run.1.
Proof.
  cbv zeta. unfold Config.Load, Config.loadAPIKeys, Config.ExpandEnv_HOME.
  unfold mbind, M_bind, mret, M_ret.
  set (ig := Config.ImageGen c).
  assert (∀ (z d : Z), d ≠ 0 → (if z =? 0 then d else z) ≠ 0) as Hz.
  { intros z d Hd. by destruct (Z.eqb_spec z 0). }
  assert (∀ (z d : Z), d ≠ 0 →
            (if (if z =? 0 then d else z) =? 0 then d else (if z =? 0 then d else z))
            = (if z =? 0 then d else z)) as Hzz.
  { intros z d Hd. destruct (Z.eqb_spec z 0) as [E|E].
    - by destruct (Z.eqb_spec d 0).
    - by destruct (Z.eqb_spec z 0). }
  destruct (String.eqb_spec (Generator.ImageGenConfig.OutputDir ig) "") as [Eo|Eo];
    destruct (String.eqb_spec (Generator.ImageGenConfig.LogDir ig) "") as [El|El];
    cbn [fst snd Config.ImageGen Config.Platforms Generator.ImageGenConfig.OutputDir
         Generator.ImageGenConfig.LogDir Generator.ImageGenConfig.Width
         Generator.ImageGenConfig.Height Generator.ImageGenConfig.MaxRetries
         Generator.ImageGenConfig.RetryDelay Generator.ImageGenConfig.Timeout
         Generator.ImageGenConfig.MaxWorkers].
  all: split; [done|].
  all: split; [first [by apply append_ne_nil|done]|].
  all: split; [first [by apply append_ne_nil|done]|].
  all: do 6 (split; [by apply Hz|]).
  all: split.
  all: try (intros k; unfold Config.GetEnabledPlatforms; rewrite elem_of_dom; unfold is_Some;
            setoid_rewrite map_lookup_filter_Some; cbn [Config.Platforms];
            setoid_rewrite lookup_fmap;
            split;
            [intros (p' & Hp' & Hen & Hkey); cbn in Hen, Hkey;
             destruct (Config.Platforms c !! k) as [p|]; [|done]; cbn in Hp';
             exists p; split; [done|];
             destruct (String.eqb_spec (getenv w (Generator.PlatformConfig.EnvKey p)) "")
               as [He|He];
             cbn in Hp'; injection Hp' as <-; [right|left]; done
            |intros (p & -> & H); cbn;
             destruct (String.eqb_spec (getenv w (Generator.PlatformConfig.EnvKey p)) "")
               as [He|He]; cbn;
             [destruct H as [H|[H1 H2]]; [done|]; by exists p|eexists; by split]]).
  all: rewrite ?(eqb_false _ "") by first [by apply append_ne_nil|done].
  all: cbn [fst snd Config.ImageGen Config.Platforms Generator.ImageGenConfig.OutputDir
            Generator.ImageGenConfig.LogDir Generator.ImageGenConfig.Width
            Generator.ImageGenConfig.Height Generator.ImageGenConfig.MaxRetries
            Generator.ImageGenConfig.RetryDelay Generator.ImageGenConfig.Timeout
            Generator.ImageGenConfig.MaxWorkers].
  all: rewrite !Hzz by done.
  all: f_equal.
  all: rewrite <- map_fmap_compose; apply map_fmap_ext; intros k p _; cbn;
       destruct (String.eqb_spec (getenv w (Generator.PlatformConfig.EnvKey p)) "")
         as [He|He]; cbn;
       by destruct (String.eqb_spec (getenv w (Generator.PlatformConfig.EnvKey p)) "").
Qed.

Lemma handlePublish_builtin_only_logs cfg w0 body w :
  only_logs w (handlePublish (initPublisher cfg w0).1 body w).2.
Proof.
  unfold handlePublish. destruct body as [e|req]; [apply only_logs_refl|].
  destruct (PublishReq.ImageID req =? 0)%nat; [apply only_logs_refl|].
  unfold mbind, M_bind, db_First. cbn [fst snd].
  destruct (List.find _ (db w)) as [record|]; [|apply only_logs_refl].
  destruct (negb (String.eqb (ImageRecord.Status record) "approved"));
    [apply only_logs_refl|].
  destruct (publish_loop_builtin cfg w0 (ImageRecord.Path record) (PublishReq.Title req)
              (PublishReq.Content req)
              (platformsToUse (initPublisher cfg w0).1 (PublishReq.Platforms req)) ∅ w)
    as (Hlog & _).
  by destruct (publish_loop _ _ _ _ _ _ _).
Qed.

Lemma keys_ok_same_ids w w' : ids w' = ids w → keys_ok w → keys_ok w'.
Proof. unfold keys_ok. by intros ->. Qed.

(** X26.  If the primary keys of the table are distinct and none is 0,
    they are so again after [handleGenerate], after [moderateImage],
    after [handlePublish] with the manager of [initPublisher], after
    [dailyReport] and after [getGallery], whatever the request; and two
    rows with the same key are the same row. *)
Theorem X26_primary_keys_stay_distinct cfg w0 w :
  keys_ok w →
  (∀ body, keys_ok (handleGenerate cfg body w).2)
  ∧ (∀ body, keys_ok (moderateImage body w).2)
  ∧ (∀ body, keys_ok (handlePublish (initPublisher cfg w0).1 body w).2)
  ∧ (∀ order query, keys_ok (dailyReport order query w).2)
  ∧ (∀ order query, keys_ok (getGallery order query w).2)
  ∧ (∀ x y, x ∈ db w → y ∈ db w → ImageRecord.ID x = ImageRecord.ID y → x = y).
Proof.
  intros [Hnd H0]. split_and!.
  - intros body.
    destruct (handleGenerate_cases cfg body w)
      as [[_ ->]|[(_ & Hdb & _)|(_ & req & r & -> & Hp & Hk & Hgen)]]; [done| |].
    + apply (keys_ok_same_ids w); [|done]. unfold ids. by rewrite Hdb.
    + destruct (generateImage cfg (GenerateReq.Platform req) (GenerateReq.Prompt req)
                  (GenerateReq.Size req) w) as [res w1] eqn:Hrun.
      cbn [fst] in Hgen. subst res.
      destruct (handleGenerate_queued cfg req w r w1 Hp Hk Hrun)
        as (_ & Hdb & Hid & Hfresh & _).
      unfold keys_ok, ids in *. rewrite Hdb, fmap_app. cbn [fmap list_fmap]. split.
      * apply NoDup_app. split; [done|]. split; [|apply NoDup_singleton].
        intros i Hi ->%list_elem_of_singleton. done.
      * intros [Hin|Hin%list_elem_of_singleton]%elem_of_app; [done|].
        by apply Hid.
  - intros [e|req]; [done|]. unfold moderateImage.
    destruct (_ || _); [done|]. unfold mbind, M_bind, mret, M_ret. cbn [fst snd].
    apply (keys_ok_same_ids w); [apply db_Updates_ids|done].
  - intros body. apply (keys_ok_same_ids w); [|done].
    destruct (handlePublish_builtin_only_logs cfg w0 body w) as (evs & -> & _). done.
  - intros order query. unfold dailyReport, db_Where_date.
    unfold mbind, M_bind, mret, M_ret, time_Now.
    by destruct (tally _ _ _ _ _) as [[[? ?] ?] ?].
  - intros order query. by split.
  - intros x y Hx Hy Hxy.
    pose proof (find_unique_id (db w) x Hnd Hx) as Hfx.
    pose proof (find_unique_id (db w) y Hnd Hy) as Hfy.
    rewrite Hxy in Hfx. congruence.
Qed.

Lemma X26_witness :
  (∀ body, keys_ok (handleGenerate example_cfg body pending_record_world).2)
  ∧ (∀ body, keys_ok (moderateImage body pending_record_world).2)
  ∧ (∀ body, keys_ok (handlePublish (initPublisher example_cfg (example_world [])).1 body
                                    pending_record_world).2)
  ∧ (∀ order query, keys_ok (dailyReport order query pending_record_world).2)
  ∧ (∀ order query, keys_ok (getGallery order query pending_record_world).2)
  ∧ (∀ x y, x ∈ db pending_record_world → y ∈ db pending_record_world →
            ImageRecord.ID x = ImageRecord.ID y → x = y).
Proof.
  apply (X26_primary_keys_stay_distinct example_cfg (example_world []) pending_record_world).
  apply (bool_decide_unpack _). vm_compute. exact I.
Defined.
